(** * The HTTP/2 multiplexing core: [node_http2_core.cc] and
      [node_http2_core-inl.h]

    A shallow embedding of [Nghttp2Session] and [Nghttp2Stream].  One
    [Session] value stands for one connection: the stream registry, the
    stream objects it points to, the nodes of their linked lists, the
    object pools, the part of the nghttp2 engine the core talks to, and
    the trace of every call that leaves the core (consumer callbacks,
    write completions, transport sends, engine submissions).  Member
    functions are computations in a state monad whose results distinguish
    normal return from [CHECK]/[assert] aborts and from dereferences of
    null or dangling pointers. *)

From Stdlib Require Import ZArith Lia List.
From Stdlib Require Import Strings.String Strings.Byte.
From stdpp Require Import base option list gmap.

Local Open Scope Z_scope.

(** ** Data *)

(** [uv_buf_t]: a base pointer and a length, i.e. a run of bytes. *)
Abbreviation uv_buf_t := (list byte).

(** Address of an object: an [Nghttp2Stream], a data chunk node or a
    header list node. *)
Abbreviation ptr := positive.

(** [nghttp2_rcbuf*]: a reference-counted engine buffer, named by its
    contents. *)
Abbreviation nghttp2_rcbuf := string.

Inductive nghttp2_headers_category :=
| NGHTTP2_HCAT_REQUEST
| NGHTTP2_HCAT_RESPONSE
| NGHTTP2_HCAT_PUSH_RESPONSE
| NGHTTP2_HCAT_HEADERS.

Inductive nghttp2_frame_type :=
| NGHTTP2_DATA
| NGHTTP2_HEADERS
| NGHTTP2_PRIORITY
| NGHTTP2_RST_STREAM
| NGHTTP2_SETTINGS
| NGHTTP2_PUSH_PROMISE
| NGHTTP2_PING
| NGHTTP2_GOAWAY
| NGHTTP2_WINDOW_UPDATE
| NGHTTP2_CONTINUATION.

Record nghttp2_priority_spec := {
  spec_stream_id : Z;
  spec_weight : Z;
  spec_exclusive : Z
}.

(** The fields of the [nghttp2_frame] union that the core reads. *)
Record nghttp2_frame := {
  hd_type : nghttp2_frame_type;
  hd_stream_id : Z;
  hd_flags : Z;
  hd_length : Z;
  promised_stream_id : Z;
  headers_cat : nghttp2_headers_category;
  pri_spec : nghttp2_priority_spec
}.

(** The name and the value of a header: the fields of
    [nghttp2_header_list] other than [next]. *)
Record nghttp2_header_list := {
  name : nghttp2_rcbuf;
  value : nghttp2_rcbuf
}.

(** A node of a singly linked list: the fields of the struct, and the
    [next] pointer, [None] for null.  The nodes live in a store of their
    own and are named by address, so that a [next] nobody has reset still
    points where it pointed. *)
Record linked (T : Type) := {
  fields : T;
  next : option ptr
}.

Arguments fields {T} _.
Arguments next {T} _.

Definition set_fields {T} (x : linked T) (v : T) : linked T :=
  {| fields := v; next := next x |}.

Definition set_next {T} (x : linked T) (v : option ptr) : linked T :=
  {| fields := fields x; next := v |}.

(** What is found following [next] from [head]: the fields of the
    nodes, in order, up to a null [next] or a node that is not allocated,
    and [fuel] nodes at most. *)
Fixpoint list_from {T} (nodes : gmap ptr (linked T)) (fuel : nat)
    (head : option ptr) : list T :=
  match fuel, head with
  | S fuel', Some p =>
      match nodes !! p with
      | Some x => fields x :: list_from nodes fuel' (next x)
      | None => []
      end
  | _, _ => []
  end.

(** [nghttp2_data_chunk_t]: [buf] and [next].  [buf] is [None] once
    [buf.base] has been freed, and in a node that never had a buffer. *)
Abbreviation nghttp2_data_chunk_t := (linked (option uv_buf_t)).

(** A node of a stream's header list. *)
Abbreviation nghttp2_header_node := (linked nghttp2_header_list).

(** [nghttp2_nv]: a trailer name/value pair. *)
Record nghttp2_nv := {
  nv_name : string;
  nv_value : string
}.

(** One node of a stream's outbound queue.  [cb] is the completion
    callback, [None] for a null function pointer; [nbufs] is the length
    of [bufs]. *)
Record nghttp2_stream_write_queue := {
  cb : option nat;
  req : nat;
  bufs : list uv_buf_t
}.

(** The outbound queue, whose nodes [Write] allocates and the pull
    deletes, is a list here; its head is null exactly when the list is
    empty.  The list of inbound data chunks and the list of headers, whose
    nodes come from pools, are kept as the code keeps them: a head and a
    tail pointer each. *)
Record Nghttp2Stream := {
  session_ : bool;                        (* false: nullptr *)
  queue_ : list nghttp2_stream_write_queue;
  data_chunks_head_ : option ptr;
  data_chunks_tail_ : option ptr;
  current_headers_head_ : option ptr;
  current_headers_tail_ : option ptr;
  current_headers_category_ : nghttp2_headers_category;
  flags_ : Z;
  id_ : Z;
  code_ : Z;
  prev_local_window_size_ : Z;
  queue_head_index_ : nat;
  queue_head_offset_ : nat
}.

Definition set_session_ (x : Nghttp2Stream) (v : bool) : Nghttp2Stream :=
  {| session_ := v; queue_ := queue_ x;
     data_chunks_head_ := data_chunks_head_ x;
     data_chunks_tail_ := data_chunks_tail_ x;
     current_headers_head_ := current_headers_head_ x;
     current_headers_tail_ := current_headers_tail_ x;
     current_headers_category_ := current_headers_category_ x;
     flags_ := flags_ x; id_ := id_ x; code_ := code_ x;
     prev_local_window_size_ := prev_local_window_size_ x;
     queue_head_index_ := queue_head_index_ x;
     queue_head_offset_ := queue_head_offset_ x |}.

Definition set_queue_ (x : Nghttp2Stream) (v : list nghttp2_stream_write_queue)
    : Nghttp2Stream :=
  {| session_ := session_ x; queue_ := v;
     data_chunks_head_ := data_chunks_head_ x;
     data_chunks_tail_ := data_chunks_tail_ x;
     current_headers_head_ := current_headers_head_ x;
     current_headers_tail_ := current_headers_tail_ x;
     current_headers_category_ := current_headers_category_ x;
     flags_ := flags_ x; id_ := id_ x; code_ := code_ x;
     prev_local_window_size_ := prev_local_window_size_ x;
     queue_head_index_ := queue_head_index_ x;
     queue_head_offset_ := queue_head_offset_ x |}.

Definition set_data_chunks_head_ (x : Nghttp2Stream) (v : option ptr)
    : Nghttp2Stream :=
  {| session_ := session_ x; queue_ := queue_ x; data_chunks_head_ := v;
     data_chunks_tail_ := data_chunks_tail_ x;
     current_headers_head_ := current_headers_head_ x;
     current_headers_tail_ := current_headers_tail_ x;
     current_headers_category_ := current_headers_category_ x;
     flags_ := flags_ x; id_ := id_ x; code_ := code_ x;
     prev_local_window_size_ := prev_local_window_size_ x;
     queue_head_index_ := queue_head_index_ x;
     queue_head_offset_ := queue_head_offset_ x |}.

Definition set_data_chunks_tail_ (x : Nghttp2Stream) (v : option ptr)
    : Nghttp2Stream :=
  {| session_ := session_ x; queue_ := queue_ x;
     data_chunks_head_ := data_chunks_head_ x; data_chunks_tail_ := v;
     current_headers_head_ := current_headers_head_ x;
     current_headers_tail_ := current_headers_tail_ x;
     current_headers_category_ := current_headers_category_ x;
     flags_ := flags_ x; id_ := id_ x; code_ := code_ x;
     prev_local_window_size_ := prev_local_window_size_ x;
     queue_head_index_ := queue_head_index_ x;
     queue_head_offset_ := queue_head_offset_ x |}.

Definition set_current_headers_head_ (x : Nghttp2Stream) (v : option ptr)
    : Nghttp2Stream :=
  {| session_ := session_ x; queue_ := queue_ x;
     data_chunks_head_ := data_chunks_head_ x;
     data_chunks_tail_ := data_chunks_tail_ x; current_headers_head_ := v;
     current_headers_tail_ := current_headers_tail_ x;
     current_headers_category_ := current_headers_category_ x;
     flags_ := flags_ x; id_ := id_ x; code_ := code_ x;
     prev_local_window_size_ := prev_local_window_size_ x;
     queue_head_index_ := queue_head_index_ x;
     queue_head_offset_ := queue_head_offset_ x |}.

Definition set_current_headers_tail_ (x : Nghttp2Stream) (v : option ptr)
    : Nghttp2Stream :=
  {| session_ := session_ x; queue_ := queue_ x;
     data_chunks_head_ := data_chunks_head_ x;
     data_chunks_tail_ := data_chunks_tail_ x;
     current_headers_head_ := current_headers_head_ x;
     current_headers_tail_ := v;
     current_headers_category_ := current_headers_category_ x;
     flags_ := flags_ x; id_ := id_ x; code_ := code_ x;
     prev_local_window_size_ := prev_local_window_size_ x;
     queue_head_index_ := queue_head_index_ x;
     queue_head_offset_ := queue_head_offset_ x |}.

Definition set_current_headers_category_ (x : Nghttp2Stream)
    (v : nghttp2_headers_category) : Nghttp2Stream :=
  {| session_ := session_ x; queue_ := queue_ x;
     data_chunks_head_ := data_chunks_head_ x;
     data_chunks_tail_ := data_chunks_tail_ x;
     current_headers_head_ := current_headers_head_ x;
     current_headers_tail_ := current_headers_tail_ x;
     current_headers_category_ := v; flags_ := flags_ x; id_ := id_ x;
     code_ := code_ x; prev_local_window_size_ := prev_local_window_size_ x;
     queue_head_index_ := queue_head_index_ x;
     queue_head_offset_ := queue_head_offset_ x |}.

Definition set_flags_ (x : Nghttp2Stream) (v : Z) : Nghttp2Stream :=
  {| session_ := session_ x; queue_ := queue_ x;
     data_chunks_head_ := data_chunks_head_ x;
     data_chunks_tail_ := data_chunks_tail_ x;
     current_headers_head_ := current_headers_head_ x;
     current_headers_tail_ := current_headers_tail_ x;
     current_headers_category_ := current_headers_category_ x; flags_ := v;
     id_ := id_ x; code_ := code_ x;
     prev_local_window_size_ := prev_local_window_size_ x;
     queue_head_index_ := queue_head_index_ x;
     queue_head_offset_ := queue_head_offset_ x |}.

Definition set_prev_local_window_size_ (x : Nghttp2Stream) (v : Z)
    : Nghttp2Stream :=
  {| session_ := session_ x; queue_ := queue_ x;
     data_chunks_head_ := data_chunks_head_ x;
     data_chunks_tail_ := data_chunks_tail_ x;
     current_headers_head_ := current_headers_head_ x;
     current_headers_tail_ := current_headers_tail_ x;
     current_headers_category_ := current_headers_category_ x;
     flags_ := flags_ x; id_ := id_ x; code_ := code_ x;
     prev_local_window_size_ := v; queue_head_index_ := queue_head_index_ x;
     queue_head_offset_ := queue_head_offset_ x |}.

(** The head-of-queue cursor: [queue_head_index_], [queue_head_offset_]. *)
Definition set_cursor (x : Nghttp2Stream) (index : nat) (offset : nat)
    : Nghttp2Stream :=
  {| session_ := session_ x; queue_ := queue_ x;
     data_chunks_head_ := data_chunks_head_ x;
     data_chunks_tail_ := data_chunks_tail_ x;
     current_headers_head_ := current_headers_head_ x;
     current_headers_tail_ := current_headers_tail_ x;
     current_headers_category_ := current_headers_category_ x;
     flags_ := flags_ x; id_ := id_ x; code_ := code_ x;
     prev_local_window_size_ := prev_local_window_size_ x;
     queue_head_index_ := index; queue_head_offset_ := offset |}.

(** ** Calls that leave the core *)

Inductive event :=
(* virtual functions implemented by the external consumer *)
| EvOnDataChunk (stream : ptr) (chunk : uv_buf_t)
(* OnHeaders receives the head of the list; [nodes] is the store of
   header nodes at the time of the call *)
| EvOnHeaders (stream : ptr) (head : option ptr)
    (nodes : gmap ptr nghttp2_header_node)
    (cat : nghttp2_headers_category) (flags : Z)
| EvOnStreamClose (id : Z) (code : Z)
| EvOnSettings
| EvOnPriority (id parent weight exclusive : Z)
| EvOnTrailers (stream : ptr)
(* completion callback of a stream write: cb(req, status) *)
| EvWriteCb (f : nat) (req : nat) (status : Z)
(* bytes stored through the engine's DATA frame buffer by the pull *)
| EvCopyOut (bytes : list byte)
(* transport *)
| EvSend (bytes : list byte)
(* engine *)
| EvMemRecv (bytes : list byte)
| EvRcbufIncref (rc : nghttp2_rcbuf)
| EvRcbufDecref (rc : nghttp2_rcbuf)
| EvResumeData (id : Z)
| EvSubmitTrailer (id : Z) (nva : list nghttp2_nv).

(** ** The connection *)

Record Session := {
  streams_ : gmap Z ptr;                 (* Nghttp2Session::streams_ *)
  heap : gmap ptr Nghttp2Stream;         (* the Nghttp2Stream objects *)
  data_chunks : gmap ptr nghttp2_data_chunk_t;  (* the chunk nodes *)
  header_nodes : gmap ptr nghttp2_header_node;  (* the header nodes *)
  stream_free_list : list ptr;
  data_chunk_free_list : list ptr;
  header_free_list : list ptr;
  local_window_size : Z -> Z;            (* engine: per-stream window *)
  pending_send : list (list byte);       (* engine: serialized output *)
  trace : list event
}.

Definition set_streams_ (x : Session) (v : gmap Z ptr) : Session :=
  {| streams_ := v; heap := heap x; data_chunks := data_chunks x;
     header_nodes := header_nodes x; stream_free_list := stream_free_list x;
     data_chunk_free_list := data_chunk_free_list x;
     header_free_list := header_free_list x;
     local_window_size := local_window_size x;
     pending_send := pending_send x; trace := trace x |}.

Definition set_heap (x : Session) (v : gmap ptr Nghttp2Stream) : Session :=
  {| streams_ := streams_ x; heap := v; data_chunks := data_chunks x;
     header_nodes := header_nodes x; stream_free_list := stream_free_list x;
     data_chunk_free_list := data_chunk_free_list x;
     header_free_list := header_free_list x;
     local_window_size := local_window_size x;
     pending_send := pending_send x; trace := trace x |}.

Definition set_data_chunks (x : Session) (v : gmap ptr nghttp2_data_chunk_t)
    : Session :=
  {| streams_ := streams_ x; heap := heap x; data_chunks := v;
     header_nodes := header_nodes x; stream_free_list := stream_free_list x;
     data_chunk_free_list := data_chunk_free_list x;
     header_free_list := header_free_list x;
     local_window_size := local_window_size x;
     pending_send := pending_send x; trace := trace x |}.

Definition set_header_nodes (x : Session) (v : gmap ptr nghttp2_header_node)
    : Session :=
  {| streams_ := streams_ x; heap := heap x; data_chunks := data_chunks x;
     header_nodes := v; stream_free_list := stream_free_list x;
     data_chunk_free_list := data_chunk_free_list x;
     header_free_list := header_free_list x;
     local_window_size := local_window_size x;
     pending_send := pending_send x; trace := trace x |}.

Definition set_stream_free_list (x : Session) (v : list ptr) : Session :=
  {| streams_ := streams_ x; heap := heap x; data_chunks := data_chunks x;
     header_nodes := header_nodes x; stream_free_list := v;
     data_chunk_free_list := data_chunk_free_list x;
     header_free_list := header_free_list x;
     local_window_size := local_window_size x;
     pending_send := pending_send x; trace := trace x |}.

Definition set_data_chunk_free_list (x : Session) (v : list ptr) : Session :=
  {| streams_ := streams_ x; heap := heap x; data_chunks := data_chunks x;
     header_nodes := header_nodes x; stream_free_list := stream_free_list x;
     data_chunk_free_list := v; header_free_list := header_free_list x;
     local_window_size := local_window_size x;
     pending_send := pending_send x; trace := trace x |}.

Definition set_header_free_list (x : Session) (v : list ptr) : Session :=
  {| streams_ := streams_ x; heap := heap x; data_chunks := data_chunks x;
     header_nodes := header_nodes x; stream_free_list := stream_free_list x;
     data_chunk_free_list := data_chunk_free_list x; header_free_list := v;
     local_window_size := local_window_size x;
     pending_send := pending_send x; trace := trace x |}.

Definition set_local_window_size (x : Session) (v : Z -> Z) : Session :=
  {| streams_ := streams_ x; heap := heap x; data_chunks := data_chunks x;
     header_nodes := header_nodes x; stream_free_list := stream_free_list x;
     data_chunk_free_list := data_chunk_free_list x;
     header_free_list := header_free_list x; local_window_size := v;
     pending_send := pending_send x; trace := trace x |}.

Definition set_pending_send (x : Session) (v : list (list byte)) : Session :=
  {| streams_ := streams_ x; heap := heap x; data_chunks := data_chunks x;
     header_nodes := header_nodes x; stream_free_list := stream_free_list x;
     data_chunk_free_list := data_chunk_free_list x;
     header_free_list := header_free_list x;
     local_window_size := local_window_size x; pending_send := v;
     trace := trace x |}.

Definition set_trace (x : Session) (v : list event) : Session :=
  {| streams_ := streams_ x; heap := heap x; data_chunks := data_chunks x;
     header_nodes := header_nodes x; stream_free_list := stream_free_list x;
     data_chunk_free_list := data_chunk_free_list x;
     header_free_list := header_free_list x;
     local_window_size := local_window_size x;
     pending_send := pending_send x; trace := v |}.
(** ** Results and the state monad *)

Inductive outcome (A : Type) : Type :=
| Done (a : A)
| Abort        (* a failed CHECK or assert *)
| Undefined    (* null or dangling pointer dereference, read out of range *)
| OutOfFuel.   (* a loop that did not finish within its iteration bound *)

Arguments Done {A} a.
Arguments Abort {A}.
Arguments Undefined {A}.
Arguments OutOfFuel {A}.

Definition M (A : Type) : Type := Session -> outcome (A * Session).

Definition ret {A} (a : A) : M A := fun w => Done (a, w).

Definition bind {A B} (k : A -> M B) (m : M A) : M B :=
  fun w =>
    match m w with
    | Done (a, w') => k a w'
    | Abort => Abort
    | Undefined => Undefined
    | OutOfFuel => OutOfFuel
    end.

#[global] Instance M_ret : MRet M := @ret.
#[global] Instance M_bind : MBind M := @bind.

Definition get : M Session := fun w => Done (w, w).
Definition put (w : Session) : M unit := fun _ => Done (tt, w).
Definition modify (f : Session -> Session) : M unit :=
  fun w => Done (tt, f w).
Definition fail_abort {A} : M A := fun _ => Abort.
Definition fail_undefined {A} : M A := fun _ => Undefined.

(** Append calls to the trace. *)
Definition emit (evs : list event) : M unit :=
  modify (fun w => set_trace w (trace w ++ evs)).

(** [this->field]: undefined when [this] is not a live object. *)
Definition load (p : ptr) : M Nghttp2Stream :=
  fun w =>
    match heap w !! p with
    | Some s => Done (s, w)
    | None => Undefined
    end.

Definition store (p : ptr) (s : Nghttp2Stream) : M unit :=
  modify (fun w => set_heap w (<[p := s]> (heap w))).

(** Dereference of a possibly null [Nghttp2Stream*]. *)
Definition deref (o : option ptr) : M ptr :=
  match o with
  | Some p => ret p
  | None => fail_undefined
  end.

(** [chunk->field] and [header->field], for the nodes of the two pooled
    lists: undefined when the node is not allocated. *)
Definition load_chunk (p : ptr) : M nghttp2_data_chunk_t :=
  fun w =>
    match data_chunks w !! p with
    | Some c => Done (c, w)
    | None => Undefined
    end.

Definition store_chunk (p : ptr) (c : nghttp2_data_chunk_t) : M unit :=
  modify (fun w => set_data_chunks w (<[p := c]> (data_chunks w))).

Definition load_header (p : ptr) : M nghttp2_header_node :=
  fun w =>
    match header_nodes w !! p with
    | Some h => Done (h, w)
    | None => Undefined
    end.

Definition store_header (p : ptr) (h : nghttp2_header_node) : M unit :=
  modify (fun w => set_header_nodes w (<[p := h]> (header_nodes w))).

(** ** Constants of libuv and nghttp2 *)

Definition UV_EOF : Z := -4095.
Definition NGHTTP2_NO_ERROR : Z := 0.
Definition NGHTTP2_ERR_DEFERRED : Z := -508.
Definition NGHTTP2_FLAG_ACK : Z := 1.
Definition NGHTTP2_DATA_FLAG_EOF : Z := 1.
Definition NGHTTP2_DATA_FLAG_NO_END_STREAM : Z := 2.

(** ** Stream flags

    Modelled from the spec: the enumeration [nghttp2_stream_flags] and the
    inline predicates over it are declared in [node_http2_core.h], which is
    not among the sources.  The flags are distinct single bits of [flags_];
    the predicates are the ones the comments of [ReadStart], [ReadStop] and
    [Destroy] describe: reading means started and not paused, destroying
    means the bit that [Destroy] sets. *)

Definition NGHTTP2_STREAM_FLAG_NONE : Z := 0.
Definition NGHTTP2_STREAM_FLAG_SHUT : Z := 1.
Definition NGHTTP2_STREAM_READ_START : Z := 2.
Definition NGHTTP2_STREAM_READ_PAUSED : Z := 4.
Definition NGHTTP2_STREAM_CLOSED : Z := 8.
Definition NGHTTP2_STREAM_DESTROYED : Z := 16.
Definition NGHTTP2_STREAM_DESTROYING : Z := 32.

Definition has_flag (flags mask : Z) : bool := Z.land flags mask =? mask.

Definition IsPaused (s : Nghttp2Stream) : bool :=
  has_flag (flags_ s) NGHTTP2_STREAM_READ_PAUSED.

Definition IsReading (s : Nghttp2Stream) : bool :=
  has_flag (flags_ s) NGHTTP2_STREAM_READ_START
  && (Z.land (flags_ s) NGHTTP2_STREAM_READ_PAUSED =? 0).

Definition IsDestroyed (s : Nghttp2Stream) : bool :=
  has_flag (flags_ s) NGHTTP2_STREAM_DESTROYED.

Definition IsDestroying (s : Nghttp2Stream) : bool :=
  has_flag (flags_ s) NGHTTP2_STREAM_DESTROYING.

(** [FREELIST_MAX], the capacity given to every [Freelist]. *)
Definition FREELIST_MAX : nat := 1024.

(** The callbacks the engine makes while it parses inbound bytes. *)
Inductive engine_callback :=
| on_begin_headers (frame : nghttp2_frame)
| on_header (frame : nghttp2_frame) (name value : nghttp2_rcbuf) (flags : Z)
| on_frame_recv (frame : nghttp2_frame)
| on_stream_close (id : Z) (code : Z)
| on_data_chunk_recv (flags : Z) (id : Z) (data : list byte).

(** What one [nghttp2_session_mem_recv] call does, as far as the core can
    tell: the callbacks it makes, the count or error code it returns, and
    the serialized output it queues for a later [nghttp2_session_mem_send]. *)
Record mem_recv_result := {
  callbacks : list engine_callback;
  consumed : Z;
  queued : list (list byte)
}.

Section Core.

(** What [node_http2_core.h], [freelist.h] and the classes derived from
    [Nghttp2Session] supply. *)

(** [Nghttp2Stream::IsWritable], an inline predicate over [flags_]. *)
Variable writable_flags : Z -> bool.

(** [len] of the buffers [AllocateSend] returns. *)
Variable send_buffer_len : nat.

(** The header list the consumer's [OnTrailers] fills in. *)
Variable trailers_of : Session -> ptr -> list nghttp2_nv.

(** The engine's parser; the trace it is given holds every earlier call. *)
Variable mem_recv : Session -> list byte -> mem_recv_result.

(** Where [Freelist::push] puts an instance among those it holds: at
    position [freelist_position pooled item], counted from the end [pop]
    takes from (a position past the other end counts as that end).
    Always 0 is a stack, always the number pooled a queue. *)
Variable freelist_position : list ptr -> ptr -> nat.

(** ** Object pools

    Modelled from the spec: [Freelist] is defined in [freelist.h], which is
    not among the sources.  [pop] returns a recycled instance if the pool is
    non-empty and allocates a fresh one otherwise; [push] returns the
    instance to the pool if the pool is below its capacity bound and
    deallocates it otherwise.  There is no ordering guarantee between
    instances, which is why the position [push] chooses is left open; and
    the pool never clears an instance, so a recycled instance has the
    fields it had when it was pushed.  A fresh list node has a null
    [next]: the core never sets a [next] to null itself. *)

(** Modelled from the spec: the pool once [item] was put among the
    instances [pooled]. *)
Definition Freelist_put (pooled : list ptr) (item : ptr) : list ptr :=
  let k := freelist_position pooled item in
  take k pooled ++ item :: drop k pooled.

(** Modelled from the spec: the instances pooled after [push], which
    takes [item] only below the capacity bound. *)
Definition Freelist_push (pooled : list ptr) (item : ptr) : list ptr :=
  if (length pooled <? FREELIST_MAX)%nat
  then Freelist_put pooled item
  else pooled.

(** Modelled from the spec: [stream_free_list.pop].  The object returned
    is a pooled one, in the state it was pushed in, or a new one. *)
Definition stream_free_list_pop : M ptr :=
  fun w =>
    match stream_free_list w with
    | p :: rest => Done (p, set_stream_free_list w rest)
    | [] => Done (fresh (dom (heap w)), w)
    end.

(** Modelled from the spec: [stream_free_list.push]. *)
Definition stream_free_list_push (p : ptr) : M unit :=
  modify (fun w =>
    if (length (stream_free_list w) <? FREELIST_MAX)%nat
    then set_stream_free_list w (Freelist_put (stream_free_list w) p)
    else set_heap w (delete p (heap w))).

(** Modelled from the spec: [data_chunk_free_list.pop].  The node
    returned is a pooled one, with the [next] it was pushed with, or a new
    one. *)
Definition data_chunk_free_list_pop : M ptr :=
  fun w =>
    match data_chunk_free_list w with
    | p :: rest => Done (p, set_data_chunk_free_list w rest)
    | [] =>
        let p := fresh (dom (data_chunks w)) in
        Done (p, set_data_chunks w
                   (<[p := {| fields := None; next := None |}]>
                      (data_chunks w)))
    end.

(** Modelled from the spec: [data_chunk_free_list.push]. *)
Definition data_chunk_free_list_push (p : ptr) : M unit :=
  modify (fun w =>
    if (length (data_chunk_free_list w) <? FREELIST_MAX)%nat
    then set_data_chunk_free_list w
           (Freelist_put (data_chunk_free_list w) p)
    else set_data_chunks w (delete p (data_chunks w))).

(** Modelled from the spec: [header_free_list.pop].  The node returned
    is a pooled one, with the name, value and [next] it was pushed with,
    or a new one. *)
Definition header_free_list_pop : M ptr :=
  fun w =>
    match header_free_list w with
    | p :: rest => Done (p, set_header_free_list w rest)
    | [] =>
        let p := fresh (dom (header_nodes w)) in
        Done (p, set_header_nodes w
                   (<[p := {| fields := {| name := EmptyString;
                                           value := EmptyString |};
                              next := None |}]>
                      (header_nodes w)))
    end.

(** Modelled from the spec: [header_free_list.push]. *)
Definition header_free_list_push (p : ptr) : M unit :=
  modify (fun w =>
    if (length (header_free_list w) <? FREELIST_MAX)%nat
    then set_header_free_list w (Freelist_put (header_free_list w) p)
    else set_header_nodes w (delete p (header_nodes w))).

(** ** The engine's flow-control interface

    Modelled from the spec: the protocol engine is an external collaborator
    with the interface [get/set_local_window(stream_id[, value])]; it is
    taken as a store of one signed window per stream id. *)

Definition nghttp2_session_get_stream_local_window_size (id : Z) : M Z :=
  w ← get; mret (local_window_size w id).

Definition nghttp2_session_set_local_window_size (id : Z) (size : Z)
    : M unit :=
  modify (fun w =>
    set_local_window_size w
      (fun i => if decide (i = id) then size else local_window_size w i)).

(** ** Nghttp2Session: the registry *)

Definition FindStream (id : Z) : M (option ptr) :=
  w ← get; mret (streams_ w !! id).

Definition AddStream (id : Z) (stream : ptr) : M unit :=
  modify (fun w => set_streams_ w (<[id := stream]> (streams_ w))).

Definition RemoveStream (id : Z) : M unit :=
  modify (fun w => set_streams_ w (delete id (streams_ w))).

(** Unfolds the monad and the primitive accesses to the session. *)
Ltac munfold :=
  cbv beta iota delta [mbind M_bind bind mret M_ret ret get put modify emit
    load store load_chunk store_chunk load_header store_header deref
    fail_abort fail_undefined FindStream] in *.

(** ** Nghttp2Stream *)

Definition ResetState (id : Z) (category : nghttp2_headers_category)
    : Nghttp2Stream :=
  {| session_ := true;
     queue_ := [];
     data_chunks_head_ := None;
     data_chunks_tail_ := None;
     current_headers_head_ := None;
     current_headers_tail_ := None;
     current_headers_category_ := category;
     flags_ := NGHTTP2_STREAM_FLAG_NONE;
     id_ := id;
     code_ := NGHTTP2_NO_ERROR;
     prev_local_window_size_ := 65535;
     queue_head_index_ := 0;
     queue_head_offset_ := 0 |}.

Definition Nghttp2Stream_Init (id : Z)
    (category : nghttp2_headers_category) : M ptr :=
  stream ← stream_free_list_pop;
  store stream (ResetState id category);;
  AddStream id stream;;
  mret stream.

(** Modelled from the spec: [StartHeaders] is declared in
    [node_http2_core.h], which is not among the sources; it marks the
    stream as starting a new header block for the given category. *)
Definition StartHeaders (this : ptr) (category : nghttp2_headers_category)
    : M unit :=
  s ← load this;
  store this (set_current_headers_category_ s category).

(** The loop of [FreeHeaders].  Every iteration pushes a node: the pool
    takes at most [FREELIST_MAX] of them, each further one is deallocated,
    and the loop cannot pass a deallocated node, so the bound
    [FreeHeaders] gives is never reached. *)
Fixpoint FreeHeaders_loop (fuel : nat) (this : ptr) : M unit :=
  match fuel with
  | O => fun _ => OutOfFuel
  | S fuel' =>
      s ← load this;
      match current_headers_head_ s with
      | None => mret tt
      | Some item =>
          h ← load_header item;
          store this (set_current_headers_head_ s (next h));;
          emit [EvRcbufDecref (value (fields h))];;
          header_free_list_push item;;
          FreeHeaders_loop fuel' this
      end
  end.

Definition FreeHeaders (this : ptr) : M unit :=
  w ← get;
  FreeHeaders_loop (S (FREELIST_MAX + size (header_nodes w))) this;;
  s ← load this;
  store this (set_current_headers_tail_ s None).

(** The loop of [Destroy] that frees the remaining data chunks.
    [delete[]] of a buffer that was freed before is undefined; every
    iteration frees the buffer of a node, so the loop makes at most as
    many iterations as there are nodes. *)
Fixpoint Destroy_chunks_loop (fuel : nat) (this : ptr) : M unit :=
  match fuel with
  | O => fun _ => OutOfFuel
  | S fuel' =>
      s ← load this;
      match data_chunks_head_ s with
      | None => mret tt
      | Some chunk =>
          c ← load_chunk chunk;
          store this (set_data_chunks_head_ s (next c));;
          match fields c with
          | None => fail_undefined               (* freed twice *)
          | Some _ =>
              store_chunk chunk (set_fields c None);;
              data_chunk_free_list_push chunk;;
              Destroy_chunks_loop fuel' this
          end
      end
  end.

Definition Nghttp2Stream_Destroy (this : ptr) : M unit :=
  s ← load this;
  if IsDestroyed s || IsDestroying s then mret tt
  else
    let s := set_flags_ s (Z.lor (flags_ s) NGHTTP2_STREAM_DESTROYING) in
    store this s;;
    (if session_ s
     then RemoveStream (id_ s);; store this (set_session_ s false)
     else mret tt);;
    w ← get;
    Destroy_chunks_loop (S (size (data_chunks w))) this;;
    s ← load this;
    store this (set_data_chunks_tail_ s None);;
    FreeHeaders this;;
    stream_free_list_push this.

(** Modelled from the spec: [Close] is declared in [node_http2_core.h],
    which is not among the sources; on stream close the closure code is
    delivered to the external consumer, then the stream is destroyed. *)
Definition Nghttp2Stream_Close (this : ptr) (code : Z) : M unit :=
  s ← load this;
  emit [EvOnStreamClose (id_ s) code];;
  Nghttp2Stream_Destroy this.

Definition ReadStart (this : ptr) : M unit :=
  s ← load this;
  (if IsPaused s
   then if session_ s
        then nghttp2_session_set_local_window_size (id_ s)
               (prev_local_window_size_ s)
        else fail_undefined
   else mret tt);;
  let flags := Z.lor (flags_ s) NGHTTP2_STREAM_READ_START in
  let flags := Z.land flags (Z.lnot NGHTTP2_STREAM_READ_PAUSED) in
  store this (set_flags_ s flags).

Definition ReadStop (this : ptr) : M unit :=
  s ← load this;
  if negb (IsReading s) then mret tt
  else
    let s := set_flags_ s (Z.lor (flags_ s) NGHTTP2_STREAM_READ_PAUSED) in
    store this s;;
    if session_ s
    then
      r ← nghttp2_session_get_stream_local_window_size (id_ s);
      (if 0 <=? r
       then store this (set_prev_local_window_size_ s r)
       else mret tt);;
      nghttp2_session_set_local_window_size (id_ s) 0
    else fail_undefined.

(** ** Nghttp2Session: frame-complete handlers *)

(** The loop of [HandleDataFrame].  The consumer's [OnDataChunk] gets
    the node; a node whose buffer was freed hands it freed memory, which
    [delete[]] then frees again.  Every iteration frees the buffer of a
    node, so the loop makes at most as many iterations as there are
    nodes. *)
Fixpoint HandleDataFrame_loop (fuel : nat) (stream : ptr) : M unit :=
  match fuel with
  | O => fun _ => OutOfFuel
  | S fuel' =>
      s ← load stream;
      match data_chunks_head_ s with
      | None => mret tt
      | Some item =>
          c ← load_chunk item;
          store stream (set_data_chunks_head_ s (next c));;
          match fields c with
          | None => fail_undefined
          | Some chunk =>
              emit [EvOnDataChunk stream chunk];;
              store_chunk item (set_fields c None);;
              data_chunk_free_list_push item;;
              HandleDataFrame_loop fuel' stream
          end
      end
  end.

Definition HandleDataFrame (frame : nghttp2_frame) : M unit :=
  let id := hd_stream_id frame in
  stream ← FindStream id;
  match stream with
  | None => fail_abort                       (* CHECK_NE(stream, nullptr) *)
  | Some stream =>
      w ← get;
      HandleDataFrame_loop (S (size (data_chunks w))) stream;;
      s ← load stream;
      store stream (set_data_chunks_tail_ s None)
  end.

(** The stream a HEADERS or PUSH_PROMISE frame is about. *)
Definition headers_frame_id (frame : nghttp2_frame) : Z :=
  match hd_type frame with
  | NGHTTP2_PUSH_PROMISE => promised_stream_id frame
  | _ => hd_stream_id frame
  end.

Definition HandleHeadersFrame (frame : nghttp2_frame) : M unit :=
  let id := headers_frame_id frame in
  stream ← FindStream id;
  match stream with
  | None => fail_abort                       (* CHECK_NE(stream, nullptr) *)
  | Some stream =>
      s ← load stream;
      w ← get;
      emit [EvOnHeaders stream (current_headers_head_ s) (header_nodes w)
              (current_headers_category_ s) (hd_flags frame)];;
      FreeHeaders stream
  end.

Definition HandlePriorityFrame (frame : nghttp2_frame) : M unit :=
  let id := hd_stream_id frame in
  if 0 <? id
  then
    let spec := pri_spec frame in
    emit [EvOnPriority id (spec_stream_id spec) (spec_weight spec)
            (spec_exclusive spec)]
  else mret tt.

(** ** Callback dispatch *)

Definition OnBeginHeadersCallback (frame : nghttp2_frame) : M Z :=
  let id := headers_frame_id frame in
  stream ← FindStream id;
  match stream with
  | None => Nghttp2Stream_Init id (headers_cat frame);; mret 0
  | Some stream => StartHeaders stream (headers_cat frame);; mret 0
  end.

Definition OnHeaderCallback (frame : nghttp2_frame)
    (name value : nghttp2_rcbuf) (flags : Z) : M Z :=
  let id := headers_frame_id frame in
  stream ← FindStream id;
  header ← header_free_list_pop;
  h ← load_header header;
  store_header header
    (set_fields h {| name := name; value := value |});;
  emit [EvRcbufIncref name; EvRcbufIncref value];;
  (* LINKED_LIST_ADD(stream->current_headers, header) *)
  stream ← deref stream;
  s ← load stream;
  match current_headers_tail_ s with
  | None =>
      store stream
        (set_current_headers_tail_
           (set_current_headers_head_ s (Some header)) (Some header))
  | Some tail =>
      t ← load_header tail;
      store_header tail (set_next t (Some header));;
      store stream (set_current_headers_tail_ s (Some header))
  end;;
  mret 0.

Definition OnFrameReceive (frame : nghttp2_frame) : M Z :=
  match hd_type frame with
  | NGHTTP2_DATA => HandleDataFrame frame
  | NGHTTP2_PUSH_PROMISE | NGHTTP2_HEADERS => HandleHeadersFrame frame
  | NGHTTP2_SETTINGS =>
      if Z.land (hd_flags frame) NGHTTP2_FLAG_ACK =? 0
      then emit [EvOnSettings]
      else mret tt
  | NGHTTP2_PRIORITY => HandlePriorityFrame frame
  | _ => mret tt
  end;;
  mret 0.

Definition OnStreamClose (id : Z) (code : Z) : M Z :=
  stream ← FindStream id;
  match stream with
  | Some stream => Nghttp2Stream_Close stream code;; mret 0
  | None => mret 0
  end.

Definition OnDataChunkReceived (flags : Z) (id : Z) (data : list byte)
    : M Z :=
  stream ← FindStream id;
  chunk ← data_chunk_free_list_pop;
  c ← load_chunk chunk;
  store_chunk chunk (set_fields c (Some data));; (* Malloc(len), memcpy *)
  stream ← deref stream;
  s ← load stream;
  match data_chunks_tail_ s with
  | None =>
      store stream
        (set_data_chunks_tail_
           (set_data_chunks_head_ s (Some chunk)) (Some chunk))
  | Some tail =>
      t ← load_chunk tail;
      store_chunk tail (set_next t (Some chunk));;
      store stream (set_data_chunks_tail_ s (Some chunk))
  end;;
  mret 0.

Definition dispatch (c : engine_callback) : M Z :=
  match c with
  | on_begin_headers frame => OnBeginHeadersCallback frame
  | on_header frame name value flags =>
      OnHeaderCallback frame name value flags
  | on_frame_recv frame => OnFrameReceive frame
  | on_stream_close id code => OnStreamClose id code
  | on_data_chunk_recv flags id data => OnDataChunkReceived flags id data
  end.

(** The callbacks of one parse, in the order the engine makes them. *)
Fixpoint dispatch_all (cs : list engine_callback) : M unit :=
  match cs with
  | [] => mret tt
  | c :: rest => dispatch c;; dispatch_all rest
  end.

Definition IsWritable (s : Nghttp2Stream) : bool :=
  writable_flags (flags_ s).

(** *** Nghttp2Stream::Write *)

Definition Nghttp2Stream_Write (this : ptr) (req0 : nat)
    (bufs0 : list uv_buf_t) (cb0 : option nat) : M Z :=
  s ← load this;
  if negb (IsWritable s)
  then
    match cb0 with
    | Some f => emit [EvWriteCb f req0 UV_EOF]
    | None => mret tt
    end;;
    mret 0
  else
    let item := {| cb := cb0; req := req0; bufs := bufs0 |} in
    store this (set_queue_ s (queue_ s ++ [item]));;
    (if session_ s then emit [EvResumeData (id_ s)] else fail_undefined);;
    mret 0.

(** *** Nghttp2Session::OnStreamRead *)

(** The inner loop, over the buffers of the request at the head of the
    queue.  The result says whether the loop left through [goto end], and
    gives the stream, [remaining], [offset] and the calls made.  At most
    one iteration per buffer copies part of a buffer, and the loop leaves
    on the iteration after it, so [S (S nbufs)] iterations suffice. *)
Fixpoint OnStreamRead_bufs (fuel : nat) (head : nghttp2_stream_write_queue)
    (s : Nghttp2Stream) (remaining offset : nat) (evs : list event)
    : outcome (bool * Nghttp2Stream * nat * nat * list event) :=
  match fuel with
  | O => OutOfFuel
  | S fuel' =>
      if (queue_head_index_ s <? length (bufs head))%nat
      then
        if (remaining =? 0)%nat
        then Done (true, s, remaining, offset, evs)
        else
          let n := queue_head_index_ s in
          let b := nth n (bufs head) [] in
          (* size_t subtraction: a cursor past the end of the buffer
             makes the copy read out of range *)
          if (length b <? queue_head_offset_ s)%nat then Undefined
          else
            let len := (length b - queue_head_offset_ s)%nat in
            let bytes_to_write :=
              if (len <? remaining)%nat then len else remaining in
            let copied :=
              take bytes_to_write (drop (queue_head_offset_ s) b) in
            let evs := evs ++ [EvCopyOut copied] in
            let offset := (offset + bytes_to_write)%nat in
            let remaining := (remaining - bytes_to_write)%nat in
            let s :=
              if (bytes_to_write <? len)%nat
              then set_cursor s (queue_head_index_ s)
                     (queue_head_offset_ s + bytes_to_write)
              else set_cursor s (S (queue_head_index_ s)) 0 in
            OnStreamRead_bufs fuel' head s remaining offset evs
      else Done (false, s, remaining, offset, evs)
  end.

(** The outer loop; [q] is the list from [queue_head_] on. *)
Fixpoint OnStreamRead_queue (q : list nghttp2_stream_write_queue)
    (s : Nghttp2Stream) (remaining offset : nat) (evs : list event)
    : outcome (Nghttp2Stream * nat * list event) :=
  match q with
  | [] => Done (s, offset, evs)
  | head :: next =>
      match OnStreamRead_bufs (S (S (length (bufs head)))) head s
              remaining offset evs with
      | Done (true, s, _, offset, evs) => Done (s, offset, evs)
      | Done (false, s, remaining, offset, evs) =>
          let s := set_queue_ (set_cursor s 0 0) next in
          match cb head with
          | Some f =>
              OnStreamRead_queue next s remaining offset
                (evs ++ [EvWriteCb f (req head) 0])
          | None => Undefined               (* call through a null cb *)
          end
      | Abort => Abort
      | Undefined => Undefined
      | OutOfFuel => OutOfFuel
      end
  end.

(** Returns the function's result and the final value of [*flags]. *)
Definition OnStreamRead (id : Z) (buf_length : nat) (flags : Z)
    : M (Z * Z) :=
  stream ← FindStream id;
  stream ← deref stream;
  s ← load stream;
  match OnStreamRead_queue (queue_ s) s buf_length 0 [] with
  | Done (s, offset, evs) =>
      store stream s;;
      emit evs;;
      let writable :=
        negb (bool_decide (queue_ s = [])) || IsWritable s in
      if (offset =? 0)%nat && writable && bool_decide (queue_ s = [])
      then mret (NGHTTP2_ERR_DEFERRED, flags)
      else
        flags ←
          (if negb writable
           then
             let flags := Z.lor flags NGHTTP2_DATA_FLAG_EOF in
             emit [EvOnTrailers stream];;
             w ← get;
             let trailers := trailers_of w stream in
             if (0 <? length trailers)%nat
             then
               emit [EvSubmitTrailer (id_ s) trailers];;
               mret (Z.lor flags NGHTTP2_DATA_FLAG_NO_END_STREAM)
             else mret flags
           else mret flags);
        if (offset <=? buf_length)%nat
        then mret (Z.of_nat offset, flags)
        else fail_abort                     (* assert(offset <= length) *)
  | Abort => fail_abort
  | Undefined => fail_undefined
  | OutOfFuel => fun _ => OutOfFuel
  end.

(** *** Nghttp2Session::SendPendingData *)

(** Modelled from the spec: [nghttp2_session_mem_send] belongs to the
    protocol engine, [pull() -> (pointer, length) | empty].  The engine
    hands out the serialized chunks it has queued, oldest first, and
    reports zero when none remain. *)
Definition nghttp2_session_mem_send : M (list byte) :=
  w ← get;
  match pending_send w with
  | [] => mret []
  | data :: rest =>
      modify (fun w => set_pending_send w rest);;
      mret data
  end.

(** [memcpy] out of [data + src_offset]. *)
Definition read_bytes (data : list byte) (src_offset n : nat)
    : M (list byte) :=
  if (src_offset + n <=? length data)%nat
  then mret (take n (drop src_offset data))
  else fail_undefined.

(** The inner loop [while (amount > 0)].  [current] holds the bytes
    stored in the send buffer so far, so [offset] is its length.  The
    result is [current], [remaining] and [src_offset] at exit. *)
Fixpoint SendPendingData_copy (fuel : nat) (data : list byte)
    (amount src_offset : nat) (current : list byte) (remaining : nat)
    : M (list byte * nat * nat) :=
  match fuel with
  | O => fun _ => OutOfFuel
  | S fuel' =>
      if (0 <? amount)%nat
      then
        if (remaining <? amount)%nat
        then
          bytes ← read_bytes data src_offset remaining;
          let current := current ++ bytes in
          let src_offset := remaining in
          let amount := (amount - remaining)%nat in
          emit [EvSend current];;
          SendPendingData_copy fuel' data amount src_offset []
            send_buffer_len
        else
          bytes ← read_bytes data src_offset amount;
          let current := current ++ bytes in
          let remaining := (remaining - amount)%nat in
          SendPendingData_copy fuel' data 0 0 current remaining
      else mret (current, remaining, src_offset)
  end.

(** The outer loop [while ((amount = nghttp2_session_mem_send(..)) > 0)];
    the engine reports zero after at most as many calls as it has chunks
    queued, so one more iteration than that suffices. *)
Fixpoint SendPendingData_loop (n : nat) (src_offset : nat)
    (current : list byte) (remaining : nat) : M (list byte) :=
  match n with
  | O => fun _ => OutOfFuel
  | S n' =>
      data ← nghttp2_session_mem_send;
      let amount := length data in
      if (0 <? amount)%nat
      then
        '(current, remaining, src_offset) ←
          SendPendingData_copy (S (S amount)) data amount src_offset
            current remaining;
        SendPendingData_loop n' src_offset current remaining
      else mret current
  end.

Definition SendPendingData : M unit :=
  w ← get;
  current ←
    SendPendingData_loop (S (length (pending_send w))) 0 [] send_buffer_len;
  emit [EvSend current].

(** *** Nghttp2Session::Write *)

Definition nghttp2_session_mem_recv (buf : uv_buf_t) : M Z :=
  emit [EvMemRecv buf];;
  w ← get;
  let r := mem_recv w buf in
  dispatch_all (callbacks r);;
  modify (fun w => set_pending_send w (pending_send w ++ queued r));;
  mret (consumed r).

Definition to_ssize_t (n : Z) : Z :=
  if n <? 2 ^ 63 then n else n - 2 ^ 64.

(** The [for] loop: [inl ret] when it returns early, [inr total] when it
    runs to the end. *)
Fixpoint Nghttp2Session_Write_loop (bufs0 : list uv_buf_t) (total : Z)
    : M (Z + Z) :=
  match bufs0 with
  | [] => mret (inr total)
  | buf :: rest =>
      r ← nghttp2_session_mem_recv buf;
      if r <? 0 then mret (inl r)
      else Nghttp2Session_Write_loop rest ((total + r) mod 2 ^ 64)
  end.

Definition Nghttp2Session_Write (bufs0 : list uv_buf_t) : M Z :=
  r ← Nghttp2Session_Write_loop bufs0 0;
  match r with
  | inl r => mret r
  | inr total => SendPendingData;; mret (to_ssize_t total)
  end.

(** ** Reading the trace *)

(** The chunks handed to the consumer's [OnDataChunk], in order. *)
Fixpoint on_data_calls (tr : list event) : list (ptr * uv_buf_t) :=
  match tr with
  | [] => []
  | EvOnDataChunk stream chunk :: tr' =>
      (stream, chunk) :: on_data_calls tr'
  | _ :: tr' => on_data_calls tr'
  end.

(** The headers the consumer finds in the list [OnHeaders] hands it.  A
    list that loops has no end; of such a list the consumer is shown as
    many entries as there are nodes. *)
Definition headers_seen (nodes : gmap ptr nghttp2_header_node)
    (head : option ptr) : list nghttp2_header_list :=
  list_from nodes (size nodes) head.

(** The calls of the consumer's [OnHeaders], in order. *)
Fixpoint on_headers_calls (tr : list event)
    : list (ptr * list nghttp2_header_list * nghttp2_headers_category * Z) :=
  match tr with
  | [] => []
  | EvOnHeaders stream head nodes cat flags :: tr' =>
      (stream, headers_seen nodes head, cat, flags) :: on_headers_calls tr'
  | _ :: tr' => on_headers_calls tr'
  end.

(** The buffers handed to the transport's [Send], in order. *)
Fixpoint sent (tr : list event) : list (list byte) :=
  match tr with
  | [] => []
  | EvSend bytes :: tr' => bytes :: sent tr'
  | _ :: tr' => sent tr'
  end.

(** The traffic with the engine's parser and with the transport: buffers
    fed and buffers sent, in order. *)
Definition is_io (e : event) : bool :=
  match e with
  | EvMemRecv _ | EvSend _ => true
  | _ => false
  end.

Fixpoint io (tr : list event) : list event :=
  match tr with
  | [] => []
  | e :: tr' => if is_io e then e :: io tr' else io tr'
  end.

(** A computation that, when it returns, has neither fed the parser nor
    sent anything. *)
Definition quiet {A} (m : M A) : Prop :=
  forall w a w', m w = Done (a, w') -> io (trace w') = io (trace w).

(** The write completions, in order: request and status. *)
Fixpoint completions (tr : list event) : list (nat * Z) :=
  match tr with
  | [] => []
  | EvWriteCb _ r status :: tr' => (r, status) :: completions tr'
  | _ :: tr' => completions tr'
  end.

(** The bytes the pull has stored in the engine's buffers, in order. *)
Fixpoint copied (tr : list event) : list byte :=
  match tr with
  | [] => []
  | EvCopyOut bytes :: tr' => bytes ++ copied tr'
  | _ :: tr' => copied tr'
  end.

(** ** Write requests against the trace

    [fifo_run tr todo acc final] replays the part of a trace that
    concerns one stream's outbound queue.  [todo] holds the requests not
    yet completed, oldest first, and [acc] the bytes the pull has copied
    out since the last completion.  A completion is accepted only if it is
    the callback of the oldest request, with status 0, made when [acc] is
    exactly the bytes of all buffers of that request. *)
Fixpoint fifo_run (tr : list event)
    (todo : list nghttp2_stream_write_queue) (acc : list byte)
    (final : list nghttp2_stream_write_queue * list byte) : Prop :=
  match tr with
  | [] => final = (todo, acc)
  | EvCopyOut bytes :: tr' => fifo_run tr' todo (acc ++ bytes) final
  | EvWriteCb f r status :: tr' =>
      match todo with
      | item :: todo' =>
          cb item = Some f /\ req item = r /\ status = 0 /\
          acc = concat (bufs item) /\
          fifo_run tr' todo' [] final
      | [] => False
      end
  | _ :: tr' => fifo_run tr' todo acc final
  end.

Definition fifo_ok (tr : list event)
    (submitted : list nghttp2_stream_write_queue) : Prop :=
  exists final, fifo_run tr submitted [] final.

(** The bytes of request [head] that lie before buffer [i], offset [o]. *)
Definition head_consumed (head : nghttp2_stream_write_queue) (i o : nat)
    : list byte :=
  concat (take i (bufs head)) ++ take o (nth i (bufs head) []).

(** The bytes of the head request that the cursor has passed. *)
Definition consumed_of (s : Nghttp2Stream) : list byte :=
  match queue_ s with
  | [] => []
  | head :: _ =>
      head_consumed head (queue_head_index_ s) (queue_head_offset_ s)
  end.

(** The cursor points into the head request, and rests at the origin
    when the queue is empty. *)
Definition cursor_ok (s : Nghttp2Stream) : Prop :=
  match queue_ s with
  | [] => queue_head_index_ s = 0%nat /\ queue_head_offset_ s = 0%nat
  | head :: _ =>
      (queue_head_index_ s <= length (bufs head))%nat /\
      (queue_head_offset_ s
       <= length (nth (queue_head_index_ s) (bufs head) []))%nat
  end.

Definition has_cb (item : nghttp2_stream_write_queue) : Prop :=
  is_Some (cb item).

(** What the user and the engine do to one stream's outbound side. *)
Inductive stream_op :=
| OpWrite (req0 : nat) (bufs0 : list uv_buf_t) (cb0 : option nat)
| OpRead (buf_length : nat) (flags : Z).

Definition run_op (this : ptr) (id : Z) (op : stream_op) : M unit :=
  match op with
  | OpWrite req0 bufs0 cb0 =>
      Nghttp2Stream_Write this req0 bufs0 cb0;; mret tt
  | OpRead buf_length flags => OnStreamRead id buf_length flags;; mret tt
  end.

Fixpoint run_ops (this : ptr) (id : Z) (ops : list stream_op) : M unit :=
  match ops with
  | [] => mret tt
  | op :: rest => run_op this id op;; run_ops this id rest
  end.

(** The requests of the writes among [ops], in submission order. *)
Fixpoint writes_of (ops : list stream_op)
    : list nghttp2_stream_write_queue :=
  match ops with
  | [] => []
  | OpWrite req0 bufs0 cb0 :: rest =>
      {| cb := cb0; req := req0; bufs := bufs0 |} :: writes_of rest
  | OpRead _ _ :: rest => writes_of rest
  end.

Definition op_has_cb (op : stream_op) : Prop :=
  match op with
  | OpWrite _ _ cb0 => is_Some cb0
  | OpRead _ _ => True
  end.

(** ** Feeding inbound buffers, without the early exit *)

Fixpoint feed_all (bufs0 : list uv_buf_t) : M (list Z) :=
  match bufs0 with
  | [] => mret []
  | buf :: rest =>
      r ← nghttp2_session_mem_recv buf;
      rs ← feed_all rest;
      mret (r :: rs)
  end.

Definition sum_Z (l : list Z) : Z := fold_right Z.add 0 l.

(** ** Linked lists in the node stores *)

(** [chain m head nodes]: following [next] from [head] in the store [m]
    one finds the nodes [nodes], given by address and fields, and then
    null. *)
Fixpoint chain {T} (m : gmap ptr (linked T)) (head : option ptr)
    (nodes : list (ptr * T)) : Prop :=
  match nodes with
  | [] => head = None
  | (p, f) :: rest =>
      head = Some p /\
      exists nx, m !! p = Some {| fields := f; next := nx |} /\
                 chain m nx rest
  end.

(** A list as [LINKED_LIST_ADD] keeps it: [tail] is its last node, and no
    node is on it twice. *)
Definition linked_list {T} (m : gmap ptr (linked T))
    (head tail : option ptr) (nodes : list (ptr * T)) : Prop :=
  chain m head nodes /\
  tail = last (map fst nodes) /\
  NoDup (map fst nodes).

(** Nodes that can be appended to a list as they are: distinct, allocated,
    and without a successor of their own. *)
Definition unlinked {T} (m : gmap ptr (linked T)) (ps : list ptr) : Prop :=
  NoDup ps /\
  forall p, p ∈ ps -> exists x, m !! p = Some x /\ next x = None.

(** A chunk node with its buffer. *)
Definition with_buf (n : ptr * uv_buf_t) : ptr * option uv_buf_t :=
  (n.1, Some n.2).

(** The store of chunk nodes after the nodes [ps] had their buffers freed
    and were pushed to a pool that held [pooled], in this order. *)
Fixpoint chunks_released (m : gmap ptr nghttp2_data_chunk_t)
    (pooled : list ptr) (ps : list ptr) : gmap ptr nghttp2_data_chunk_t :=
  match ps with
  | [] => m
  | p :: rest =>
      chunks_released
        (if (length pooled <? FREELIST_MAX)%nat
         then alter (fun c => set_fields c None) p m
         else delete p m)
        (Freelist_push pooled p) rest
  end.

(** The store of header nodes after the nodes [ps] were pushed. *)
Fixpoint headers_released (m : gmap ptr nghttp2_header_node)
    (pooled : list ptr) (ps : list ptr) : gmap ptr nghttp2_header_node :=
  match ps with
  | [] => m
  | p :: rest =>
      headers_released
        (if (length pooled <? FREELIST_MAX)%nat then m else delete p m)
        (Freelist_push pooled p) rest
  end.

(** ** Bytes of the outbound queue *)

(** All bytes of a list of requests, in order. *)
Definition all_bytes (items : list nghttp2_stream_write_queue)
    : list byte :=
  concat (map (fun item => concat (bufs item)) items).

(** The bytes queued on a stream that no pull has copied yet. *)
Definition pending_bytes (s : Nghttp2Stream) : nat :=
  (length (all_bytes (queue_ s)) - length (consumed_of s))%nat.

(** The head request, if there is one, has a buffer that the cursor has
    not passed. *)
Definition head_unfinished (s : Nghttp2Stream) : Prop :=
  match queue_ s with
  | [] => True
  | head :: _ => (queue_head_index_ s < length (bufs head))%nat
  end.

(** The number of bytes the pulls among [ops] take out of a queue that
    holds [pending] bytes: a write adds the bytes of its buffers, a pull
    takes what is there, up to the length of the engine's buffer. *)
Fixpoint pulled_bytes (ops : list stream_op) (pending : nat) : nat :=
  match ops with
  | [] => 0
  | OpWrite _ bufs0 _ :: rest =>
      pulled_bytes rest (pending + length (concat bufs0))
  | OpRead buf_length _ :: rest =>
      (Nat.min buf_length pending
       + pulled_bytes rest (pending - buf_length))%nat
  end.

(** ** Stream flags after a restart *)

(** The flags [ReadStart] leaves: started, and not paused. *)
Definition started (flags : Z) : Z :=
  Z.land (Z.lor flags NGHTTP2_STREAM_READ_START)
    (Z.lnot NGHTTP2_STREAM_READ_PAUSED).

(** ** References to engine buffers *)

(** How often [rc] occurs in a list of buffers. *)
Fixpoint occurrences (rc : nghttp2_rcbuf) (l : list nghttp2_rcbuf) : Z :=
  match l with
  | [] => 0
  | r :: l' => (if String.eqb r rc then 1 else 0) + occurrences rc l'
  end.

(** The references to [rc] the core has taken and not given back, going by
    the [nghttp2_rcbuf_incref] and [nghttp2_rcbuf_decref] calls traced. *)
Fixpoint refs_held (tr : list event) (rc : nghttp2_rcbuf) : Z :=
  match tr with
  | [] => 0
  | EvRcbufIncref r :: tr' =>
      (if String.eqb r rc then 1 else 0) + refs_held tr' rc
  | EvRcbufDecref r :: tr' =>
      refs_held tr' rc - (if String.eqb r rc then 1 else 0)
  | _ :: tr' => refs_held tr' rc
  end.

(** ** Inbound chunks of several streams *)

(** The data of the chunks, each given as flags, stream id and bytes, that
    are for stream [id]. *)
Fixpoint chunks_of_stream (id : Z) (chunks : list (Z * Z * uv_buf_t))
    : list uv_buf_t :=
  match chunks with
  | [] => []
  | (_, id', data) :: rest =>
      if decide (id' = id) then data :: chunks_of_stream id rest
      else chunks_of_stream id rest
  end.

(** The tail pointer of every stream object points to an allocated
    chunk node. *)
Definition tails_live (w : Session) : Prop :=
  forall p s t,
    heap w !! p = Some s -> data_chunks_tail_ s = Some t ->
    is_Some (data_chunks w !! t).

(** ** Aborts *)

(** A computation that fails no [CHECK] and no [assert]. *)
Definition never_aborts {A} (m : M A) : Prop := forall w, m w <> Abort.

(** ** The registry and the pool of stream objects *)

(** What [FindStream] and [stream_free_list.pop] may rely on.  Every
    registered id maps to a live object that carries this id, is attached
    to the session and is not being destroyed; every pooled object is live
    and was destroyed; no object is in the pool twice. *)
Definition registry_ok (w : Session) : Prop :=
  (forall id p, streams_ w !! id = Some p ->
     exists s, heap w !! p = Some s /\ id_ s = id /\
               session_ s = true /\ IsDestroying s = false) /\
  (forall p, p ∈ stream_free_list w ->
     exists s, heap w !! p = Some s /\ IsDestroying s = true) /\
  NoDup (stream_free_list w).

(** Two states of one stream object between which it keeps its id, its
    session and its place in its life cycle. *)
Definition same_identity (s s' : Nghttp2Stream) : Prop :=
  id_ s' = id_ s /\ session_ s' = session_ s /\
  IsDestroying s' = IsDestroying s.

(** A step that registers, unregisters, pools and frees nothing, and
    leaves every live object its identity. *)
Definition steady (w w' : Session) : Prop :=
  streams_ w' = streams_ w /\
  stream_free_list w' = stream_free_list w /\
  forall p s, heap w !! p = Some s ->
    exists s', heap w' !! p = Some s' /\ same_identity s s'.

Definition steady_call {A} (m : M A) : Prop :=
  forall w a w', m w = Done (a, w') -> steady w w'.

(** A steady call, when the object [p] is live in state [s]. *)
Definition steady_at {A} (p : ptr) (s : Nghttp2Stream) (m : M A) : Prop :=
  forall w a w', heap w !! p = Some s -> m w = Done (a, w') -> steady w w'.

(** A call that leaves the registry, the stream objects and the stream
    pool as they are. *)
Definition keeps_streams {A} (m : M A) : Prop :=
  forall w a w', m w = Done (a, w') ->
    streams_ w' = streams_ w /\ heap w' = heap w /\
    stream_free_list w' = stream_free_list w.

Definition keeps_registry {A} (m : M A) : Prop :=
  forall w a w', registry_ok w -> m w = Done (a, w') -> registry_ok w'.

(** The entry points of the core: what the consumer calls on a stream or
    on the session, and what the engine calls back. *)
Inductive core_call :=
| call_Init (id : Z) (category : nghttp2_headers_category)
| call_Destroy (this : ptr)
| call_Write (this : ptr) (req : nat) (bufs : list uv_buf_t)
    (cb : option nat)
| call_ReadStart (this : ptr)
| call_ReadStop (this : ptr)
| call_OnStreamRead (id : Z) (buf_length : nat) (flags : Z)
| call_engine (c : engine_callback)
| call_SessionWrite (bufs : list uv_buf_t)
| call_SendPendingData.

Definition run_call (c : core_call) : M unit :=
  match c with
  | call_Init id category => Nghttp2Stream_Init id category;; mret tt
  | call_Destroy this => Nghttp2Stream_Destroy this
  | call_Write this req bufs cb =>
      Nghttp2Stream_Write this req bufs cb;; mret tt
  | call_ReadStart this => ReadStart this
  | call_ReadStop this => ReadStop this
  | call_OnStreamRead id buf_length flags =>
      OnStreamRead id buf_length flags;; mret tt
  | call_engine c => dispatch c;; mret tt
  | call_SessionWrite bufs => Nghttp2Session_Write bufs;; mret tt
  | call_SendPendingData => SendPendingData
  end.

Fixpoint run_calls (cs : list core_call) : M unit :=
  match cs with
  | [] => mret tt
  | c :: rest => run_call c;; run_calls rest
  end.

(** The entry points that feed the engine's parser or send to the
    transport. *)
Definition is_io_call (c : core_call) : bool :=
  match c with
  | call_SessionWrite _ | call_SendPendingData => true
  | _ => false
  end.

(** ** Sample values *)

(** A pool that hands out first what it was given last, and a pool that
    hands out first what it was given first. *)
Definition sample_stack (pooled : list ptr) (item : ptr) : nat := 0.
Definition sample_queue (pooled : list ptr) (item : ptr) : nat :=
  length pooled.


(** [n] bytes counting up from [b] modulo 251. *)
Fixpoint sample_bytes_from (n : nat) (b : N) : list byte :=
  match n with
  | O => []
  | S n' =>
      default x00 (Byte.of_N (b mod 251)%N)
      :: sample_bytes_from n' (b + 1)%N
  end.

Definition sample_bytes (n : nat) : list byte := sample_bytes_from n 0.

(** Writable until the writable side is shut. *)
Definition sample_writable (flags : Z) : bool :=
  Z.land flags NGHTTP2_STREAM_FLAG_SHUT =? 0.

Definition sample_no_trailers (w : Session) (stream : ptr)
    : list nghttp2_nv := [].

Definition sample_frame (type : nghttp2_frame_type) (id : Z)
    : nghttp2_frame :=
  {| hd_type := type; hd_stream_id := id; hd_flags := 4; hd_length := 0;
     promised_stream_id := 0; headers_cat := NGHTTP2_HCAT_REQUEST;
     pri_spec := {| spec_stream_id := 0; spec_weight := 16;
                    spec_exclusive := 0 |} |}.

(** An engine that takes every non-empty buffer as one data chunk for
    stream 1, echoes it to its output, and rejects an empty buffer. *)
Definition sample_mem_recv (w : Session) (buf : list byte)
    : mem_recv_result :=
  match buf with
  | [] => {| callbacks := []; consumed := -505; queued := [] |}
  | _ => {| callbacks := [on_data_chunk_recv 0 1 buf;
                          on_frame_recv (sample_frame NGHTTP2_DATA 1)];
            consumed := Z.of_nat (length buf);
            queued := [buf] |}
  end.

(** A connection with stream 1, whose object is at address 1.  No list
    node is allocated, and the pools are empty. *)
Definition sample_session_with (s : Nghttp2Stream) : Session :=
  {| streams_ := {[ 1 := 1%positive ]};
     heap := {[ 1%positive := s ]};
     data_chunks := ∅;
     header_nodes := ∅;
     stream_free_list := [];
     data_chunk_free_list := [];
     header_free_list := [];
     local_window_size := fun _ => 65535;
     pending_send := [];
     trace := [] |}.

Definition sample_stream : Nghttp2Stream :=
  ResetState 1 NGHTTP2_HCAT_REQUEST.

Definition sample_session : Session := sample_session_with sample_stream.

(** Stream 1 after its writable side was shut. *)
Definition sample_shut_stream : Nghttp2Stream :=
  set_flags_ sample_stream NGHTTP2_STREAM_FLAG_SHUT.

(** Stream 1 while it is reading. *)
Definition sample_reading_stream : Nghttp2Stream :=
  set_flags_ sample_stream NGHTTP2_STREAM_READ_START.

(** Stream 1 after reading was started and then stopped. *)
Definition sample_paused_stream : Nghttp2Stream :=
  set_flags_ sample_stream
    (Z.lor NGHTTP2_STREAM_READ_START NGHTTP2_STREAM_READ_PAUSED).

(** A connection with streams 1 and 3, whose objects are at addresses 1
    and 2. *)
Definition sample_session_two : Session :=
  {| streams_ := {[ 1 := 1%positive; 3 := 2%positive ]};
     heap := {[ 1%positive := sample_stream;
                2%positive := ResetState 3 NGHTTP2_HCAT_REQUEST ]};
     data_chunks := ∅;
     header_nodes := ∅;
     stream_free_list := [];
     data_chunk_free_list := [];
     header_free_list := [];
     local_window_size := fun _ => 65535;
     pending_send := [];
     trace := [] |}.

(** A stream object after its [Destroy]. *)
Definition sample_destroyed_stream : Nghttp2Stream :=
  set_session_ (set_flags_ sample_stream NGHTTP2_STREAM_DESTROYING) false.

(** The addresses 2 to 1025. *)
Definition sample_pooled : list ptr := map Pos.of_nat (seq 2 FREELIST_MAX).

(** The connection with stream 1 when the stream pool is full of
    destroyed objects. *)
Definition sample_session_full_pool : Session :=
  set_stream_free_list
    (set_heap sample_session
       (foldr (fun p m => <[p := sample_destroyed_stream]> m)
          (heap sample_session) sample_pooled))
    sample_pooled.

(** Stream 1 with one request of three bytes queued. *)
Definition sample_queued_stream : Nghttp2Stream :=
  set_queue_ sample_stream
    [{| cb := Some 0%nat; req := 7%nat; bufs := [sample_bytes 3] |}].

(** What a computation leaves in the trace, if it returns. *)
Definition trace_after {A} (o : outcome (A * Session))
    : option (list event) :=
  match o with
  | Done (_, w) => Some (trace w)
  | _ => None
  end.

(** What a computation returns, if it returns. *)
Definition result_of {A} (o : outcome (A * Session)) : option A :=
  match o with
  | Done (a, _) => Some a
  | _ => None
  end.

(** The stream a computation leaves at address [p], if it returns. *)
Definition stream_after {A} (p : ptr) (o : outcome (A * Session))
    : option Nghttp2Stream :=
  match o with
  | Done (_, w) => heap w !! p
  | _ => None
  end.

(** All bytes a computation hands to the transport, if it returns. *)
Definition flushed_by {A} (o : outcome (A * Session))
    : option (list byte) :=
  option_map (fun tr => concat (sent tr)) (trace_after o).

(** A stream of 200000 bytes and send buffers of 65536 bytes. *)
Definition sample_stream_length : nat := Z.to_nat 200000.
Definition sample_send_buffer_len : nat := Z.to_nat 65536.

(** * Properties *)


(** ** Flags and records *)

Lemma has_flag_lor (f m : Z) : has_flag (Z.lor f m) m = true.
Proof.
  unfold has_flag. apply Z.eqb_eq, Z.bits_inj'. intros n _.
  rewrite Z.land_spec, Z.lor_spec.
  destruct (Z.testbit f n), (Z.testbit m n); reflexivity.
Qed.

Lemma IsReading_paused (s : Nghttp2Stream) (f : Z) :
  flags_ s = Z.lor f NGHTTP2_STREAM_READ_PAUSED -> IsReading s = false.
Proof.
  intros E. unfold IsReading. rewrite E.
  pose proof (has_flag_lor f NGHTTP2_STREAM_READ_PAUSED) as Hf.
  unfold has_flag in Hf. apply Z.eqb_eq in Hf. rewrite Hf.
  apply andb_false_r.
Qed.

Lemma IsDestroying_set (s : Nghttp2Stream) (f : Z) :
  flags_ s = Z.lor f NGHTTP2_STREAM_DESTROYING ->
  IsDestroyed s || IsDestroying s = true.
Proof.
  intros E. unfold IsDestroying. rewrite E, has_flag_lor.
  apply orb_true_r.
Qed.

Lemma set_cursor_id (s : Nghttp2Stream) :
  set_cursor s (queue_head_index_ s) (queue_head_offset_ s) = s.
Proof. destruct s; reflexivity. Qed.

(** ** Linked lists *)

Lemma chain_frame {T} (m m' : gmap ptr (linked T)) (nodes : list (ptr * T)) :
  forall head,
    chain m head nodes ->
    (forall p, p ∈ map fst nodes -> m' !! p = m !! p) ->
    chain m' head nodes.
Proof.
  induction nodes as [|[p f] rest IH]; intros head Hc Hsame; [exact Hc|].
  destruct Hc as (-> & nx & Hp & Hrest). split; [done|].
  exists nx. split.
  - rewrite Hsame; [done|]. simpl. by left.
  - apply IH; [done|]. intros q Hq. apply Hsame. simpl. by right.
Qed.

Lemma chain_lookup {T} (m : gmap ptr (linked T)) (nodes : list (ptr * T)) :
  forall head p,
    chain m head nodes -> p ∈ map fst nodes -> is_Some (m !! p).
Proof.
  induction nodes as [|[q f] rest IH]; intros head p Hc Hin.
  - by apply elem_of_nil in Hin.
  - destruct Hc as (-> & nx & Hq & Hrest). simpl in Hin.
    apply elem_of_cons in Hin as [->|Hin]; [by eexists|by eapply IH].
Qed.

(** The last node of a chain has no successor. *)
Lemma chain_last {T} (m : gmap ptr (linked T)) (nodes : list (ptr * T))
    (t : ptr) (ft : T) :
  forall head,
    chain m head (nodes ++ [(t, ft)]) ->
    NoDup (map fst (nodes ++ [(t, ft)])) ->
    m !! t = Some {| fields := ft; next := None |}.
Proof.
  induction nodes as [|[q f] rest IH]; intros head Hc Hnd.
  - destruct Hc as (-> & nx & Ht & Hnil). simpl in Hnil. by subst.
  - destruct Hc as (-> & nx & Hq & Hrest). simpl in Hnd.
    apply NoDup_cons in Hnd as [_ Hnd]. by eapply IH.
Qed.

(** Appending with the tail's [next] set, as [LINKED_LIST_ADD] does when
    the list is not empty. *)
Lemma chain_snoc {T} (m : gmap ptr (linked T)) (nodes : list (ptr * T))
    (t : ptr) (ft : T) (p : ptr) (f : T) :
  forall head,
    chain m head (nodes ++ [(t, ft)]) ->
    NoDup (map fst (nodes ++ [(t, ft)])) ->
    p ∉ map fst (nodes ++ [(t, ft)]) ->
    chain (<[t := {| fields := ft; next := Some p |}]>
             (<[p := {| fields := f; next := None |}]> m))
      head ((nodes ++ [(t, ft)]) ++ [(p, f)]).
Proof.
  induction nodes as [|[q g] rest IH]; intros head Hc Hnd Hp.
  - destruct Hc as (-> & nx & Ht & Hnil). simpl in *.
    assert (p <> t) by (intros ->; apply Hp; by left).
    split; [done|]. exists (Some p).
    split; [by rewrite lookup_insert_eq|].
    split; [done|]. exists None. split; [|done].
    by rewrite lookup_insert_ne, lookup_insert_eq.
  - destruct Hc as (-> & nx & Hq & Hrest). simpl in Hnd, Hp.
    apply NoDup_cons in Hnd as [Hq' Hnd].
    apply not_elem_of_cons in Hp as [Hpq Hp].
    assert (q <> t).
    { intros ->. apply Hq'. rewrite map_app. apply elem_of_app. right.
      by left. }
    split; [done|]. exists nx. split.
    + by rewrite !lookup_insert_ne.
    + by apply IH.
Qed.

(** A chain without repetition is no longer than the store is large. *)
Lemma chain_length {T} (m : gmap ptr (linked T)) (nodes : list (ptr * T))
    (head : option ptr) :
  chain m head nodes -> NoDup (map fst nodes) ->
  (length nodes <= size m)%nat.
Proof.
  intros Hc Hnd.
  rewrite <- (length_map fst), <- size_dom.
  rewrite <- (size_list_to_set (C := gset ptr)) by done.
  apply subseteq_size. intros p Hp. apply elem_of_list_to_set in Hp.
  apply elem_of_dom. by eapply chain_lookup.
Qed.

(** What a walk along a chain finds. *)
Lemma list_from_chain {T} (m : gmap ptr (linked T))
    (nodes : list (ptr * T)) :
  forall head fuel,
    chain m head nodes -> (length nodes <= fuel)%nat ->
    list_from m fuel head = map snd nodes.
Proof.
  induction nodes as [|[p f] rest IH]; intros head fuel Hc Hfuel.
  - simpl in Hc. subst. by destruct fuel.
  - destruct Hc as (-> & nx & Hp & Hrest). simpl in Hfuel.
    destruct fuel as [|fuel]; [lia|]. simpl. rewrite Hp. simpl.
    f_equal. apply IH; [done|lia].
Qed.

Lemma unlinked_cons {T} (m : gmap ptr (linked T)) (p : ptr)
    (ps : list ptr) :
  unlinked m (p :: ps) ->
  (exists x, m !! p = Some x /\ next x = None) /\
  ~ p ∈ ps /\ unlinked m ps.
Proof.
  intros [Hnd Hall]. apply NoDup_cons in Hnd as [Hp Hnd].
  split; [apply Hall; by left|]. split; [done|]. split; [done|].
  intros q Hq. apply Hall. by right.
Qed.

Lemma unlinked_frame {T} (m m' : gmap ptr (linked T)) (ps : list ptr) :
  unlinked m ps -> (forall p, p ∈ ps -> m' !! p = m !! p) ->
  unlinked m' ps.
Proof.
  intros [Hnd Hall] Hsame. split; [done|]. intros p Hp.
  rewrite Hsame by done. by apply Hall.
Qed.

Lemma insert_alter_same {T} (m : gmap ptr T) (p : ptr) (x : T)
    (f : T -> T) :
  m !! p = Some x -> <[p := f x]> m = alter f p m.
Proof.
  intros Hp. apply map_eq. intros q. destruct (decide (q = p)) as [->|Hne].
  - by rewrite lookup_insert_eq, lookup_alter_eq, Hp.
  - by rewrite lookup_insert_ne, lookup_alter_ne.
Qed.

(** ** The draining loops *)

Lemma set_data_chunks_head_None (s : Nghttp2Stream) :
  data_chunks_head_ s = None -> set_data_chunks_head_ s None = s.
Proof. destruct s; simpl. by intros ->. Qed.

Lemma set_current_headers_head_None (s : Nghttp2Stream) :
  current_headers_head_ s = None -> set_current_headers_head_ s None = s.
Proof. destruct s; simpl. by intros ->. Qed.

Lemma Session_eta (w : Session) :
  {| streams_ := streams_ w; heap := heap w; data_chunks := data_chunks w;
     header_nodes := header_nodes w;
     stream_free_list := stream_free_list w;
     data_chunk_free_list := data_chunk_free_list w;
     header_free_list := header_free_list w;
     local_window_size := local_window_size w;
     pending_send := pending_send w; trace := trace w |} = w.
Proof. by destruct w. Qed.

(** The loop of [HandleDataFrame] on a well-formed list of chunks with
    live buffers: one [OnDataChunk] call per node, in order; every node
    loses its buffer and is pushed. *)
Lemma HandleDataFrame_loop_spec (this : ptr)
    (nodes : list (ptr * uv_buf_t)) :
  forall (fuel : nat) (w : Session) (s : Nghttp2Stream),
    heap w !! this = Some s ->
    chain (data_chunks w) (data_chunks_head_ s)
      (map with_buf nodes) ->
    NoDup (map fst nodes) ->
    (length nodes < fuel)%nat ->
    HandleDataFrame_loop fuel this w =
    Done (tt,
      set_trace
        (set_data_chunk_free_list
           (set_data_chunks
              (set_heap w (<[this := set_data_chunks_head_ s None]> (heap w)))
              (chunks_released (data_chunks w) (data_chunk_free_list w)
                 (map fst nodes)))
           (foldl Freelist_push (data_chunk_free_list w) (map fst nodes)))
        (trace w ++ map (EvOnDataChunk this) (map snd nodes))).
Proof.
  induction nodes as [|[p b] rest IH]; intros fuel w s Hs Hc Hnd Hfuel;
    (destruct fuel as [|fuel]; [simpl in Hfuel; lia|]).
  - simpl in Hc. cbn [HandleDataFrame_loop]. munfold. rewrite Hs, Hc.
    simpl. rewrite set_data_chunks_head_None by done.
    rewrite insert_id by done.
    unfold set_trace, set_data_chunk_free_list, set_data_chunks, set_heap.
    simpl. by rewrite app_nil_r, Session_eta.
  - destruct Hc as (Hhead & nx & Hp & Hrest).
    simpl in Hnd, Hfuel, Hhead, Hp.
    apply NoDup_cons in Hnd as [Hp' Hnd].
    cbn [HandleDataFrame_loop]. unfold data_chunk_free_list_push. munfold.
    rewrite Hs, Hhead. simpl. rewrite Hp. simpl.
    assert (Hne : forall q, q ∈ map fst (map with_buf rest) ->
                            q <> p).
    { intros q Hq ->. apply Hp'. by rewrite <- list_fmap_compose in Hq. }
    unfold Freelist_push.
    destruct (length (data_chunk_free_list w) <? FREELIST_MAX)%nat eqn:Hroom.
    + erewrite IH; [|simpl; apply lookup_insert_eq| |exact Hnd|lia].
      * do 2 f_equal. simpl.
        rewrite <- (insert_alter_same _ _ _ (fun c => set_fields c None) Hp).
        by rewrite insert_insert_eq, <- app_assoc.
      * eapply chain_frame; [exact Hrest|]. intros q Hq. simpl.
        rewrite lookup_insert_ne; [done|]. intros <-. by eapply Hne.
    + erewrite IH; [|simpl; apply lookup_insert_eq| |exact Hnd|lia].
      * do 2 f_equal. simpl.
        by rewrite insert_insert_eq, <- app_assoc, delete_insert_eq.
      * eapply chain_frame; [exact Hrest|]. intros q Hq. simpl.
        assert (q <> p) by by eapply Hne.
        by rewrite lookup_delete_ne, lookup_insert_ne.
Qed.

(** The loop of [Destroy] over the data chunks. *)
Lemma Destroy_chunks_loop_spec (this : ptr)
    (nodes : list (ptr * uv_buf_t)) :
  forall (fuel : nat) (w : Session) (s : Nghttp2Stream),
    heap w !! this = Some s ->
    chain (data_chunks w) (data_chunks_head_ s)
      (map with_buf nodes) ->
    NoDup (map fst nodes) ->
    (length nodes < fuel)%nat ->
    Destroy_chunks_loop fuel this w =
    Done (tt,
      set_data_chunk_free_list
        (set_data_chunks
           (set_heap w (<[this := set_data_chunks_head_ s None]> (heap w)))
           (chunks_released (data_chunks w) (data_chunk_free_list w)
              (map fst nodes)))
        (foldl Freelist_push (data_chunk_free_list w) (map fst nodes))).
Proof.
  induction nodes as [|[p b] rest IH]; intros fuel w s Hs Hc Hnd Hfuel;
    (destruct fuel as [|fuel]; [simpl in Hfuel; lia|]).
  - simpl in Hc. cbn [Destroy_chunks_loop]. munfold. rewrite Hs, Hc.
    simpl. rewrite set_data_chunks_head_None by done.
    rewrite insert_id by done.
    unfold set_data_chunk_free_list, set_data_chunks, set_heap.
    simpl. by rewrite Session_eta.
  - destruct Hc as (Hhead & nx & Hp & Hrest).
    simpl in Hnd, Hfuel, Hhead, Hp.
    apply NoDup_cons in Hnd as [Hp' Hnd].
    cbn [Destroy_chunks_loop]. unfold data_chunk_free_list_push. munfold.
    rewrite Hs, Hhead. simpl. rewrite Hp. simpl.
    assert (Hne : forall q, q ∈ map fst (map with_buf rest) ->
                            q <> p).
    { intros q Hq ->. apply Hp'. by rewrite <- list_fmap_compose in Hq. }
    unfold Freelist_push.
    destruct (length (data_chunk_free_list w) <? FREELIST_MAX)%nat eqn:Hroom.
    + erewrite IH; [|simpl; apply lookup_insert_eq| |exact Hnd|lia].
      * do 2 f_equal. simpl.
        rewrite <- (insert_alter_same _ _ _ (fun c => set_fields c None) Hp).
        by rewrite insert_insert_eq.
      * eapply chain_frame; [exact Hrest|]. intros q Hq. simpl.
        rewrite lookup_insert_ne; [done|]. intros <-. by eapply Hne.
    + erewrite IH; [|simpl; apply lookup_insert_eq| |exact Hnd|lia].
      * do 2 f_equal. simpl.
        by rewrite insert_insert_eq, delete_insert_eq.
      * eapply chain_frame; [exact Hrest|]. intros q Hq. simpl.
        assert (q <> p) by by eapply Hne.
        by rewrite lookup_delete_ne, lookup_insert_ne.
Qed.

(** The loop of [FreeHeaders] on a well-formed list: the value of every
    node is released, in order, and every node is pushed. *)
Lemma FreeHeaders_loop_spec (this : ptr)
    (nodes : list (ptr * nghttp2_header_list)) :
  forall (fuel : nat) (w : Session) (s : Nghttp2Stream),
    heap w !! this = Some s ->
    chain (header_nodes w) (current_headers_head_ s) nodes ->
    NoDup (map fst nodes) ->
    (length nodes < fuel)%nat ->
    FreeHeaders_loop fuel this w =
    Done (tt,
      set_trace
        (set_header_free_list
           (set_header_nodes
              (set_heap w
                 (<[this := set_current_headers_head_ s None]> (heap w)))
              (headers_released (header_nodes w) (header_free_list w)
                 (map fst nodes)))
           (foldl Freelist_push (header_free_list w) (map fst nodes)))
        (trace w
         ++ map (fun n => EvRcbufDecref (value n.2)) nodes)).
Proof.
  induction nodes as [|[p h] rest IH]; intros fuel w s Hs Hc Hnd Hfuel;
    (destruct fuel as [|fuel]; [simpl in Hfuel; lia|]).
  - simpl in Hc. cbn [FreeHeaders_loop]. munfold. rewrite Hs, Hc.
    simpl. rewrite set_current_headers_head_None by done.
    rewrite insert_id by done.
    unfold set_trace, set_header_free_list, set_header_nodes, set_heap.
    simpl. by rewrite app_nil_r, Session_eta.
  - destruct Hc as (Hhead & nx & Hp & Hrest). simpl in Hnd, Hfuel.
    apply NoDup_cons in Hnd as [Hp' Hnd].
    cbn [FreeHeaders_loop]. unfold header_free_list_push. munfold.
    rewrite Hs, Hhead. simpl. rewrite Hp. simpl.
    unfold Freelist_push.
    destruct (length (header_free_list w) <? FREELIST_MAX)%nat eqn:Hroom.
    + erewrite IH; [|simpl; apply lookup_insert_eq| |exact Hnd|lia].
      * do 2 f_equal. simpl. by rewrite insert_insert_eq, <- app_assoc.
      * exact Hrest.
    + erewrite IH; [|simpl; apply lookup_insert_eq| |exact Hnd|lia].
      * do 2 f_equal. simpl. by rewrite insert_insert_eq, <- app_assoc.
      * eapply chain_frame; [exact Hrest|]. intros q Hq. simpl.
        rewrite lookup_delete_ne; [done|]. by intros <-.
Qed.

(** ** Appending to a list *)

Lemma last_map_fst_Some {A B} (l : list (A * B)) (a : A) :
  last (map fst l) = Some a -> exists l0 b, l = l0 ++ [(a, b)].
Proof.
  destruct l as [|x l _] using rev_ind; [done|].
  rewrite map_app. simpl. rewrite last_snoc. destruct x as [a' b]. simpl.
  intros [= <-]. by exists l, b.
Qed.

(** [LINKED_LIST_ADD] of a node [p] that has no successor and is not on
    the list: the fields of [p] are set to [f], and [p] becomes the tail.
    No other node changes but the old tail. *)
Lemma linked_list_add {T} (m : gmap ptr (linked T))
    (head tail : option ptr) (nodes : list (ptr * T)) (p : ptr) (x : linked T)
    (f : T) :
  linked_list m head tail nodes ->
  m !! p = Some x -> next x = None ->
  ~ p ∈ map fst nodes ->
  let m2 := <[p := set_fields x f]> m in
  exists m3 head',
    match tail with
    | None => head' = Some p /\ m3 = m2
    | Some t =>
        head' = head /\
        exists y, m2 !! t = Some y /\ m3 = <[t := set_next y (Some p)]> m2
    end /\
    linked_list m3 head' (Some p) (nodes ++ [(p, f)]) /\
    (forall q, q <> p -> ~ q ∈ map fst nodes -> m3 !! q = m !! q).
Proof.
  intros (Hc & Htail & Hnd) Hp Hnx Hnotin m2.
  assert (Hnd' : NoDup (map fst (nodes ++ [(p, f)]))).
  { rewrite map_app. apply NoDup_app. split; [done|].
    split; [|apply NoDup_singleton].
    intros q Hq Hq'. apply list_elem_of_singleton in Hq'. by subst. }
  assert (Hlast : Some p = last (map fst (nodes ++ [(p, f)]))).
  { rewrite map_app. simpl. by rewrite last_snoc. }
  destruct tail as [t|].
  - symmetry in Htail.
    apply last_map_fst_Some in Htail as (nodes0 & ft & ->).
    pose proof (chain_last _ _ _ _ _ Hc Hnd) as Ht.
    assert (Hpt : p <> t).
    { intros ->. apply Hnotin. rewrite map_app. apply elem_of_app.
      right. by left. }
    exists (<[t := {| fields := ft; next := Some p |}]> m2), head.
    split; [|split].
    + split; [done|]. exists {| fields := ft; next := None |}.
      split; [|reflexivity]. subst m2. by rewrite lookup_insert_ne.
    + split; [|done]. subst m2. destruct x as [fx nx]. simpl in Hnx.
      subst nx. by apply chain_snoc.
    + intros q Hq Hq'. subst m2.
      rewrite !lookup_insert_ne; [done|done|].
      intros <-. apply Hq'. rewrite map_app. apply elem_of_app.
      right. by left.
  - assert (nodes = []) as ->.
    { destruct nodes as [|y l _] using rev_ind; [done|].
      rewrite map_app in Htail. simpl in Htail.
      by rewrite last_snoc in Htail. }
    simpl in Hc. subst head.
    exists m2, (Some p). split; [done|]. split.
    + split; [|done]. simpl. split; [done|]. exists None.
      subst m2. rewrite lookup_insert_eq. destruct x as [fx nx].
      simpl in *. by subst.
    + intros q Hq _. subst m2. by rewrite lookup_insert_ne.
Qed.

Lemma set_data_chunks_head_id (s : Nghttp2Stream) :
  set_data_chunks_head_ s (data_chunks_head_ s) = s.
Proof. by destruct s. Qed.

Lemma set_current_headers_head_id (s : Nghttp2Stream) :
  set_current_headers_head_ s (current_headers_head_ s) = s.
Proof. by destruct s. Qed.

(** What the next [pop] returns is a node without a successor that is not
    on the list [nodes]: the head of the pool if it is such a node, a new
    node if the pool is empty. *)
Lemma pop_unlinked {T} (m : gmap ptr (linked T)) (pooled : list ptr)
    (nodes : list (ptr * T)) (head : option ptr) (fresh_fields : T) :
  chain m head nodes ->
  unlinked m (take 1 pooled) ->
  (forall p, p ∈ take 1 pooled -> ~ p ∈ map fst nodes) ->
  let p := match pooled with q :: _ => q | [] => fresh (dom m) end in
  let m1 := match pooled with
            | _ :: _ => m
            | [] => <[p := {| fields := fresh_fields; next := None |}]> m
            end in
  (exists x, m1 !! p = Some x /\ next x = None) /\
  ~ p ∈ map fst nodes /\
  chain m1 head nodes /\
  (forall q, is_Some (m !! q) -> m1 !! q = m !! q).
Proof.
  intros Hc Hun Hdis. destruct pooled as [|q rest]; simpl.
  - assert (Hfresh : m !! fresh (dom m) = None).
    { apply not_elem_of_dom, is_fresh. }
    assert (Hnotin : ~ fresh (dom m) ∈ map fst nodes).
    { intros Hin. destruct (chain_lookup _ _ _ _ Hc Hin) as [x Hx].
      congruence. }
    split; [eexists; by rewrite lookup_insert_eq|]. split; [done|].
    split.
    + eapply chain_frame; [exact Hc|]. intros p Hp.
      rewrite lookup_insert_ne; [done|]. by intros <-.
    + intros p [x Hp]. rewrite lookup_insert_ne; [done|].
      intros <-. congruence.
  - simpl in Hun, Hdis. destruct Hun as [_ Hun].
    split; [apply Hun; by left|].
    split; [apply Hdis; by left|]. done.
Qed.

(** One chunk callback, on a stream whose chunks form a list, when the
    node [pop] returns has no successor. *)
Lemma OnDataChunkReceived_spec (flags id : Z) (data : list byte)
    (this : ptr) (w : Session) (s : Nghttp2Stream)
    (nodes : list (ptr * option uv_buf_t)) :
  streams_ w !! id = Some this ->
  heap w !! this = Some s ->
  linked_list (data_chunks w) (data_chunks_head_ s) (data_chunks_tail_ s)
    nodes ->
  unlinked (data_chunks w) (take 1 (data_chunk_free_list w)) ->
  (forall p, p ∈ take 1 (data_chunk_free_list w) -> ~ p ∈ map fst nodes) ->
  let p := match data_chunk_free_list w with
           | q :: _ => q
           | [] => fresh (dom (data_chunks w))
           end in
  exists m3 head',
    OnDataChunkReceived flags id data w =
    Done (0,
      set_heap
        (set_data_chunk_free_list (set_data_chunks w m3)
           (drop 1 (data_chunk_free_list w)))
        (<[this := set_data_chunks_tail_
                     (set_data_chunks_head_ s head') (Some p)]>
           (heap w))) /\
    linked_list m3 head' (Some p) (nodes ++ [(p, Some data)]) /\
    (forall q, q <> p -> ~ q ∈ map fst nodes ->
               is_Some (data_chunks w !! q) ->
               m3 !! q = data_chunks w !! q).
Proof.
  intros Hid Hs Hll Hun Hdis p.
  pose proof Hll as (Hc & Htail & Hnd).
  destruct (pop_unlinked _ _ _ _ None Hc Hun Hdis)
    as ((x & Hx & Hnx) & Hnotin & Hc1 & Hframe1).
  fold p in Hx, Hnotin, Hc1, Hframe1.
  set (m1 := match data_chunk_free_list w with
             | _ :: _ => data_chunks w
             | [] => <[p := {| fields := None; next := None |}]>
                       (data_chunks w)
             end) in *.
  destruct (linked_list_add m1 _ _ nodes p x (Some data)
              (conj Hc1 (conj Htail Hnd)) Hx Hnx Hnotin)
    as (m3 & head' & Hshape & Hll3 & Hframe3).
  exists m3, head'.
  split; [|split; [exact Hll3|]].
  - unfold OnDataChunkReceived, data_chunk_free_list_pop. munfold.
    rewrite Hid.
    assert (Hpop :
      match data_chunk_free_list w with
      | q :: rest => Done (q, set_data_chunk_free_list w rest)
      | [] =>
          Done (fresh (dom (data_chunks w)),
                set_data_chunks w
                  (<[fresh (dom (data_chunks w)) :=
                       {| fields := None; next := None |}]>
                     (data_chunks w)))
      end
      = Done (p, set_data_chunk_free_list (set_data_chunks w m1)
                   (drop 1 (data_chunk_free_list w)))).
    { subst p m1. destruct (data_chunk_free_list w) eqn:E;
        unfold set_data_chunk_free_list, set_data_chunks; simpl;
        by rewrite ?E. }
    rewrite Hpop. simpl. rewrite Hx. simpl. rewrite Hs.
    destruct (data_chunks_tail_ s) as [t|].
    + destruct Hshape as (-> & y & Hy & ->). simpl. rewrite Hy. simpl.
      by rewrite set_data_chunks_head_id.
    + destruct Hshape as (-> & ->). reflexivity.
  - intros q Hq Hq' Hlive. rewrite Hframe3 by done. by apply Hframe1.
Qed.

Lemma unlinked_take_S {T} (m : gmap ptr (linked T)) (n : nat) (q : ptr)
    (rest : list ptr) :
  unlinked m (take (S n) (q :: rest)) ->
  unlinked m (take 1 (q :: rest)) /\ unlinked m (take n rest) /\
  ~ q ∈ take n rest.
Proof.
  simpl. intros Hun. apply unlinked_cons in Hun as (Hq & Hnotin & Hun).
  split; [|done]. rewrite take_0. split; [apply NoDup_singleton|].
  intros p Hp. apply list_elem_of_singleton in Hp. by subst.
Qed.

(** The chunk callbacks of a run of chunks for one stream. *)
Lemma OnDataChunkReceived_all (id : Z) (this : ptr)
    (chunks : list (Z * uv_buf_t)) :
  forall (w : Session) (s : Nghttp2Stream)
         (nodes : list (ptr * option uv_buf_t)),
    streams_ w !! id = Some this ->
    heap w !! this = Some s ->
    linked_list (data_chunks w) (data_chunks_head_ s)
      (data_chunks_tail_ s) nodes ->
    unlinked (data_chunks w)
      (take (length chunks) (data_chunk_free_list w)) ->
    (forall p, p ∈ take (length chunks) (data_chunk_free_list w) ->
               ~ p ∈ map fst nodes) ->
    exists m' s' new,
      dispatch_all (map (fun c => on_data_chunk_recv c.1 id c.2) chunks) w =
      Done (tt,
        set_heap
          (set_data_chunk_free_list (set_data_chunks w m')
             (drop (length chunks) (data_chunk_free_list w)))
          (<[this := s']> (heap w))) /\
      map snd new = map snd chunks /\
      s' = set_data_chunks_tail_
             (set_data_chunks_head_ s (data_chunks_head_ s'))
             (data_chunks_tail_ s') /\
      linked_list m' (data_chunks_head_ s') (data_chunks_tail_ s')
        (nodes ++ map with_buf new).
Proof.
  induction chunks as [|[f d] chunks IH]; intros w s nodes Hid Hs Hll Hun Hdis.
  - exists (data_chunks w), s, []. simpl. munfold.
    split; [|split; [done|split]].
    + rewrite drop_0, insert_id by done.
      unfold set_heap, set_data_chunk_free_list, set_data_chunks. simpl.
      by rewrite Session_eta.
    + by destruct s.
    + by rewrite app_nil_r.
  - cbn [length] in Hun, Hdis.
    assert (Hun1 : unlinked (data_chunks w)
                     (take 1 (data_chunk_free_list w))).
    { destruct (data_chunk_free_list w) as [|q rest];
        [split; [constructor|intros ? H; by apply elem_of_nil in H]|].
      by apply unlinked_take_S in Hun as (? & _). }
    assert (Hdis1 : forall p, p ∈ take 1 (data_chunk_free_list w) ->
                              ~ p ∈ map fst nodes).
    { intros p Hp. apply Hdis.
      destruct (data_chunk_free_list w) as [|q rest]; [done|].
      simpl in *. rewrite take_0 in Hp.
      apply list_elem_of_singleton in Hp as ->. by left. }
    destruct (OnDataChunkReceived_spec f id d this w s nodes
                Hid Hs Hll Hun1 Hdis1)
      as (m3 & head' & Hrun & Hll3 & Hframe).
    set (p := match data_chunk_free_list w with
              | q :: _ => q
              | [] => fresh (dom (data_chunks w))
              end) in *.
    cbn [map dispatch_all dispatch fst snd]. munfold.
    simpl in Hrun. rewrite Hrun.
    set (s1 := set_data_chunks_tail_ (set_data_chunks_head_ s head')
                 (Some p)).
    set (w1 := set_heap
                 (set_data_chunk_free_list (set_data_chunks w m3)
                    (drop 1 (data_chunk_free_list w)))
                 (<[this := s1]> (heap w))).
    destruct (IH w1 s1 (nodes ++ [(p, Some d)]))
      as (m' & s' & new & Hrun' & Hnew & Hs' & Hll');
      [exact Hid|simpl; apply lookup_insert_eq|exact Hll3| | |].
    + subst w1. simpl.
      destruct (data_chunk_free_list w) as [|q rest] eqn:Hpool; simpl.
      * rewrite take_nil.
        split; [constructor|intros ? H; by apply elem_of_nil in H].
      * rewrite drop_0.
        apply unlinked_take_S in Hun as (_ & Hun & Hq).
        eapply unlinked_frame; [exact Hun|]. intros r Hr.
        destruct Hun as [_ Hlive]. destruct (Hlive r Hr) as (x & Hx & _).
        apply Hframe; [by intros -> | | by eexists].
        apply Hdis. simpl. by right.
    + subst w1. simpl. intros r Hr. rewrite map_app. simpl.
      destruct (data_chunk_free_list w) as [|q rest] eqn:Hpool;
        simpl in Hr;
        [rewrite take_nil in Hr; by apply elem_of_nil in Hr|].
      rewrite drop_0 in Hr.
      intros Hin. apply elem_of_app in Hin as [Hin|Hin].
      * revert Hin. apply Hdis. simpl. by right.
      * apply list_elem_of_singleton in Hin. subst r p.
        by apply unlinked_take_S in Hun as (_ & _ & Hq).
    + rewrite Hrun'. exists m', s', ((p, d) :: new).
      split; [|split; [|split]].
      * simpl. rewrite insert_insert_eq, drop_drop. reflexivity.
      * simpl. by f_equal.
      * rewrite Hs'. reflexivity.
      * by rewrite <- app_assoc in Hll'.
Qed.

(** One header callback, on a stream whose headers form a list, when the
    node [pop] returns has no successor. *)
Lemma OnHeaderCallback_spec (frame : nghttp2_frame)
    (nm val : nghttp2_rcbuf) (flags : Z)
    (this : ptr) (w : Session) (s : Nghttp2Stream)
    (nodes : list (ptr * nghttp2_header_list)) :
  streams_ w !! headers_frame_id frame = Some this ->
  heap w !! this = Some s ->
  linked_list (header_nodes w) (current_headers_head_ s)
    (current_headers_tail_ s) nodes ->
  unlinked (header_nodes w) (take 1 (header_free_list w)) ->
  (forall p, p ∈ take 1 (header_free_list w) -> ~ p ∈ map fst nodes) ->
  let p := match header_free_list w with
           | q :: _ => q
           | [] => fresh (dom (header_nodes w))
           end in
  exists m3 head',
    OnHeaderCallback frame nm val flags w =
    Done (0,
      set_heap
        (set_trace
           (set_header_free_list (set_header_nodes w m3)
              (drop 1 (header_free_list w)))
           (trace w ++ [EvRcbufIncref nm; EvRcbufIncref val]))
        (<[this := set_current_headers_tail_
                     (set_current_headers_head_ s head') (Some p)]>
           (heap w))) /\
    linked_list m3 head' (Some p)
      (nodes ++ [(p, {| name := nm; value := val |})]) /\
    (forall q, q <> p -> ~ q ∈ map fst nodes ->
               is_Some (header_nodes w !! q) ->
               m3 !! q = header_nodes w !! q).
Proof.
  intros Hid Hs Hll Hun Hdis p.
  pose proof Hll as (Hc & Htail & Hnd).
  destruct (pop_unlinked _ _ _ _
              {| name := EmptyString; value := EmptyString |} Hc Hun Hdis)
    as ((x & Hx & Hnx) & Hnotin & Hc1 & Hframe1).
  fold p in Hx, Hnotin, Hc1, Hframe1.
  set (m1 := match header_free_list w with
             | _ :: _ => header_nodes w
             | [] => <[p := {| fields := {| name := EmptyString;
                                            value := EmptyString |};
                               next := None |}]>
                       (header_nodes w)
             end) in *.
  destruct (linked_list_add m1 _ _ nodes p x
              {| name := nm; value := val |}
              (conj Hc1 (conj Htail Hnd)) Hx Hnx Hnotin)
    as (m3 & head' & Hshape & Hll3 & Hframe3).
  exists m3, head'.
  split; [|split; [exact Hll3|]].
  - unfold OnHeaderCallback, header_free_list_pop. munfold.
    rewrite Hid.
    assert (Hpop :
      match header_free_list w with
      | q :: rest => Done (q, set_header_free_list w rest)
      | [] =>
          Done (fresh (dom (header_nodes w)),
                set_header_nodes w
                  (<[fresh (dom (header_nodes w)) :=
                       {| fields := {| name := EmptyString;
                                       value := EmptyString |};
                          next := None |}]>
                     (header_nodes w)))
      end
      = Done (p, set_header_free_list (set_header_nodes w m1)
                   (drop 1 (header_free_list w)))).
    { subst p m1. destruct (header_free_list w) eqn:E;
        unfold set_header_free_list, set_header_nodes; simpl;
        by rewrite ?E. }
    rewrite Hpop. simpl. rewrite Hx. simpl. rewrite Hs.
    destruct (current_headers_tail_ s) as [t|].
    + destruct Hshape as (-> & y & Hy & ->). simpl. rewrite Hy. simpl.
      by rewrite set_current_headers_head_id.
    + destruct Hshape as (-> & ->). reflexivity.
  - intros q Hq Hq' Hlive. rewrite Hframe3 by done. by apply Hframe1.
Qed.

(** The header callbacks of one header block. *)
Lemma OnHeaderCallback_all (frame : nghttp2_frame) (this : ptr)
    (pairs : list (nghttp2_header_list * Z)) :
  forall (w : Session) (s : Nghttp2Stream)
         (nodes : list (ptr * nghttp2_header_list)),
    streams_ w !! headers_frame_id frame = Some this ->
    heap w !! this = Some s ->
    linked_list (header_nodes w) (current_headers_head_ s)
      (current_headers_tail_ s) nodes ->
    unlinked (header_nodes w)
      (take (length pairs) (header_free_list w)) ->
    (forall p, p ∈ take (length pairs) (header_free_list w) ->
               ~ p ∈ map fst nodes) ->
    exists m' s' new,
      dispatch_all
        (map (fun p => on_header frame (name p.1) (value p.1) p.2) pairs) w =
      Done (tt,
        set_heap
          (set_trace
             (set_header_free_list (set_header_nodes w m')
                (drop (length pairs) (header_free_list w)))
             (trace w
              ++ flat_map
                   (fun h => [EvRcbufIncref (name h);
                              EvRcbufIncref (value h)])
                   (map fst pairs)))
          (<[this := s']> (heap w))) /\
      map snd new = map fst pairs /\
      s' = set_current_headers_tail_
             (set_current_headers_head_ s (current_headers_head_ s'))
             (current_headers_tail_ s') /\
      linked_list m' (current_headers_head_ s') (current_headers_tail_ s')
        (nodes ++ new).
Proof.
  induction pairs as [|[[n v] f] pairs IH];
    intros w s nodes Hid Hs Hll Hun Hdis.
  - exists (header_nodes w), s, []. simpl. munfold.
    split; [|split; [done|split]].
    + rewrite drop_0, app_nil_r, insert_id by done.
      unfold set_heap, set_trace, set_header_free_list, set_header_nodes.
      simpl. by rewrite Session_eta.
    + by destruct s.
    + by rewrite app_nil_r.
  - cbn [length] in Hun, Hdis.
    assert (Hun1 : unlinked (header_nodes w)
                     (take 1 (header_free_list w))).
    { destruct (header_free_list w) as [|q rest];
        [split; [constructor|intros ? H; by apply elem_of_nil in H]|].
      by apply unlinked_take_S in Hun as (? & _). }
    assert (Hdis1 : forall p, p ∈ take 1 (header_free_list w) ->
                              ~ p ∈ map fst nodes).
    { intros p Hp. apply Hdis.
      destruct (header_free_list w) as [|q rest]; [done|].
      simpl in *. rewrite take_0 in Hp.
      apply list_elem_of_singleton in Hp as ->. by left. }
    destruct (OnHeaderCallback_spec frame n v f this w s nodes
                Hid Hs Hll Hun1 Hdis1)
      as (m3 & head' & Hrun & Hll3 & Hframe).
    set (p := match header_free_list w with
              | q :: _ => q
              | [] => fresh (dom (header_nodes w))
              end) in *.
    cbn [map dispatch_all dispatch fst snd name value]. munfold.
    simpl in Hrun. rewrite Hrun.
    set (s1 := set_current_headers_tail_
                 (set_current_headers_head_ s head') (Some p)).
    set (w1 := set_heap
                 (set_trace
                    (set_header_free_list (set_header_nodes w m3)
                       (drop 1 (header_free_list w)))
                    (trace w ++ [EvRcbufIncref n; EvRcbufIncref v]))
                 (<[this := s1]> (heap w))).
    destruct (IH w1 s1 (nodes ++ [(p, {| name := n; value := v |})]))
      as (m' & s' & new & Hrun' & Hnew & Hs' & Hll');
      [exact Hid|simpl; apply lookup_insert_eq|exact Hll3| | |].
    + subst w1. simpl.
      destruct (header_free_list w) as [|q rest] eqn:Hpool; simpl.
      * rewrite take_nil.
        split; [constructor|intros ? H; by apply elem_of_nil in H].
      * rewrite drop_0.
        apply unlinked_take_S in Hun as (_ & Hun & Hq).
        eapply unlinked_frame; [exact Hun|]. intros r Hr.
        destruct Hun as [_ Hlive]. destruct (Hlive r Hr) as (x & Hx & _).
        apply Hframe; [by intros -> | | by eexists].
        apply Hdis. simpl. by right.
    + subst w1. simpl. intros r Hr. rewrite map_app. simpl.
      destruct (header_free_list w) as [|q rest] eqn:Hpool;
        simpl in Hr;
        [rewrite take_nil in Hr; by apply elem_of_nil in Hr|].
      rewrite drop_0 in Hr.
      intros Hin. apply elem_of_app in Hin as [Hin|Hin].
      * revert Hin. apply Hdis. simpl. by right.
      * apply list_elem_of_singleton in Hin. subst r p.
        by apply unlinked_take_S in Hun as (_ & _ & Hq).
    + rewrite Hrun'.
      exists m', s', ((p, {| name := n; value := v |}) :: new).
      split; [|split; [|split]].
      * simpl. rewrite insert_insert_eq, drop_drop, <- app_assoc.
        reflexivity.
      * simpl. by f_equal.
      * rewrite Hs'. reflexivity.
      * by rewrite <- app_assoc in Hll'.
Qed.

(** ** The handlers of completed frames, on well-formed lists *)

Lemma HandleDataFrame_spec (frame : nghttp2_frame) (this : ptr)
    (w : Session) (s : Nghttp2Stream) (nodes : list (ptr * uv_buf_t)) :
  streams_ w !! hd_stream_id frame = Some this ->
  heap w !! this = Some s ->
  chain (data_chunks w) (data_chunks_head_ s)
    (map with_buf nodes) ->
  NoDup (map fst nodes) ->
  HandleDataFrame frame w =
  Done (tt,
    set_trace
      (set_data_chunk_free_list
         (set_data_chunks
            (set_heap w
               (<[this := set_data_chunks_tail_
                            (set_data_chunks_head_ s None) None]>
                  (heap w)))
            (chunks_released (data_chunks w) (data_chunk_free_list w)
               (map fst nodes)))
         (foldl Freelist_push (data_chunk_free_list w) (map fst nodes)))
      (trace w ++ map (EvOnDataChunk this) (map snd nodes))).
Proof.
  intros Hid Hs Hc Hnd. unfold HandleDataFrame. munfold. rewrite Hid.
  erewrite HandleDataFrame_loop_spec; [|exact Hs|exact Hc|exact Hnd|].
  - simpl. rewrite lookup_insert_eq. simpl.
    by rewrite insert_insert_eq.
  - apply Nat.lt_succ_r.
    rewrite <- (length_map with_buf).
    eapply chain_length; [exact Hc|].
    by rewrite <- list_fmap_compose.
Qed.

Lemma FreeHeaders_spec (this : ptr) (w : Session) (s : Nghttp2Stream)
    (nodes : list (ptr * nghttp2_header_list)) :
  heap w !! this = Some s ->
  chain (header_nodes w) (current_headers_head_ s) nodes ->
  NoDup (map fst nodes) ->
  FreeHeaders this w =
  Done (tt,
    set_trace
      (set_header_free_list
         (set_header_nodes
            (set_heap w
               (<[this := set_current_headers_tail_
                            (set_current_headers_head_ s None) None]>
                  (heap w)))
            (headers_released (header_nodes w) (header_free_list w)
               (map fst nodes)))
         (foldl Freelist_push (header_free_list w) (map fst nodes)))
      (trace w ++ map (fun n => EvRcbufDecref (value n.2)) nodes)).
Proof.
  intros Hs Hc Hnd. unfold FreeHeaders. munfold.
  erewrite FreeHeaders_loop_spec; [|exact Hs|exact Hc|exact Hnd|].
  - simpl. rewrite lookup_insert_eq. simpl.
    by rewrite insert_insert_eq.
  - apply Nat.lt_succ_r.
    pose proof (chain_length _ _ _ Hc Hnd). lia.
Qed.

Lemma HandleHeadersFrame_spec (frame : nghttp2_frame) (this : ptr)
    (w : Session) (s : Nghttp2Stream)
    (nodes : list (ptr * nghttp2_header_list)) :
  streams_ w !! headers_frame_id frame = Some this ->
  heap w !! this = Some s ->
  chain (header_nodes w) (current_headers_head_ s) nodes ->
  NoDup (map fst nodes) ->
  HandleHeadersFrame frame w =
  Done (tt,
    set_trace
      (set_header_free_list
         (set_header_nodes
            (set_heap w
               (<[this := set_current_headers_tail_
                            (set_current_headers_head_ s None) None]>
                  (heap w)))
            (headers_released (header_nodes w) (header_free_list w)
               (map fst nodes)))
         (foldl Freelist_push (header_free_list w) (map fst nodes)))
      (trace w
       ++ EvOnHeaders this (current_headers_head_ s) (header_nodes w)
            (current_headers_category_ s) (hd_flags frame)
          :: map (fun n => EvRcbufDecref (value n.2)) nodes)).
Proof.
  intros Hid Hs Hc Hnd. unfold HandleHeadersFrame. munfold. rewrite Hid.
  simpl. rewrite Hs.
  erewrite FreeHeaders_spec; [|exact Hs|exact Hc|exact Hnd].
  simpl. by rewrite <- app_assoc.
Qed.

(** The headers the consumer finds in a well-formed list. *)
Lemma headers_seen_chain (m : gmap ptr nghttp2_header_node)
    (head : option ptr) (nodes : list (ptr * nghttp2_header_list)) :
  chain m head nodes -> NoDup (map fst nodes) ->
  headers_seen m head = map snd nodes.
Proof.
  intros Hc Hnd. unfold headers_seen.
  apply list_from_chain; [done|]. by eapply chain_length.
Qed.

(** ** The first [Destroy] of a stream *)

Lemma set_session_false (s : Nghttp2Stream) :
  session_ s = false -> set_session_ s false = s.
Proof. destruct s; simpl. by intros ->. Qed.

(** What the first [Destroy] of a stream leaves, when its chunks (with
    their buffers) and its headers form lists. *)
Lemma Destroy_first (w : Session) (this : ptr) (s : Nghttp2Stream)
    (cnodes : list (ptr * uv_buf_t))
    (hnodes : list (ptr * nghttp2_header_list)) :
  heap w !! this = Some s ->
  IsDestroyed s || IsDestroying s = false ->
  chain (data_chunks w) (data_chunks_head_ s)
    (map with_buf cnodes) ->
  NoDup (map fst cnodes) ->
  chain (header_nodes w) (current_headers_head_ s) hnodes ->
  NoDup (map fst hnodes) ->
  let s1 :=
    set_current_headers_tail_
      (set_current_headers_head_
         (set_data_chunks_tail_
            (set_data_chunks_head_
               (set_session_
                  (set_flags_ s
                     (Z.lor (flags_ s) NGHTTP2_STREAM_DESTROYING))
                  false) None) None) None) None in
  let w0 :=
    set_trace
      (set_header_free_list
         (set_header_nodes
            (set_data_chunk_free_list
               (set_data_chunks
                  (set_streams_ w
                     (if session_ s then delete (id_ s) (streams_ w)
                      else streams_ w))
                  (chunks_released (data_chunks w)
                     (data_chunk_free_list w) (map fst cnodes)))
               (foldl Freelist_push (data_chunk_free_list w)
                  (map fst cnodes)))
            (headers_released (header_nodes w) (header_free_list w)
               (map fst hnodes)))
         (foldl Freelist_push (header_free_list w) (map fst hnodes)))
      (trace w ++ map (fun n => EvRcbufDecref (value n.2)) hnodes) in
  Nghttp2Stream_Destroy this w =
  Done (tt,
        if (length (stream_free_list w) <? FREELIST_MAX)%nat
        then set_stream_free_list
               (set_heap w0 (<[this := s1]> (heap w)))
               (Freelist_put (stream_free_list w) this)
        else set_heap w0 (delete this (heap w))).
Proof.
  intros Hs Hd Hcc Hcnd Hhc Hhnd. cbn zeta.
  unfold Nghttp2Stream_Destroy. munfold. rewrite Hs, Hd.
  unfold RemoveStream, stream_free_list_push. munfold.
  set (s0 := set_flags_ s (Z.lor (flags_ s) NGHTTP2_STREAM_DESTROYING)).
  assert (Hfuel : (length cnodes < S (size (data_chunks w)))%nat).
  { apply Nat.lt_succ_r. rewrite <- (length_map with_buf).
    eapply chain_length; [exact Hcc|]. by rewrite <- list_fmap_compose. }
  change (session_ s0) with (session_ s).
  destruct (session_ s) eqn:Hsess;
    cbn -[Destroy_chunks_loop FreeHeaders size Nat.ltb].
  - erewrite Destroy_chunks_loop_spec;
      [|simpl; apply lookup_insert_eq|exact Hcc|exact Hcnd|exact Hfuel].
    cbn -[FreeHeaders Nat.ltb]. rewrite lookup_insert_eq.
    cbn -[FreeHeaders Nat.ltb].
    erewrite FreeHeaders_spec;
      [|simpl; apply lookup_insert_eq|exact Hhc|exact Hhnd].
    cbn -[Nat.ltb]. rewrite !insert_insert_eq.
    destruct (length (stream_free_list w) <? FREELIST_MAX)%nat; simpl.
    + reflexivity.
    + by rewrite delete_insert_eq.
  - erewrite Destroy_chunks_loop_spec;
      [|simpl; apply lookup_insert_eq|exact Hcc|exact Hcnd|exact Hfuel].
    cbn -[FreeHeaders Nat.ltb]. rewrite lookup_insert_eq.
    cbn -[FreeHeaders Nat.ltb].
    erewrite FreeHeaders_spec;
      [|simpl; apply lookup_insert_eq|exact Hhc|exact Hhnd].
    cbn -[Nat.ltb]. rewrite !insert_insert_eq.
    rewrite (set_session_false s0) by done.
    destruct (length (stream_free_list w) <? FREELIST_MAX)%nat; simpl.
    + reflexivity.
    + by rewrite delete_insert_eq.
Qed.
(** ** Stream write on a stream that is not writable *)

(** C4. A write on a stream that is not writable returns 0 after calling
    the completion callback, when there is one, with [UV_EOF]; that call
    is the only change to the session: the outbound queue is as before,
    the engine is not told to resume the stream, and nothing else is
    reported. *)
Theorem Write_not_writable (w : Session) (this : ptr) (s : Nghttp2Stream)
    (req0 : nat) (bufs0 : list uv_buf_t) (cb0 : option nat) :
  heap w !! this = Some s ->
  IsWritable s = false ->
  Nghttp2Stream_Write this req0 bufs0 cb0 w =
  Done (0, match cb0 with
           | Some f => set_trace w (trace w ++ [EvWriteCb f req0 UV_EOF])
           | None => w
           end).
Proof.
  intros Hs Hw. unfold Nghttp2Stream_Write. munfold. rewrite Hs, Hw.
  destruct cb0; reflexivity.
Qed.

(** ** Pausing reads *)

(** C8. On a stream that is reading, [ReadStop] saves the engine's local
    window (when it is not negative) and sets the window to zero; a second
    [ReadStop] right after it changes nothing, so the window stays zero
    and the saved value is the one the first call took.  On a stream that
    is not reading, [ReadStop] changes nothing. *)
Theorem ReadStop_twice (w : Session) (this : ptr) (s : Nghttp2Stream) :
  heap w !! this = Some s ->
  (IsReading s = true -> session_ s = true ->
     exists w1 s1,
       ReadStop this w = Done (tt, w1) /\
       heap w1 !! this = Some s1 /\
       local_window_size w1 (id_ s) = 0 /\
       prev_local_window_size_ s1 =
         (let r := local_window_size w (id_ s) in
          if 0 <=? r then r else prev_local_window_size_ s) /\
       ReadStop this w1 = Done (tt, w1)) /\
  (IsReading s = false -> ReadStop this w = Done (tt, w)).
Proof.
  intros Hs. split.
  - intros Hr Hsess.
    unfold ReadStop at 1.
    unfold nghttp2_session_get_stream_local_window_size,
      nghttp2_session_set_local_window_size.
    munfold. rewrite Hs, Hr. simpl. rewrite Hsess. simpl.
    destruct (0 <=? local_window_size w (id_ s)) eqn:Hw0; simpl;
      (eexists _, _; split; [reflexivity|]; simpl;
       split; [apply lookup_insert_eq|];
       split; [by rewrite decide_True|];
       split; [reflexivity|];
       unfold ReadStop; munfold; simpl; rewrite lookup_insert_eq;
       erewrite IsReading_paused; reflexivity).
  - intros Hr. unfold ReadStop. munfold. rewrite Hs, Hr. reflexivity.
Qed.

(** ** Events about unknown streams *)

(** C10. When no stream is registered under the id, the stream-close
    callback returns 0 and leaves the session as it is, whereas the
    handlers of a completed DATA frame and of a completed HEADERS or
    PUSH_PROMISE frame abort. *)
Theorem unknown_stream_close_ignored (w : Session) (id code : Z) :
  streams_ w !! id = None ->
  OnStreamClose id code w = Done (0, w) /\
  (forall frame, hd_stream_id frame = id ->
     HandleDataFrame frame w = Abort) /\
  (forall frame, headers_frame_id frame = id ->
     HandleHeadersFrame frame w = Abort).
Proof.
  intros H. repeat split.
  - unfold OnStreamClose. munfold. rewrite H. reflexivity.
  - intros frame <-. unfold HandleDataFrame. munfold. rewrite H.
    reflexivity.
  - intros frame <-. unfold HandleHeadersFrame. munfold. rewrite H.
    reflexivity.
Qed.

(** ** Inbound data *)

Lemma on_data_calls_app (tr1 tr2 : list event) :
  on_data_calls (tr1 ++ tr2) = on_data_calls tr1 ++ on_data_calls tr2.
Proof.
  induction tr1 as [|e tr1 IH]; [reflexivity|].
  destruct e; simpl; rewrite ?IH; reflexivity.
Qed.

Lemma on_data_calls_chunks (this : ptr) (chunks : list uv_buf_t) :
  on_data_calls (map (EvOnDataChunk this) chunks) = map (pair this) chunks.
Proof.
  induction chunks as [|c cs IH]; simpl; [|rewrite IH]; reflexivity.
Qed.

(** C1, as the code has it.  Take a registered stream with no chunk
    buffered, and let the nodes the pool hands out for the chunks of a
    DATA frame be distinct nodes without a successor, as new nodes are.
    Then the chunk callbacks deliver nothing; when the frame completes,
    [OnDataChunk] is called once for each chunk received, in receipt
    order, each call with that chunk's bytes, and the stream's inbound
    queue is empty afterwards.  The bytes delivered are the bytes
    received. *)
Theorem data_frame_delivered_chunk_by_chunk (w : Session) (id : Z)
    (this : ptr) (s : Nghttp2Stream) (chunks : list (Z * uv_buf_t))
    (frame : nghttp2_frame) :
  streams_ w !! id = Some this ->
  heap w !! this = Some s ->
  data_chunks_head_ s = None ->
  data_chunks_tail_ s = None ->
  unlinked (data_chunks w)
    (take (length chunks) (data_chunk_free_list w)) ->
  hd_type frame = NGHTTP2_DATA ->
  hd_stream_id frame = id ->
  exists w1 w2 s2,
    dispatch_all (map (fun c => on_data_chunk_recv c.1 id c.2) chunks) w
      = Done (tt, w1) /\
    trace w1 = trace w /\
    dispatch (on_frame_recv frame) w1 = Done (0, w2) /\
    trace w2 = trace w ++ map (EvOnDataChunk this) (map snd chunks) /\
    on_data_calls (trace w2) =
      on_data_calls (trace w) ++ map (pair this) (map snd chunks) /\
    heap w2 !! this = Some s2 /\
    data_chunks_head_ s2 = None /\ data_chunks_tail_ s2 = None.
Proof.
  intros Hid Hs Hhead Htail Hun Hty Hfid.
  destruct (OnDataChunkReceived_all id this chunks w s [] Hid Hs)
    as (m' & s' & new & Hrun & Hnew & Hs' & Hll).
  { rewrite Hhead, Htail. split; [done|]. split; [done|constructor]. }
  { exact Hun. }
  { intros p _ Hp. by apply elem_of_nil in Hp. }
  destruct Hll as (Hc & _ & Hnd). simpl in Hc, Hnd.
  rewrite <- list_fmap_compose in Hnd.
  rewrite Hrun. eexists _, _, _.
  split; [reflexivity|]. split; [reflexivity|].
  unfold dispatch, OnFrameReceive. rewrite Hty. munfold.
  erewrite HandleDataFrame_spec;
    [|by rewrite Hfid|simpl; apply lookup_insert_eq|exact Hc|exact Hnd].
  simpl. rewrite Hnew.
  split; [reflexivity|]. split; [reflexivity|].
  split.
  { cbn [trace set_trace].
    by rewrite on_data_calls_app, on_data_calls_chunks. }
  split; [apply lookup_insert_eq|]. done.
Qed.

(** ** Inbound headers *)

Lemma on_headers_calls_app (tr1 tr2 : list event) :
  on_headers_calls (tr1 ++ tr2)
  = on_headers_calls tr1 ++ on_headers_calls tr2.
Proof.
  induction tr1 as [|e tr1 IH]; [reflexivity|].
  destruct e; simpl; rewrite ?IH; reflexivity.
Qed.

Lemma on_headers_calls_incref (hs : list nghttp2_header_list) :
  on_headers_calls
    (flat_map (fun h => [EvRcbufIncref (name h); EvRcbufIncref (value h)])
       hs) = [].
Proof. induction hs as [|h hs IH]; simpl; [|rewrite IH]; reflexivity. Qed.

Lemma on_headers_calls_decref (nodes : list (ptr * nghttp2_header_list)) :
  on_headers_calls (map (fun n => EvRcbufDecref (value n.2)) nodes) = [].
Proof. induction nodes as [|h hs IH]; simpl; [|rewrite IH]; reflexivity. Qed.

(** A header block on a registered stream with an empty header list,
    when the pool hands out nodes without a successor: what the header
    callbacks and the completed frame leave. *)
Lemma header_block_run (w : Session) (frame : nghttp2_frame)
    (this : ptr) (s : Nghttp2Stream)
    (pairs : list (nghttp2_header_list * Z)) :
  hd_type frame = NGHTTP2_HEADERS \/ hd_type frame = NGHTTP2_PUSH_PROMISE ->
  streams_ w !! headers_frame_id frame = Some this ->
  heap w !! this = Some s ->
  current_headers_head_ s = None ->
  current_headers_tail_ s = None ->
  unlinked (header_nodes w) (take (length pairs) (header_free_list w)) ->
  exists w1 w2 s2 head m (nodes : list (ptr * nghttp2_header_list)),
    dispatch_all
      (map (fun p => on_header frame (name p.1) (value p.1) p.2) pairs) w
      = Done (tt, w1) /\
    trace w1
    = trace w
      ++ flat_map
           (fun h => [EvRcbufIncref (name h); EvRcbufIncref (value h)])
           (map fst pairs) /\
    dispatch (on_frame_recv frame) w1 = Done (0, w2) /\
    trace w2
    = trace w1
      ++ EvOnHeaders this head m (current_headers_category_ s)
           (hd_flags frame)
         :: map (fun n => EvRcbufDecref (value n.2)) nodes /\
    headers_seen m head = map fst pairs /\
    map snd nodes = map fst pairs /\
    streams_ w2 = streams_ w /\
    heap w2 !! this = Some s2 /\
    current_headers_head_ s2 = None /\ current_headers_tail_ s2 = None.
Proof.
  intros Hty Hid Hs Hhead Htail Hun.
  destruct (OnHeaderCallback_all frame this pairs w s [] Hid Hs)
    as (m' & s' & new & Hrun & Hnew & Hs' & Hll).
  { rewrite Hhead, Htail. split; [done|]. split; [done|constructor]. }
  { exact Hun. }
  { intros p _ Hp. by apply elem_of_nil in Hp. }
  destruct Hll as (Hc & _ & Hnd). simpl in Hc, Hnd.
  assert (Hcat : current_headers_category_ s'
                 = current_headers_category_ s).
  { rewrite Hs'. reflexivity. }
  rewrite Hrun.
  eexists _, _, _, (current_headers_head_ s'), m', new.
  split; [reflexivity|]. split; [reflexivity|].
  assert (Hframe : forall w1,
    dispatch (on_frame_recv frame) w1
    = (HandleHeadersFrame frame ≫= fun _ => mret 0) w1).
  { intros w1. unfold dispatch, OnFrameReceive.
    destruct Hty as [-> | ->]; reflexivity. }
  rewrite Hframe. munfold.
  erewrite HandleHeadersFrame_spec;
    [|exact Hid|simpl; apply lookup_insert_eq|exact Hc|exact Hnd].
  split; [reflexivity|].
  split; [simpl; rewrite Hcat; reflexivity|].
  split; [by rewrite (headers_seen_chain _ _ _ Hc Hnd)|].
  split; [exact Hnew|]. split; [reflexivity|].
  split; [simpl; apply lookup_insert_eq|]. done.
Qed.

(** X18. The headers of a block reach the consumer once and in order,
    when the pool hands out nodes without a successor: the header callbacks call
    [OnHeaders] not at all; when the frame completes, [OnHeaders] is called
    exactly once, with a list that holds the pairs received, in receipt
    order, with the stream's category and the frame's flags, and the
    stream's header list is empty afterwards. *)
Theorem headers_frame_delivered_once (w : Session) (frame : nghttp2_frame)
    (this : ptr) (s : Nghttp2Stream)
    (pairs : list (nghttp2_header_list * Z)) :
  hd_type frame = NGHTTP2_HEADERS \/ hd_type frame = NGHTTP2_PUSH_PROMISE ->
  streams_ w !! headers_frame_id frame = Some this ->
  heap w !! this = Some s ->
  current_headers_head_ s = None ->
  current_headers_tail_ s = None ->
  unlinked (header_nodes w) (take (length pairs) (header_free_list w)) ->
  exists w1 w2 s2 evs,
    dispatch_all
      (map (fun p => on_header frame (name p.1) (value p.1) p.2) pairs) w
      = Done (tt, w1) /\
    on_headers_calls (trace w1) = on_headers_calls (trace w) /\
    dispatch (on_frame_recv frame) w1 = Done (0, w2) /\
    trace w2 = trace w1 ++ evs /\
    on_headers_calls evs =
      [(this, map fst pairs, current_headers_category_ s, hd_flags frame)] /\
    heap w2 !! this = Some s2 /\
    current_headers_head_ s2 = None /\ current_headers_tail_ s2 = None.
Proof.
  intros Hty Hid Hs Hhead Htail Hun.
  destruct (header_block_run w frame this s pairs Hty Hid Hs Hhead Htail Hun)
    as (w1 & w2 & s2 & head & m & nodes & Hrun & Htr1 & Hfr & Htr2 & Hseen
        & _ & _ & Hs2 & Hh2 & Ht2).
  eexists w1, w2, s2, _. split; [exact Hrun|].
  split.
  { rewrite Htr1, on_headers_calls_app, on_headers_calls_incref.
    apply app_nil_r. }
  split; [exact Hfr|]. split; [exact Htr2|].
  split; [simpl; by rewrite on_headers_calls_decref, Hseen|]. done.
Qed.

(** ** The send pipeline always finishes *)

Lemma Session_trace_nil (w : Session) : set_trace w (trace w ++ []) = w.
Proof. destruct w; simpl. by rewrite app_nil_r. Qed.

(** The copy loop returns within its iteration bound, never reads outside
    the chunk, and only appends sends to the trace. *)
Lemma SendPendingData_copy_total (data : list byte) :
  (0 < send_buffer_len)%nat ->
  forall (fuel amount src_offset : nat) (current : list byte)
         (remaining : nat) (w : Session),
    (src_offset + amount <= length data)%nat ->
    ((if (amount =? 0)%nat then 0
      else amount + (if (remaining =? 0)%nat then 1 else 0)) < fuel)%nat ->
    exists current' remaining' flushed,
      SendPendingData_copy fuel data amount src_offset current remaining w
      = Done ((current', remaining',
               if (amount =? 0)%nat then src_offset else 0%nat),
              set_trace w (trace w ++ map EvSend flushed)).
Proof.
  intros Hcap.
  induction fuel as [|fuel IH];
    intros amount src_offset current remaining w Hin Hf; [lia|].
  cbn [SendPendingData_copy].
  destruct (Nat.ltb_spec 0 amount) as [Hpos|Hzero].
  2:{ assert (amount = 0%nat) as -> by lia.
      exists current, remaining, []. munfold. simpl.
      by rewrite Session_trace_nil. }
  rewrite (proj2 (Nat.eqb_neq amount 0)) in * by lia.
  destruct (Nat.ltb_spec remaining amount) as [Hover|Hfit].
  - unfold read_bytes.
    rewrite (proj2 (Nat.leb_le _ _)) by lia.
    munfold.
    destruct (IH (amount - remaining)%nat remaining [] send_buffer_len
                (set_trace w
                   (trace w
                    ++ [EvSend
                          (current ++ take remaining (drop src_offset data))])))
      as (current' & remaining' & flushed & Hrun).
    { lia. }
    { rewrite (proj2 (Nat.eqb_neq send_buffer_len 0)) by lia.
      destruct (amount - remaining =? 0)%nat eqn:E; [lia|].
      destruct (remaining =? 0)%nat eqn:E'; [|apply Nat.eqb_neq in E']; lia. }
    rewrite Hrun.
    rewrite (proj2 (Nat.eqb_neq (amount - remaining) 0)) by lia.
    exists current', remaining',
      ((current ++ take remaining (drop src_offset data)) :: flushed).
    simpl. rewrite <- app_assoc. reflexivity.
  - unfold read_bytes.
    rewrite (proj2 (Nat.leb_le _ _)) by lia.
    munfold.
    destruct (IH 0%nat 0%nat (current ++ take amount (drop src_offset data))
                (remaining - amount)%nat w)
      as (current' & remaining' & flushed & Hrun).
    { lia. }
    { simpl. lia. }
    rewrite Hrun. simpl. eauto.
Qed.

(** The outer loop finishes before its iteration bound and changes only
    the engine's queue and, by sends, the trace. *)
Lemma SendPendingData_loop_total :
  (0 < send_buffer_len)%nat ->
  forall (n : nat) (current : list byte) (remaining : nat) (w : Session),
    (length (pending_send w) < n)%nat ->
    exists current' flushed rest,
      SendPendingData_loop n 0 current remaining w
      = Done (current',
              set_pending_send
                (set_trace w (trace w ++ map EvSend flushed)) rest).
Proof.
  intros Hcap.
  induction n as [|n IH]; intros current remaining w Hn; [lia|].
  cbn [SendPendingData_loop]. unfold nghttp2_session_mem_send. munfold.
  destruct (pending_send w) as [|data rest] eqn:Hp.
  - simpl. exists current, [], []. do 2 f_equal.
    destruct w; simpl in *. subst. by rewrite app_nil_r.
  - simpl in Hn.
    destruct (Nat.ltb_spec 0 (length data)) as [Hpos|Hzero].
    + destruct (SendPendingData_copy_total data Hcap
                  (S (S (length data))) (length data) 0 current remaining
                  (set_pending_send w rest))
        as (current' & remaining' & flushed & Hrun).
      { lia. }
      { destruct (length data =? 0)%nat; [lia|].
        destruct (remaining =? 0)%nat; lia. }
      rewrite Hrun.
      rewrite (proj2 (Nat.eqb_neq (length data) 0)) by lia.
      destruct (IH current' remaining'
                  (set_trace (set_pending_send w rest)
                     (trace (set_pending_send w rest)
                      ++ map EvSend flushed)))
        as (current'' & flushed' & rest' & Hrun').
      { simpl. lia. }
      rewrite Hrun'. exists current'', (flushed ++ flushed'), rest'.
      simpl. rewrite map_app, <- app_assoc. reflexivity.
    + exists current, [], rest. simpl. by rewrite app_nil_r.
Qed.

(** [SendPendingData] returns, having handed at least the last buffer to
    the transport. *)
Lemma SendPendingData_total (w : Session) :
  (0 < send_buffer_len)%nat ->
  exists flushed last rest,
    SendPendingData w
    = Done (tt, set_pending_send
                  (set_trace w (trace w ++ map EvSend (flushed ++ [last])))
                  rest).
Proof.
  intros Hcap. unfold SendPendingData. munfold.
  destruct (SendPendingData_loop_total Hcap
              (S (length (pending_send w))) [] send_buffer_len w)
    as (current & flushed & rest & Hrun); [lia|].
  rewrite Hrun. exists flushed, current, rest.
  simpl. rewrite map_app, <- app_assoc. reflexivity.
Qed.

(** ** Callbacks neither feed nor send *)

Lemma io_app (tr1 tr2 : list event) : io (tr1 ++ tr2) = io tr1 ++ io tr2.
Proof.
  induction tr1 as [|e tr1 IH]; [reflexivity|].
  simpl. destruct (is_io e); simpl; by rewrite IH.
Qed.

Lemma bind_Done {A B} (m : M A) (k : A -> M B) (w w2 : Session) (b : B) :
  (m ≫= k) w = Done (b, w2) ->
  exists a w1, m w = Done (a, w1) /\ k a w1 = Done (b, w2).
Proof.
  munfold. destruct (m w) as [[a w1]| | |]; try discriminate. eauto.
Qed.

Create HintDb quiet.

Lemma quiet_ret {A} (a : A) : quiet (mret a).
Proof. intros w a' w' H. munfold. by injection H as _ <-. Qed.

Lemma quiet_bind {A B} (m : M A) (k : A -> M B) :
  quiet m -> (forall a, quiet (k a)) -> quiet (m ≫= k).
Proof.
  intros Hm Hk w b w2 H. apply bind_Done in H as (a & w1 & H1 & H2).
  rewrite (Hk a _ _ _ H2). eauto.
Qed.

Lemma quiet_fail_abort {A} : quiet (@fail_abort A).
Proof. intros w a w' H. discriminate H. Qed.

Lemma quiet_fail_undefined {A} : quiet (@fail_undefined A).
Proof. intros w a w' H. discriminate H. Qed.

Lemma quiet_get : quiet get.
Proof. intros w a w' H. munfold. by injection H as _ <-. Qed.

Lemma quiet_modify (f : Session -> Session) :
  (forall w, trace (f w) = trace w) -> quiet (modify f).
Proof. intros Hf w a w' H. munfold. injection H as _ <-. by rewrite Hf. Qed.

Lemma quiet_emit (evs : list event) : io evs = [] -> quiet (emit evs).
Proof.
  intros Hevs w a w' H. munfold. injection H as _ <-. simpl.
  by rewrite io_app, Hevs, app_nil_r.
Qed.

Lemma quiet_load (p : ptr) : quiet (load p).
Proof.
  intros w a w' H. munfold. destruct (heap w !! p); [|discriminate].
  by injection H as _ <-.
Qed.

Lemma quiet_store (p : ptr) (s : Nghttp2Stream) : quiet (store p s).
Proof. by apply quiet_modify. Qed.

Lemma quiet_deref (o : option ptr) : quiet (deref o).
Proof. destruct o; [apply quiet_ret | apply quiet_fail_undefined]. Qed.

Lemma quiet_FindStream (id : Z) : quiet (FindStream id).
Proof.
  intros w a w' H. unfold FindStream in H. munfold.
  by injection H as _ <-.
Qed.

Lemma quiet_load_chunk (p : ptr) : quiet (load_chunk p).
Proof.
  intros w a w' H. munfold. destruct (data_chunks w !! p); [|discriminate].
  by injection H as _ <-.
Qed.

Lemma quiet_store_chunk (p : ptr) (c : nghttp2_data_chunk_t) :
  quiet (store_chunk p c).
Proof. by apply quiet_modify. Qed.

Lemma quiet_load_header (p : ptr) : quiet (load_header p).
Proof.
  intros w a w' H. munfold. destruct (header_nodes w !! p); [|discriminate].
  by injection H as _ <-.
Qed.

Lemma quiet_store_header (p : ptr) (h : nghttp2_header_node) :
  quiet (store_header p h).
Proof. by apply quiet_modify. Qed.

Lemma quiet_stream_free_list_pop : quiet stream_free_list_pop.
Proof.
  intros w a w' H. unfold stream_free_list_pop in H.
  destruct (stream_free_list w); by injection H as _ <-.
Qed.

Lemma quiet_stream_free_list_push (p : ptr) :
  quiet (stream_free_list_push p).
Proof.
  apply quiet_modify. intros w.
  by destruct (length (stream_free_list w) <? FREELIST_MAX)%nat.
Qed.

Lemma quiet_data_chunk_free_list_pop : quiet data_chunk_free_list_pop.
Proof.
  intros w a w' H. unfold data_chunk_free_list_pop in H.
  destruct (data_chunk_free_list w); by injection H as _ <-.
Qed.

Lemma quiet_data_chunk_free_list_push (p : ptr) :
  quiet (data_chunk_free_list_push p).
Proof.
  apply quiet_modify. intros w.
  by destruct (length (data_chunk_free_list w) <? FREELIST_MAX)%nat.
Qed.

Lemma quiet_header_free_list_pop : quiet header_free_list_pop.
Proof.
  intros w a w' H. unfold header_free_list_pop in H.
  destruct (header_free_list w); by injection H as _ <-.
Qed.

Lemma quiet_header_free_list_push (p : ptr) :
  quiet (header_free_list_push p).
Proof.
  apply quiet_modify. intros w.
  by destruct (length (header_free_list w) <? FREELIST_MAX)%nat.
Qed.

Lemma quiet_out_of_fuel {A} : quiet (fun _ => @OutOfFuel (A * Session)).
Proof. intros w a w' H. discriminate H. Qed.

#[local] Hint Resolve quiet_ret quiet_fail_abort quiet_fail_undefined
  quiet_get quiet_load quiet_store quiet_deref quiet_FindStream
  quiet_load_chunk quiet_store_chunk quiet_load_header quiet_store_header
  quiet_stream_free_list_pop quiet_stream_free_list_push
  quiet_data_chunk_free_list_pop quiet_data_chunk_free_list_push
  quiet_header_free_list_pop quiet_header_free_list_push
  quiet_out_of_fuel : quiet.

(** Splits a computation at its binds and branches, and closes the leaves
    with the lemmas above. *)
Ltac quiet_step :=
  match goal with
  | |- quiet (_ ≫= _) => apply quiet_bind; [|intros]
  | |- quiet (if ?b then _ else _) => destruct b
  | |- quiet (match ?o with Some _ => _ | None => _ end) => destruct o
  | |- quiet (modify _) => apply quiet_modify; intros; reflexivity
  | |- quiet (emit _) => apply quiet_emit; reflexivity
  | |- quiet _ => solve [eauto with quiet]
  end.

Ltac quiet_tac := repeat quiet_step.

Lemma quiet_FreeHeaders_loop (fuel : nat) (this : ptr) :
  quiet (FreeHeaders_loop fuel this).
Proof.
  induction fuel as [|fuel IH]; cbn [FreeHeaders_loop]; quiet_tac.
Qed.

Lemma quiet_Destroy_chunks_loop (fuel : nat) (this : ptr) :
  quiet (Destroy_chunks_loop fuel this).
Proof.
  induction fuel as [|fuel IH]; cbn [Destroy_chunks_loop]; quiet_tac.
Qed.

Lemma quiet_HandleDataFrame_loop (fuel : nat) (this : ptr) :
  quiet (HandleDataFrame_loop fuel this).
Proof.
  induction fuel as [|fuel IH]; cbn [HandleDataFrame_loop]; quiet_tac.
Qed.

#[local] Hint Resolve quiet_FreeHeaders_loop quiet_Destroy_chunks_loop
  quiet_HandleDataFrame_loop : quiet.

Lemma quiet_FreeHeaders (this : ptr) : quiet (FreeHeaders this).
Proof. unfold FreeHeaders. quiet_tac. Qed.

#[local] Hint Resolve quiet_FreeHeaders : quiet.

Lemma quiet_Destroy (this : ptr) : quiet (Nghttp2Stream_Destroy this).
Proof.
  unfold Nghttp2Stream_Destroy, RemoveStream. quiet_tac.
Qed.

#[local] Hint Resolve quiet_Destroy : quiet.

(** No callback of the engine feeds the parser or sends to the transport. *)
Lemma quiet_dispatch (c : engine_callback) : quiet (dispatch c).
Proof.
  destruct c; cbn [dispatch].
  - unfold OnBeginHeadersCallback, Nghttp2Stream_Init, AddStream,
      StartHeaders. quiet_tac.
  - unfold OnHeaderCallback. quiet_tac.
  - unfold OnFrameReceive, HandleDataFrame, HandleHeadersFrame,
      HandlePriorityFrame.
    destruct (hd_type frame); quiet_tac.
  - unfold OnStreamClose, Nghttp2Stream_Close. quiet_tac.
  - unfold OnDataChunkReceived. quiet_tac.
Qed.

Lemma quiet_dispatch_all (cs : list engine_callback) :
  quiet (dispatch_all cs).
Proof.
  induction cs as [|c cs IH]; cbn [dispatch_all];
    [apply quiet_ret | apply quiet_bind; [apply quiet_dispatch | done]].
Qed.

(** ** Session write *)

Lemma sent_app (tr1 tr2 : list event) :
  sent (tr1 ++ tr2) = sent tr1 ++ sent tr2.
Proof.
  induction tr1 as [|e tr1 IH]; [reflexivity|].
  destruct e; simpl; rewrite ?IH; reflexivity.
Qed.

Lemma sent_sends (l : list (list byte)) : sent (map EvSend l) = l.
Proof. induction l as [|x l IH]; simpl; [|rewrite IH]; reflexivity. Qed.

Lemma feed_all_cons (buf : uv_buf_t) (rest : list uv_buf_t)
    (w w1 : Session) (rets : list Z) :
  feed_all (buf :: rest) w = Done (rets, w1) ->
  exists r rs w',
    rets = r :: rs /\
    nghttp2_session_mem_recv buf w = Done (r, w') /\
    feed_all rest w' = Done (rs, w1).
Proof.
  cbn [feed_all]. intros H.
  apply bind_Done in H as (r & w' & Hr & H).
  apply bind_Done in H as (rs & w'' & Hrs & H).
  munfold. injection H as <- <-. eauto 6.
Qed.

Lemma Forall_nonneg (l : list Z) :
  forallb (Z.leb 0) l = true -> Forall (fun r => 0 <= r) l.
Proof.
  induction l as [|r l IH]; simpl; intros H; constructor.
  - apply andb_prop in H as [H _]. by apply Z.leb_le.
  - apply andb_prop in H as [_ H]. by apply IH.
Qed.

(** While the feeds succeed, the loop adds up their results. *)
Lemma Write_loop_success (bufs0 : list uv_buf_t) :
  forall (total : Z) (w w1 : Session) (rets : list Z),
    feed_all bufs0 w = Done (rets, w1) ->
    Forall (fun r => 0 <= r) rets ->
    0 <= total ->
    total + sum_Z rets < 2 ^ 63 ->
    Nghttp2Session_Write_loop bufs0 total w
    = Done (inr (total + sum_Z rets), w1).
Proof.
  induction bufs0 as [|buf rest IH]; intros total w w1 rets Hfeed Hpos Ht Hs.
  - simpl in Hfeed. munfold. injection Hfeed as <- <-.
    simpl. munfold. by rewrite Z.add_0_r.
  - apply feed_all_cons in Hfeed as (r & rs & w' & -> & Hr & Hrs).
    apply Forall_cons_1 in Hpos as [Hr0 Hpos]. simpl in Hs.
    assert (0 <= sum_Z rs).
    { clear -Hpos. induction Hpos; simpl; lia. }
    cbn [Nghttp2Session_Write_loop]. munfold. rewrite Hr.
    rewrite (proj2 (Z.ltb_ge r 0)) by lia.
    rewrite Z.mod_small by lia.
    erewrite IH; [| exact Hrs | exact Hpos | lia | lia].
    do 3 f_equal. simpl. lia.
Qed.

(** The first failing feed ends the loop with its code. *)
Lemma Write_loop_failure (pre : list uv_buf_t) :
  forall (total : Z) (w w1 w2 : Session) (rets : list Z) (buf : uv_buf_t)
         (post : list uv_buf_t) (r : Z),
    feed_all pre w = Done (rets, w1) ->
    Forall (fun r => 0 <= r) rets ->
    nghttp2_session_mem_recv buf w1 = Done (r, w2) ->
    r < 0 ->
    Nghttp2Session_Write_loop (pre ++ buf :: post) total w
    = Done (inl r, w2).
Proof.
  induction pre as [|b pre IH];
    intros total w w1 w2 rets buf post r Hfeed Hpos Hr Hneg.
  - simpl in Hfeed. munfold. injection Hfeed as <- <-.
    cbn [app Nghttp2Session_Write_loop]. munfold. rewrite Hr.
    by rewrite (proj2 (Z.ltb_lt r 0)) by lia.
  - apply feed_all_cons in Hfeed as (r0 & rs & w' & -> & Hr0 & Hrs).
    apply Forall_cons_1 in Hpos as [Hr0pos Hpos].
    cbn [app Nghttp2Session_Write_loop]. munfold. rewrite Hr0.
    rewrite (proj2 (Z.ltb_ge r0 0)) by lia.
    eapply IH; eauto.
Qed.

Lemma io_feeds (l : list uv_buf_t) : io (map EvMemRecv l) = map EvMemRecv l.
Proof. induction l as [|x l IH]; simpl; [|rewrite IH]; reflexivity. Qed.

Lemma io_sends (l : list (list byte)) : io (map EvSend l) = map EvSend l.
Proof. induction l as [|x l IH]; simpl; [|rewrite IH]; reflexivity. Qed.

(** One feed adds the buffer fed, and nothing else, to the traffic. *)
Lemma nghttp2_session_mem_recv_io (buf : uv_buf_t) (w w' : Session) (r : Z) :
  nghttp2_session_mem_recv buf w = Done (r, w') ->
  io (trace w') = io (trace w) ++ [EvMemRecv buf].
Proof.
  unfold nghttp2_session_mem_recv. intros H.
  apply bind_Done in H as ([] & w1 & H1 & H).
  apply bind_Done in H as (w1' & w1'' & Hget & H).
  apply bind_Done in H as ([] & w2 & Hcb & H).
  apply bind_Done in H as ([] & w3 & Hq & H).
  munfold. injection H1 as <-. injection Hget as <- <-.
  injection Hq as <-. injection H as _ <-.
  simpl. rewrite (quiet_dispatch_all _ _ _ _ Hcb). simpl.
  by rewrite io_app.
Qed.

Lemma feed_all_io (bufs0 : list uv_buf_t) :
  forall (w w1 : Session) (rets : list Z),
    feed_all bufs0 w = Done (rets, w1) ->
    io (trace w1) = io (trace w) ++ map EvMemRecv bufs0.
Proof.
  induction bufs0 as [|buf rest IH]; intros w w1 rets Hfeed.
  - simpl in Hfeed. munfold. injection Hfeed as _ <-.
    simpl. by rewrite app_nil_r.
  - apply feed_all_cons in Hfeed as (r & rs & w' & -> & Hr & Hrs).
    rewrite (IH _ _ _ Hrs), (nghttp2_session_mem_recv_io _ _ _ _ Hr).
    by rewrite <- app_assoc.
Qed.

(** C7. [feed_all] feeds buffers to the engine in order and without
    looking at the results.  If the buffers up to some buffer feed with
    non-negative results and that buffer's feed gives a negative code,
    [Write] returns that code in the state that feed left: what the earlier
    feeds did stays, and the traffic added is the feeds up to and including
    the failing one, with no later buffer fed and nothing sent.  If every
    buffer feeds with a non-negative result, [Write] runs [SendPendingData]
    on the state the feeds left and returns the sum of the results; the
    traffic added is all the feeds in order and then at least one send. *)
Theorem Session_Write_feeds_in_order (w : Session) :
  (forall pre buf post rets w1 r w2,
     feed_all pre w = Done (rets, w1) ->
     Forall (fun r => 0 <= r) rets ->
     nghttp2_session_mem_recv buf w1 = Done (r, w2) ->
     r < 0 ->
     Nghttp2Session_Write (pre ++ buf :: post) w = Done (r, w2) /\
     io (trace w2) = io (trace w) ++ map EvMemRecv (pre ++ [buf])) /\
  (forall bufs0 rets w1,
     feed_all bufs0 w = Done (rets, w1) ->
     Forall (fun r => 0 <= r) rets ->
     sum_Z rets < 2 ^ 63 ->
     (0 < send_buffer_len)%nat ->
     exists w2 flushed last,
       SendPendingData w1 = Done (tt, w2) /\
       Nghttp2Session_Write bufs0 w = Done (sum_Z rets, w2) /\
       io (trace w2)
       = io (trace w) ++ map EvMemRecv bufs0
         ++ map EvSend (flushed ++ [last])).
Proof.
  split.
  - intros pre buf post rets w1 r w2 Hfeed Hpos Hr Hneg. split.
    + unfold Nghttp2Session_Write. munfold.
      by erewrite Write_loop_failure by eauto.
    + rewrite (nghttp2_session_mem_recv_io _ _ _ _ Hr).
      rewrite (feed_all_io _ _ _ _ Hfeed), map_app.
      by rewrite <- app_assoc.
  - intros bufs0 rets w1 Hfeed Hpos Hsum Hcap.
    destruct (SendPendingData_total w1 Hcap)
      as (flushed & last & rest & Hsend).
    eexists _, flushed, last. split; [exact Hsend|]. split.
    + unfold Nghttp2Session_Write. munfold.
      erewrite Write_loop_success; [| exact Hfeed | exact Hpos | lia | lia].
      rewrite Hsend. simpl. unfold to_ssize_t.
      by rewrite (proj2 (Z.ltb_lt _ _)) by lia.
    + simpl. rewrite io_app, io_sends, (feed_all_io _ _ _ _ Hfeed).
      by rewrite <- app_assoc.
Qed.

(** ** The outbound pull *)

Lemma head_consumed_partial head i o r :
  head_consumed head i (o + r) =
  head_consumed head i o ++ take r (drop o (nth i (bufs head) [])).
Proof.
  unfold head_consumed. rewrite <- app_assoc. f_equal.
  symmetry. apply take_take_drop.
Qed.

Lemma head_consumed_next head i o :
  (i < length (bufs head))%nat ->
  head_consumed head (S i) 0 =
  head_consumed head i o ++ drop o (nth i (bufs head) []).
Proof.
  intros Hi. unfold head_consumed.
  destruct (lookup_lt_is_Some_2 (bufs head) i Hi) as [b Hb].
  rewrite (take_S_r _ _ _ Hb), concat_app. simpl.
  rewrite (nth_lookup_Some _ _ _ _ Hb).
  rewrite !app_nil_r, <- app_assoc, take_drop. reflexivity.
Qed.

(** The inner loop returns within its iteration bound.  It moves the
    cursor forward inside the head request, by exactly the bytes it copies,
    and leaves either at the end of the request or, through [goto end],
    with the destination full. *)
Lemma OnStreamRead_bufs_spec (head : nghttp2_stream_write_queue) :
  forall (fuel : nat) (s : Nghttp2Stream) (remaining offset : nat)
         (evs0 : list event),
    (queue_head_index_ s <= length (bufs head))%nat ->
    (queue_head_offset_ s
     <= length (nth (queue_head_index_ s) (bufs head) []))%nat ->
    (length (bufs head) - queue_head_index_ s
     + (if (remaining =? 0)%nat then 0 else 1) < fuel)%nat ->
    exists goto i o remaining' pieces,
      OnStreamRead_bufs fuel head s remaining offset evs0 =
        Done (goto, set_cursor s i o, remaining',
              (offset + length (concat pieces))%nat,
              evs0 ++ map EvCopyOut pieces) /\
      head_consumed head i o =
        head_consumed head (queue_head_index_ s) (queue_head_offset_ s)
        ++ concat pieces /\
      (i <= length (bufs head))%nat /\
      (o <= length (nth i (bufs head) []))%nat /\
      remaining = (remaining' + length (concat pieces))%nat /\
      (goto = false -> i = length (bufs head) /\ o = 0%nat) /\
      (goto = true -> remaining' = 0%nat /\ (i < length (bufs head))%nat).
Proof.
  induction fuel as [|fuel IH]; intros s remaining offset evs0 Hi Ho Hf;
    [lia|].
  cbn [OnStreamRead_bufs].
  destruct (Nat.ltb_spec (queue_head_index_ s) (length (bufs head)))
    as [Hlt|Hge].
  2:{ exists false, (queue_head_index_ s), (queue_head_offset_ s),
        remaining, [].
      simpl. rewrite set_cursor_id, !app_nil_r, Nat.add_0_r.
      assert (queue_head_index_ s = length (bufs head)) as Hx by lia.
      rewrite Hx in Ho. rewrite nth_overflow in Ho by (simpl; lia).
      simpl in Ho. intuition lia. }
  destruct (Nat.eqb_spec remaining 0) as [Hr0|Hr0].
  { exists true, (queue_head_index_ s), (queue_head_offset_ s),
      remaining, [].
    simpl. rewrite set_cursor_id, !app_nil_r, Nat.add_0_r.
    intuition lia. }
  set (b := nth (queue_head_index_ s) (bufs head) []) in *.
  rewrite (proj2 (Nat.ltb_ge (length b) (queue_head_offset_ s))) by lia.
  set (len := (length b - queue_head_offset_ s)%nat).
  set (n := if (len <? remaining)%nat then len else remaining).
  set (piece := take n (drop (queue_head_offset_ s) b)).
  assert (Hn : (n <= len /\ n <= remaining)%nat /\
               (n = len \/ n = remaining)).
  { unfold n. destruct (Nat.ltb_spec len remaining); lia. }
  assert (Hpiece : length piece = n).
  { unfold piece. rewrite length_take, length_drop. lia. }
  destruct (Nat.ltb_spec n len) as [Hpart|Hfull].
  - (* the destination is full before the buffer ends *)
    destruct (IH (set_cursor s (queue_head_index_ s)
                    (queue_head_offset_ s + n))
                (remaining - n)%nat (offset + n)%nat
                (evs0 ++ [EvCopyOut piece]))
      as (goto & i & o & remaining' & pieces
          & Hrun & Hc & Hi' & Ho' & Hrem & Hf' & Ht').
    { simpl. lia. }
    { simpl. fold b. lia. }
    { simpl. replace (remaining - n)%nat with 0%nat by lia. simpl. lia. }
    exists goto, i, o, remaining', (piece :: pieces).
    simpl in Hrun, Hc. rewrite Hrun. simpl.
    rewrite length_app, Hpiece, <- !app_assoc, Nat.add_assoc. simpl.
    split; [reflexivity|]. split; [|intuition lia].
    rewrite Hc, head_consumed_partial. fold b piece.
    by rewrite <- app_assoc.
  - (* the buffer ends first: on to the next buffer *)
    assert (n = len) as Hnl by lia.
    destruct (IH (set_cursor s (S (queue_head_index_ s)) 0)
                (remaining - n)%nat (offset + n)%nat
                (evs0 ++ [EvCopyOut piece]))
      as (goto & i & o & remaining' & pieces
          & Hrun & Hc & Hi' & Ho' & Hrem & Hf' & Ht').
    { simpl. lia. }
    { simpl. lia. }
    { simpl. destruct (remaining - n =? 0)%nat; lia. }
    exists goto, i, o, remaining', (piece :: pieces).
    simpl in Hrun, Hc. rewrite Hrun. simpl.
    rewrite length_app, Hpiece, <- !app_assoc, Nat.add_assoc. simpl.
    split; [reflexivity|]. split; [|intuition lia].
    rewrite Hc, (head_consumed_next head _ (queue_head_offset_ s)) by lia.
    fold b. rewrite <- app_assoc. do 2 f_equal.
    unfold piece. rewrite take_ge; [reflexivity|].
    rewrite length_drop. lia.
Qed.

Lemma copied_app tr1 tr2 : copied (tr1 ++ tr2) = copied tr1 ++ copied tr2.
Proof.
  induction tr1 as [|e tr1 IH]; [reflexivity|].
  destruct e; simpl; rewrite ?IH, ?app_assoc; reflexivity.
Qed.

Lemma copied_copies pieces : copied (map EvCopyOut pieces) = concat pieces.
Proof. induction pieces as [|p ps IH]; simpl; [|rewrite IH]; reflexivity. Qed.

Lemma fifo_run_app tr1 tr2 todo acc todo1 acc1 final :
  fifo_run tr1 todo acc (todo1, acc1) ->
  fifo_run tr2 todo1 acc1 final ->
  fifo_run (tr1 ++ tr2) todo acc final.
Proof.
  revert todo acc. induction tr1 as [|e tr1 IH]; intros todo acc H1 H2.
  - simpl in *. injection H1 as <- <-. exact H2.
  - destruct e; simpl in *; eauto.
    destruct todo as [|item todo']; [contradiction|].
    destruct H1 as (? & ? & ? & ? & H1). eauto 10.
Qed.

Lemma fifo_run_copies pieces todo acc :
  fifo_run (map EvCopyOut pieces) todo acc (todo, acc ++ concat pieces).
Proof.
  revert acc. induction pieces as [|p ps IH]; intros acc; simpl.
  - by rewrite app_nil_r.
  - rewrite app_assoc. apply IH.
Qed.

Lemma fifo_run_todo_app tr todo acc todo' acc' extra :
  fifo_run tr todo acc (todo', acc') ->
  fifo_run tr (todo ++ extra) acc (todo' ++ extra, acc').
Proof.
  revert todo acc. induction tr as [|e tr IH]; intros todo acc H.
  - simpl in *. injection H as <- <-. reflexivity.
  - destruct e; simpl in *; eauto.
    destruct todo as [|item todo1]; [contradiction|]. simpl.
    destruct H as (? & ? & ? & ? & H). eauto 10.
Qed.

Lemma head_consumed_all head :
  head_consumed head (length (bufs head)) 0 = concat (bufs head).
Proof.
  unfold head_consumed. rewrite take_ge by lia. simpl. apply app_nil_r.
Qed.

Lemma consumed_of_head (s : Nghttp2Stream) head next :
  queue_ s = head :: next ->
  consumed_of s
  = head_consumed head (queue_head_index_ s) (queue_head_offset_ s).
Proof. intros H. unfold consumed_of. rewrite H. reflexivity. Qed.

Lemma consumed_of_origin (s : Nghttp2Stream) :
  queue_head_index_ s = 0%nat -> queue_head_offset_ s = 0%nat ->
  consumed_of s = [].
Proof.
  intros Hi Ho. unfold consumed_of. destruct (queue_ s); [reflexivity|].
  rewrite Hi, Ho. reflexivity.
Qed.

(** The outer loop returns.  Its trace replays against the queue it found
    and leaves the queue and cursor it returns; the bytes it copies fit the
    destination, and fill it whenever requests remain queued. *)
Lemma OnStreamRead_queue_spec (q : list nghttp2_stream_write_queue) :
  forall (s : Nghttp2Stream) (remaining offset : nat) (evs0 : list event),
    queue_ s = q -> cursor_ok s -> Forall has_cb q ->
    exists q' i o evs,
      let s' := set_queue_ (set_cursor s i o) q' in
      OnStreamRead_queue q s remaining offset evs0 =
        Done (s', (offset + length (copied evs))%nat, evs0 ++ evs) /\
      fifo_run evs q (consumed_of s) (q', consumed_of s') /\
      cursor_ok s' /\ Forall has_cb q' /\
      (length (copied evs) <= remaining)%nat /\
      (q' <> [] -> length (copied evs) = remaining).
Proof.
  induction q as [|head next IH]; intros s remaining offset evs0 Hq Hc Hcb.
  - exists [], (queue_head_index_ s), (queue_head_offset_ s), [].
    assert (set_queue_
              (set_cursor s (queue_head_index_ s) (queue_head_offset_ s)) []
            = s) as E.
    { destruct s; simpl in *; subst; reflexivity. }
    simpl. rewrite E, app_nil_r, Nat.add_0_r.
    repeat split; try done. lia.
  - unfold cursor_ok in Hc. rewrite Hq in Hc. destruct Hc as [Hi Ho].
    destruct (OnStreamRead_bufs_spec head (S (S (length (bufs head)))) s
                remaining offset evs0 Hi Ho)
      as (goto & i & o & remaining' & pieces
          & Hrun & Hcons & Hi' & Ho' & Hrem & Hf & Ht).
    { destruct (remaining =? 0)%nat; lia. }
    cbn [OnStreamRead_queue]. rewrite Hrun.
    destruct goto.
    + destruct (Ht eq_refl) as [-> Hlt].
      exists (head :: next), i, o, (map EvCopyOut pieces).
      assert (set_queue_ (set_cursor s i o) (head :: next)
              = set_cursor s i o) as E.
      { destruct s; simpl in *; subst; reflexivity. }
      cbn zeta. rewrite E, copied_copies.
      split; [reflexivity|].
      split.
      { rewrite (consumed_of_head s head next Hq).
        rewrite (consumed_of_head (set_cursor s i o) head next)
          by (simpl; exact Hq).
        simpl. rewrite Hcons. apply fifo_run_copies. }
      split; [unfold cursor_ok; simpl; rewrite Hq; done|].
      split; [done|]. split; [lia|]. intros _. lia.
    + destruct (Hf eq_refl) as [-> ->].
      destruct (Forall_cons_1 _ _ _ Hcb) as [[f Hfcb] Hcb'].
      rewrite Hfcb.
      destruct (IH (set_queue_
                      (set_cursor (set_cursor s (length (bufs head)) 0) 0 0)
                      next)
                  remaining' (offset + length (concat pieces))%nat
                  ((evs0 ++ map EvCopyOut pieces)
                   ++ [EvWriteCb f (req head) 0]))
        as (q' & i & o & evs & Hrun2 & Hfifo & Hc2 & Hcb2 & Hle & Hne).
      { reflexivity. }
      { unfold cursor_ok. simpl. destruct next; simpl; split; lia. }
      { exact Hcb'. }
      exists q', i, o,
        (map EvCopyOut pieces ++ EvWriteCb f (req head) 0 :: evs).
      cbn zeta in *. simpl in Hrun2, Hfifo, Hc2 |- *. rewrite Hrun2.
      rewrite copied_app, copied_copies. simpl. rewrite length_app.
      split; [rewrite <- !app_assoc, <- Nat.add_assoc; reflexivity|].
      split.
      { eapply fifo_run_app; [apply fifo_run_copies|].
        simpl.
        rewrite (consumed_of_head s head next Hq), <- Hcons,
          head_consumed_all.
        repeat split; try done.
        rewrite consumed_of_origin in Hfifo by reflexivity. exact Hfifo. }
      split; [exact Hc2|]. split; [exact Hcb2|].
      split; [lia|]. intros Hq'. specialize (Hne Hq'). lia.
Qed.

(** What one pull does to the session, given what its loops did to the
    stream: the status it reports and the trailers it asks for. *)
Lemma OnStreamRead_run (w : Session) (id : Z) (this : ptr)
    (s : Nghttp2Stream) (buf_length : nat) (flags : Z) :
  streams_ w !! id = Some this ->
  heap w !! this = Some s ->
  cursor_ok s ->
  Forall has_cb (queue_ s) ->
  exists q' i o evs,
    let s' := set_queue_ (set_cursor s i o) q' in
    let offset := length (copied evs) in
    let w1 :=
      set_trace (set_heap w (<[this := s']> (heap w))) (trace w ++ evs) in
    let w2 := set_trace w1 (trace w1 ++ [EvOnTrailers this]) in
    let trailers := trailers_of w2 this in
    OnStreamRead_queue (queue_ s) s buf_length 0 [] = Done (s', offset, evs) /\
    fifo_run evs (queue_ s) (consumed_of s) (q', consumed_of s') /\
    cursor_ok s' /\ Forall has_cb q' /\
    (offset <= buf_length)%nat /\
    (q' <> [] -> offset = buf_length) /\
    OnStreamRead id buf_length flags w =
      if bool_decide (q' = [])
      then
        if IsWritable s
        then
          if (offset =? 0)%nat
          then Done ((NGHTTP2_ERR_DEFERRED, flags), w1)
          else Done ((Z.of_nat offset, flags), w1)
        else
          if (0 <? length trailers)%nat
          then Done ((Z.of_nat offset,
                      Z.lor (Z.lor flags NGHTTP2_DATA_FLAG_EOF)
                        NGHTTP2_DATA_FLAG_NO_END_STREAM),
                     set_trace w2
                       (trace w2 ++ [EvSubmitTrailer (id_ s) trailers]))
          else Done ((Z.of_nat offset,
                      Z.lor flags NGHTTP2_DATA_FLAG_EOF), w2)
      else Done ((Z.of_nat offset, flags), w1).
Proof.
  intros Hid Hs Hc Hcb.
  destruct (OnStreamRead_queue_spec (queue_ s) s buf_length 0 []
              eq_refl Hc Hcb)
    as (q' & i & o & evs & Hrun & Hfifo & Hc' & Hcb' & Hle & Hne).
  exists q', i, o, evs. cbn zeta in *.
  split; [exact Hrun|].
  split; [exact Hfifo|]. split; [exact Hc'|]. split; [exact Hcb'|].
  split; [exact Hle|]. split; [exact Hne|].
  unfold OnStreamRead. munfold. rewrite Hid. simpl. rewrite Hs, Hrun.
  simpl. unfold IsWritable. simpl.
  rewrite (proj2 (Nat.leb_le _ _) Hle).
  destruct (bool_decide (q' = [])); simpl.
  - destruct (writable_flags (flags_ s)); simpl.
    + destruct (length (copied evs) =? 0)%nat; reflexivity.
    + rewrite andb_false_r. simpl.
      destruct (0 <? length (trailers_of _ this))%nat; reflexivity.
  - rewrite andb_false_r. reflexivity.
Qed.

Lemma has_flag_lor_l (f m m' : Z) :
  has_flag f m = true -> has_flag (Z.lor f m') m = true.
Proof.
  unfold has_flag. rewrite !Z.eqb_eq. intros H.
  apply Z.bits_inj'. intros n _.
  apply (f_equal (fun x => Z.testbit x n)) in H. revert H.
  rewrite !Z.land_spec, Z.lor_spec.
  destruct (Z.testbit f n), (Z.testbit m n), (Z.testbit m' n);
    simpl; congruence.
Qed.

(** C5, as the code has it.  Take a pull on a registered stream whose
    queued requests all have callbacks, and let the write queue be empty
    when its loops end.  If the stream is writable and the pull copied no
    byte, it returns the deferred status, leaves [*flags] alone and asks
    for no trailers.  If the stream is writable and the pull copied bytes,
    it returns their count, again without touching [*flags].  If the
    stream is not writable, it sets the end-of-data flag, then calls
    [OnTrailers]; trailers, if the consumer gives any, are submitted and
    the no-end-stream flag is set as well; the pull returns the count of
    bytes copied. *)
Theorem pull_status_when_queue_empties (w : Session) (id : Z) (this : ptr)
    (s : Nghttp2Stream) (buf_length : nat) (flags : Z) :
  streams_ w !! id = Some this ->
  heap w !! this = Some s ->
  cursor_ok s ->
  Forall has_cb (queue_ s) ->
  exists s' offset evs,
    let w1 :=
      set_trace (set_heap w (<[this := s']> (heap w))) (trace w ++ evs) in
    OnStreamRead_queue (queue_ s) s buf_length 0 [] = Done (s', offset, evs) /\
    offset = length (copied evs) /\
    IsWritable s' = IsWritable s /\
    (queue_ s' = [] -> IsWritable s = true -> offset = 0%nat ->
       OnStreamRead id buf_length flags w
       = Done ((NGHTTP2_ERR_DEFERRED, flags), w1)) /\
    (queue_ s' = [] -> IsWritable s = true -> offset <> 0%nat ->
       OnStreamRead id buf_length flags w
       = Done ((Z.of_nat offset, flags), w1)) /\
    (queue_ s' = [] -> IsWritable s = false ->
       exists flags' w2,
         OnStreamRead id buf_length flags w
         = Done ((Z.of_nat offset, flags'), w2) /\
         has_flag flags' NGHTTP2_DATA_FLAG_EOF = true /\
         let asked := set_trace w1 (trace w1 ++ [EvOnTrailers this]) in
         let trailers := trailers_of asked this in
         (trailers = [] ->
            flags' = Z.lor flags NGHTTP2_DATA_FLAG_EOF /\ w2 = asked) /\
         (trailers <> [] ->
            flags' = Z.lor (Z.lor flags NGHTTP2_DATA_FLAG_EOF)
                       NGHTTP2_DATA_FLAG_NO_END_STREAM /\
            w2 = set_trace asked
                   (trace asked
                    ++ [EvSubmitTrailer (id_ s) trailers]))).
Proof.
  intros Hid Hs Hc Hcb.
  destruct (OnStreamRead_run w id this s buf_length flags Hid Hs Hc Hcb)
    as (q' & i & o & evs & Hq & _ & _ & _ & _ & _ & Hrun).
  cbn zeta in *.
  exists (set_queue_ (set_cursor s i o) q'), (length (copied evs)), evs.
  cbn zeta. split; [exact Hq|]. split; [reflexivity|].
  split; [reflexivity|]. simpl.
  split; [|split].
  - intros -> Hw Ho. rewrite Hrun, Hw, Ho. reflexivity.
  - intros -> Hw Ho. rewrite Hrun, Hw. simpl.
    by rewrite (proj2 (Nat.eqb_neq _ _) Ho).
  - intros -> Hw. rewrite Hrun, Hw. simpl.
    match goal with
    | |- context [trailers_of ?a this] =>
        destruct (trailers_of a this) as [|nv nvs] eqn:Ht
    end; simpl.
    + eexists _, _. split; [reflexivity|].
      split; [apply has_flag_lor|]. split; [done|]. intros []; reflexivity.
    + eexists _, _. split; [reflexivity|].
      split; [apply has_flag_lor_l, has_flag_lor|].
      split; [discriminate|]. done.
Qed.

(** ** Write completions *)

Lemma completions_app (tr1 tr2 : list event) :
  completions (tr1 ++ tr2) = completions tr1 ++ completions tr2.
Proof.
  induction tr1 as [|e tr1 IH]; [reflexivity|].
  destruct e; simpl; rewrite ?IH; reflexivity.
Qed.

(** A trace that replays against [todo] completes a prefix of [todo], in
    order and with status 0. *)
Lemma fifo_run_completions (tr : list event) :
  forall todo acc todo' acc',
    fifo_run tr todo acc (todo', acc') ->
    exists k,
      completions tr = map (fun item => (req item, 0)) (take k todo) /\
      todo' = drop k todo.
Proof.
  induction tr as [|e tr IH]; intros todo acc todo' acc' H.
  - simpl in H. injection H as <- <-. exists 0%nat. done.
  - destruct e; simpl in H; try (simpl; eauto; fail).
    destruct todo as [|item todo1]; [contradiction|].
    destruct H as (_ & <- & -> & _ & H).
    destruct (IH _ _ _ _ H) as (k & Hc & Hd).
    exists (S k). simpl. rewrite Hc. done.
Qed.

(** An accepted write appends its request and tells the engine. *)
Lemma Write_writable (w : Session) (this : ptr) (s : Nghttp2Stream)
    (req0 : nat) (bufs0 : list uv_buf_t) (cb0 : option nat) :
  heap w !! this = Some s ->
  IsWritable s = true ->
  session_ s = true ->
  Nghttp2Stream_Write this req0 bufs0 cb0 w =
  Done (0, set_trace
             (set_heap w
                (<[this := set_queue_ s
                             (queue_ s
                              ++ [{| cb := cb0; req := req0;
                                     bufs := bufs0 |}])]>
                   (heap w)))
             (trace w ++ [EvResumeData (id_ s)])).
Proof.
  intros Hs Hw Hsess. unfold Nghttp2Stream_Write. munfold.
  rewrite Hs, Hw. simpl. rewrite Hsess. reflexivity.
Qed.

Lemma cursor_ok_enqueue (s : Nghttp2Stream)
    (item : nghttp2_stream_write_queue) :
  cursor_ok s -> cursor_ok (set_queue_ s (queue_ s ++ [item])).
Proof.
  unfold cursor_ok. simpl. destruct (queue_ s); simpl; [|done].
  intros [-> ->]. simpl. lia.
Qed.

Lemma consumed_of_enqueue (s : Nghttp2Stream)
    (item : nghttp2_stream_write_queue) :
  cursor_ok s ->
  consumed_of (set_queue_ s (queue_ s ++ [item])) = consumed_of s.
Proof.
  unfold cursor_ok, consumed_of. simpl. destruct (queue_ s); simpl; [|done].
  intros [-> ->]. reflexivity.
Qed.

(** Writes and pulls on one writable stream, from any state of its queue:
    the trace replays against the queue followed by the writes, and ends
    in the stream's final queue and cursor. *)
Lemma run_ops_fifo (this : ptr) (id : Z) (ops : list stream_op) :
  forall (w : Session) (s : Nghttp2Stream),
    streams_ w !! id = Some this ->
    heap w !! this = Some s ->
    cursor_ok s ->
    Forall has_cb (queue_ s) ->
    IsWritable s = true ->
    session_ s = true ->
    Forall op_has_cb ops ->
    exists w' s' evs,
      run_ops this id ops w = Done (tt, w') /\
      trace w' = trace w ++ evs /\
      heap w' !! this = Some s' /\
      fifo_run evs (queue_ s ++ writes_of ops) (consumed_of s)
        (queue_ s', consumed_of s').
Proof.
  induction ops as [|op rest IH]; intros w s Hid Hs Hc Hcb Hw Hsess Hops.
  - exists w, s, []. simpl. rewrite !app_nil_r. done.
  - apply Forall_cons_1 in Hops as [Hop Hops].
    destruct op as [req0 bufs0 cb0 | buf_length flags].
    + set (item := {| cb := cb0; req := req0; bufs := bufs0 |}).
      set (s1 := set_queue_ s (queue_ s ++ [item])).
      destruct (IH (set_trace (set_heap w (<[this := s1]> (heap w)))
                      (trace w ++ [EvResumeData (id_ s)])) s1)
        as (w' & s' & evs & Hrun & Htr & Hs' & Hfifo);
        try done.
      { simpl. apply lookup_insert_eq. }
      { by apply cursor_ok_enqueue. }
      { simpl. apply Forall_app. split; [done|]. by apply Forall_singleton. }
      exists w', s', (EvResumeData (id_ s) :: evs).
      cbn [run_ops run_op]. munfold.
      rewrite (Write_writable w this s req0 bufs0 cb0 Hs Hw Hsess).
      fold item s1. rewrite Hrun.
      split; [done|]. split; [simpl in Htr; by rewrite Htr, <- app_assoc|].
      split; [done|].
      simpl. unfold s1 in Hfifo at 2.
      rewrite consumed_of_enqueue in Hfifo by done.
      simpl in Hfifo. by rewrite <- app_assoc in Hfifo.
    + destruct (OnStreamRead_run w id this s buf_length flags Hid Hs Hc Hcb)
        as (q' & i & o & evs1 & _ & Hfifo1 & Hc1 & Hcb1 & _ & _ & Hread).
      cbn zeta in *.
      set (s1 := set_queue_ (set_cursor s i o) q') in *.
      set (w1 := set_trace (set_heap w (<[this := s1]> (heap w)))
                   (trace w ++ evs1)) in *.
      assert (exists r, OnStreamRead id buf_length flags w = Done (r, w1))
        as [r Hread'].
      { rewrite Hread, Hw.
        destruct (bool_decide (q' = [])); [|eauto].
        destruct (length (copied evs1) =? 0)%nat; eauto. }
      destruct (IH w1 s1) as (w' & s' & evs & Hrun & Htr & Hs' & Hfifo);
        try done.
      { simpl. apply lookup_insert_eq. }
      exists w', s', (evs1 ++ evs).
      cbn [run_ops run_op]. munfold. rewrite Hread', Hrun.
      split; [done|]. split; [simpl in Htr; by rewrite Htr, <- app_assoc|].
      split; [done|].
      simpl. eapply fifo_run_app; [|exact Hfifo].
      by apply fifo_run_todo_app.
Qed.

(** ** The send pipeline on chunks no longer than a send buffer

    A chunk that is no longer than a send buffer crosses at most one buffer
    boundary; on such chunks the pipeline hands over exactly the bytes it
    pulled, in order. *)

Lemma SendPendingData_copy_short (fuel : nat) (data current : list byte)
    (remaining : nat) (w : Session) :
  (0 < length data <= send_buffer_len)%nat ->
  (3 <= fuel)%nat ->
  exists flushed current' remaining',
    SendPendingData_copy fuel data (length data) 0 current remaining w
    = Done ((current', remaining', 0%nat),
            set_trace w (trace w ++ map EvSend flushed)) /\
    concat flushed ++ current' = current ++ data.
Proof.
  intros [Hpos Hshort] Hfuel.
  destruct fuel as [|[|[|fuel]]]; try lia.
  cbn [SendPendingData_copy].
  rewrite (proj2 (Nat.ltb_lt 0 (length data))) by lia.
  destruct (Nat.ltb_spec remaining (length data)) as [Hover|Hfit].
  - unfold read_bytes.
    rewrite (proj2 (Nat.leb_le (0 + remaining) _)) by lia. munfold.
    rewrite (proj2 (Nat.ltb_lt 0 (length data - remaining))) by lia.
    rewrite (proj2 (Nat.ltb_ge send_buffer_len (length data - remaining)))
      by lia.
    rewrite (proj2 (Nat.leb_le (remaining + (length data - remaining)) _))
      by lia.
    simpl (0 <? 0)%nat. cbv iota.
    eexists [_], _, _. split; [reflexivity|].
    simpl. rewrite app_nil_r, <- app_assoc, drop_0. f_equal.
    rewrite (take_ge (drop remaining data)) by (rewrite length_drop; lia).
    apply take_drop.
  - unfold read_bytes.
    rewrite (proj2 (Nat.leb_le (0 + length data) _)) by lia. munfold.
    simpl (0 <? 0)%nat. cbv iota.
    exists [], (current ++ take (length data) (drop 0 data)),
      (remaining - length data)%nat.
    split; [simpl; by rewrite Session_trace_nil|].
    simpl. by rewrite drop_0, take_ge by lia.
Qed.

Lemma SendPendingData_loop_short :
  forall (n : nat) (current : list byte) (remaining : nat) (w : Session),
    Forall (fun data => (0 < length data <= send_buffer_len)%nat)
      (pending_send w) ->
    (length (pending_send w) < n)%nat ->
    exists flushed current',
      SendPendingData_loop n 0 current remaining w
      = Done (current',
              set_pending_send
                (set_trace w (trace w ++ map EvSend flushed)) []) /\
      concat flushed ++ current' = current ++ concat (pending_send w).
Proof.
  induction n as [|n IH]; intros current remaining w Hshort Hn; [lia|].
  cbn [SendPendingData_loop]. unfold nghttp2_session_mem_send. munfold.
  destruct (pending_send w) as [|data rest] eqn:Hp.
  - exists [], current. split; [|simpl; by rewrite app_nil_r].
    simpl. do 2 f_equal. destruct w; simpl in *. subst.
    by rewrite app_nil_r.
  - apply Forall_cons_1 in Hshort as [Hdata Hrest]. simpl in Hn.
    rewrite (proj2 (Nat.ltb_lt 0 (length data))) by lia.
    destruct (SendPendingData_copy_short (S (S (length data))) data current
                remaining (set_pending_send w rest) Hdata)
      as (flushed & current' & remaining' & Hrun & Hcat); [lia|].
    rewrite Hrun.
    destruct (IH current' remaining'
                (set_trace (set_pending_send w rest)
                   (trace (set_pending_send w rest) ++ map EvSend flushed)))
      as (flushed' & current'' & Hrun' & Hcat').
    { exact Hrest. }
    { simpl. lia. }
    rewrite Hrun'. exists (flushed ++ flushed'), current''.
    split; [simpl; by rewrite map_app, <- app_assoc|].
    simpl in Hcat'. simpl.
    by rewrite concat_app, <- app_assoc, Hcat', app_assoc, Hcat, <- app_assoc.
Qed.

(** X16. When no queued chunk is empty or longer than a send buffer,
    [SendPendingData] empties the engine's queue and what it hands to the
    transport is, in order, what the engine had queued. *)
Lemma SendPendingData_short_chunks (w : Session) :
  Forall (fun data => (0 < length data <= send_buffer_len)%nat)
    (pending_send w) ->
  exists w',
    SendPendingData w = Done (tt, w') /\
    pending_send w' = [] /\
    concat (sent (trace w'))
    = concat (sent (trace w)) ++ concat (pending_send w).
Proof.
  intros Hshort. unfold SendPendingData. munfold.
  destruct (SendPendingData_loop_short (S (length (pending_send w))) []
              send_buffer_len w Hshort)
    as (flushed & current & Hrun & Hcat); [lia|].
  rewrite Hrun. eexists. split; [reflexivity|]. split; [reflexivity|].
  simpl in Hcat. rewrite <- Hcat.
  simpl. rewrite !sent_app, sent_sends, !concat_app. simpl.
  by rewrite app_nil_r, <- app_assoc.
Qed.


(** * Further properties *)

(** ** The send pipeline: buffer bounds and byte count *)

(** The copy loop keeps [offset + remaining] at the buffer length: every
    buffer it sends is full, and the bytes sent and kept are as many as the
    bytes of the chunk it was given. *)
Lemma SendPendingData_copy_bounds (data : list byte) :
  (0 < send_buffer_len)%nat ->
  forall (fuel amount src_offset : nat) (current : list byte)
         (remaining : nat) (w : Session),
    (src_offset + amount <= length data)%nat ->
    ((if (amount =? 0)%nat then 0
      else amount + (if (remaining =? 0)%nat then 1 else 0)) < fuel)%nat ->
    (length current + remaining = send_buffer_len)%nat ->
    exists current' remaining' flushed,
      SendPendingData_copy fuel data amount src_offset current remaining w
      = Done ((current', remaining',
               if (amount =? 0)%nat then src_offset else 0%nat),
              set_trace w (trace w ++ map EvSend flushed)) /\
      Forall (fun b => length b = send_buffer_len) flushed /\
      (length current' + remaining' = send_buffer_len)%nat /\
      (length (concat flushed) + length current'
       = length current + amount)%nat.
Proof.
  intros Hcap.
  induction fuel as [|fuel IH];
    intros amount src_offset current remaining w Hin Hf Hinv; [lia|].
  cbn [SendPendingData_copy].
  destruct (Nat.ltb_spec 0 amount) as [Hpos|Hzero].
  2:{ assert (amount = 0%nat) as -> by lia.
      exists current, remaining, []. munfold. simpl.
      rewrite Session_trace_nil. repeat split; (done || lia). }
  rewrite (proj2 (Nat.eqb_neq amount 0)) in * by lia.
  destruct (Nat.ltb_spec remaining amount) as [Hover|Hfit].
  - unfold read_bytes.
    rewrite (proj2 (Nat.leb_le _ _)) by lia.
    munfold.
    set (full := current ++ take remaining (drop src_offset data)).
    assert (Hfull : length full = send_buffer_len).
    { unfold full. rewrite length_app, length_take, length_drop. lia. }
    destruct (IH (amount - remaining)%nat remaining [] send_buffer_len
                (set_trace w (trace w ++ [EvSend full])))
      as (current' & remaining' & flushed & Hrun & Hall & Hinv' & Hcount).
    { lia. }
    { rewrite (proj2 (Nat.eqb_neq send_buffer_len 0)) by lia.
      destruct (amount - remaining =? 0)%nat eqn:E; [lia|].
      destruct (remaining =? 0)%nat eqn:E'; [|apply Nat.eqb_neq in E']; lia. }
    { simpl. lia. }
    rewrite Hrun.
    rewrite (proj2 (Nat.eqb_neq (amount - remaining) 0)) by lia.
    exists current', remaining', (full :: flushed).
    simpl. rewrite <- app_assoc. split; [reflexivity|].
    split; [by constructor|]. split; [exact Hinv'|].
    simpl in Hcount. rewrite length_app. lia.
  - unfold read_bytes.
    rewrite (proj2 (Nat.leb_le _ _)) by lia.
    munfold.
    set (kept := current ++ take amount (drop src_offset data)).
    assert (Hkept : length kept = (length current + amount)%nat).
    { unfold kept. rewrite length_app, length_take, length_drop. lia. }
    destruct (IH 0%nat 0%nat kept (remaining - amount)%nat w)
      as (current' & remaining' & flushed & Hrun & Hall & Hinv' & Hcount).
    { lia. }
    { simpl. lia. }
    { lia. }
    rewrite Hrun. simpl. exists current', remaining', flushed.
    repeat split; (done || lia).
Qed.

Lemma SendPendingData_loop_bounds :
  (0 < send_buffer_len)%nat ->
  forall (n : nat) (current : list byte) (remaining : nat) (w : Session),
    Forall (fun data => (0 < length data)%nat) (pending_send w) ->
    (length (pending_send w) < n)%nat ->
    (length current + remaining = send_buffer_len)%nat ->
    exists current' flushed,
      SendPendingData_loop n 0 current remaining w
      = Done (current',
              set_pending_send
                (set_trace w (trace w ++ map EvSend flushed)) []) /\
      Forall (fun b => length b = send_buffer_len) flushed /\
      (length current' <= send_buffer_len)%nat /\
      (length (concat flushed) + length current'
       = length current + length (concat (pending_send w)))%nat.
Proof.
  intros Hcap.
  induction n as [|n IH]; intros current remaining w Hne Hn Hinv; [lia|].
  cbn [SendPendingData_loop]. unfold nghttp2_session_mem_send. munfold.
  destruct (pending_send w) as [|data rest] eqn:Hp.
  - exists current, []. simpl. split.
    + do 2 f_equal. destruct w; simpl in *. subst. by rewrite app_nil_r.
    + repeat split; (done || lia).
  - apply Forall_cons_1 in Hne as [Hdata Hrest]. simpl in Hn.
    rewrite (proj2 (Nat.ltb_lt 0 (length data))) by lia.
    destruct (SendPendingData_copy_bounds data Hcap
                (S (S (length data))) (length data) 0 current remaining
                (set_pending_send w rest))
      as (current' & remaining' & flushed & Hrun & Hall & Hinv' & Hcount);
      [lia | | exact Hinv |].
    { destruct (length data =? 0)%nat; [lia|].
      destruct (remaining =? 0)%nat; lia. }
    rewrite Hrun.
    rewrite (proj2 (Nat.eqb_neq (length data) 0)) by lia.
    destruct (IH current' remaining'
                (set_trace (set_pending_send w rest)
                   (trace (set_pending_send w rest) ++ map EvSend flushed)))
      as (current'' & flushed' & Hrun' & Hall' & Hle & Hcount');
      [exact Hrest | simpl; lia | exact Hinv' |].
    rewrite Hrun'. exists current'', (flushed ++ flushed').
    split; [simpl; by rewrite map_app, <- app_assoc|].
    split; [by apply Forall_app|]. split; [exact Hle|].
    simpl in Hcount'. simpl.
    rewrite concat_app, !length_app in *. lia.
Qed.

(** X1. Whatever the engine has queued, as long as no chunk is empty and
    send buffers are not empty: [SendPendingData] returns and empties the
    engine's queue; every buffer it sends but the last holds exactly
    [send_buffer_len] bytes and the last holds no more, so no copy runs
    past a send buffer; and it sends as many bytes as the chunks hold. *)
Theorem SendPendingData_fills_buffers (w : Session) :
  (0 < send_buffer_len)%nat ->
  Forall (fun data => (0 < length data)%nat) (pending_send w) ->
  exists flushed last w',
    SendPendingData w = Done (tt, w') /\
    pending_send w' = [] /\
    sent (trace w') = sent (trace w) ++ flushed ++ [last] /\
    Forall (fun b => length b = send_buffer_len) flushed /\
    (length last <= send_buffer_len)%nat /\
    length (concat (flushed ++ [last]))
    = length (concat (pending_send w)).
Proof.
  intros Hcap Hne. unfold SendPendingData. munfold.
  destruct (SendPendingData_loop_bounds Hcap
              (S (length (pending_send w))) [] send_buffer_len w Hne)
    as (current & flushed & Hrun & Hall & Hle & Hcount); [lia | done |].
  rewrite Hrun. exists flushed, current. eexists.
  split; [reflexivity|]. split; [reflexivity|]. simpl.
  split; [rewrite !sent_app, sent_sends; simpl; by rewrite <- app_assoc|].
  split; [exact Hall|]. split; [exact Hle|].
  rewrite concat_app, length_app. simpl. rewrite app_nil_r.
  simpl in Hcount. lia.
Qed.

(** ** The outbound pull: bounds, byte order and progress *)

(** One pull, whatever the stream's writability: what it returns, what it
    leaves in the session, and what its trace holds. *)
(** The inner loop of the pull leaves through [goto end] only while a
    buffer of the head request is not yet passed. *)
Lemma OnStreamRead_bufs_goto (head : nghttp2_stream_write_queue) :
  forall (fuel : nat) (s : Nghttp2Stream) (remaining offset : nat)
         (evs : list event) s1 rem1 off1 evs1,
    OnStreamRead_bufs fuel head s remaining offset evs
    = Done (true, s1, rem1, off1, evs1) ->
    queue_ s1 = queue_ s /\
    (queue_head_index_ s1 < length (bufs head))%nat.
Proof.
  induction fuel as [|fuel IH];
    intros s remaining offset evs s1 rem1 off1 evs1 H; [done|].
  cbn [OnStreamRead_bufs] in H.
  destruct (queue_head_index_ s <? length (bufs head))%nat eqn:Hlt;
    [|discriminate H].
  destruct (remaining =? 0)%nat.
  { injection H as <- _ _ _. split; [done|]. by apply Nat.ltb_lt. }
  destruct (length (nth (queue_head_index_ s) (bufs head) [])
            <? queue_head_offset_ s)%nat; [done|].
  apply IH in H as [Hq Hi]. split; [|exact Hi]. rewrite Hq.
  repeat match goal with
         | |- context [if ?b then _ else _] => destruct b
         end; reflexivity.
Qed.

(** After a pull, every request all of whose buffers were passed has
    left the queue. *)
Lemma OnStreamRead_queue_head (q : list nghttp2_stream_write_queue) :
  forall (s : Nghttp2Stream) (remaining offset : nat) (evs : list event)
         s' off' evs',
    queue_ s = q ->
    OnStreamRead_queue q s remaining offset evs = Done (s', off', evs') ->
    head_unfinished s'.
Proof.
  induction q as [|head next IH];
    intros s remaining offset evs s' off' evs' Hq H.
  - injection H as <- _ _. unfold head_unfinished. by rewrite Hq.
  - cbn [OnStreamRead_queue] in H.
    destruct (OnStreamRead_bufs _ head s remaining offset evs)
      as [[[[[g s1] rem1] off1] evs1]| | |] eqn:E; try done.
    destruct g.
    + injection H as <- _ _. apply OnStreamRead_bufs_goto in E as [Hq1 Hi].
      unfold head_unfinished. by rewrite Hq1, Hq.
    + destruct (cb head); [|done]. eapply IH; [|exact H]. reflexivity.
Qed.

Lemma OnStreamRead_summary (w : Session) (id : Z) (this : ptr)
    (s : Nghttp2Stream) (buf_length : nat) (flags : Z) :
  streams_ w !! id = Some this ->
  heap w !! this = Some s ->
  cursor_ok s ->
  Forall has_cb (queue_ s) ->
  exists q' i o evs extra r flags' w',
    let s' := set_queue_ (set_cursor s i o) q' in
    OnStreamRead id buf_length flags w = Done ((r, flags'), w') /\
    trace w' = trace w ++ evs ++ extra /\
    completions extra = [] /\ copied extra = [] /\
    heap w' = <[this := s']> (heap w) /\
    streams_ w' = streams_ w /\
    (r = NGHTTP2_ERR_DEFERRED /\ copied evs = [] \/
     r = Z.of_nat (length (copied evs))) /\
    fifo_run evs (queue_ s) (consumed_of s) (q', consumed_of s') /\
    cursor_ok s' /\ Forall has_cb q' /\
    (length (copied evs) <= buf_length)%nat /\
    (q' <> [] -> length (copied evs) = buf_length) /\
    head_unfinished s'.
Proof.
  intros Hid Hs Hc Hcb.
  destruct (OnStreamRead_run w id this s buf_length flags Hid Hs Hc Hcb)
    as (q' & i & o & evs & Hq & Hfifo & Hc' & Hcb' & Hle & Hne & Hrun).
  cbn zeta in *. exists q', i, o, evs.
  pose proof (OnStreamRead_queue_head _ _ _ _ _ _ _ _ eq_refl Hq) as Hhd.
  destruct (bool_decide (q' = [])).
  2:{ exists []. eexists _, _, _. split; [exact Hrun|]. simpl.
      rewrite app_nil_r. repeat split; auto. }
  destruct (IsWritable s).
  - destruct (length (copied evs) =? 0)%nat eqn:E.
    + exists []. eexists _, _, _. split; [exact Hrun|]. simpl.
      rewrite app_nil_r. repeat split; auto.
      left. split; [done|]. apply Nat.eqb_eq in E.
      by destruct (copied evs).
    + exists []. eexists _, _, _. split; [exact Hrun|]. simpl.
      rewrite app_nil_r. repeat split; auto.
  - match type of Hrun with
    | context [trailers_of ?a this] =>
        destruct (0 <? length (trailers_of a this))%nat
    end.
    + eexists [_; _]. eexists _, _, _. split; [exact Hrun|]. simpl.
      rewrite <- !app_assoc. repeat split; auto.
    + eexists [_]. eexists _, _, _. split; [exact Hrun|]. simpl.
      rewrite <- !app_assoc. repeat split; auto.
Qed.

(** X2. A pull on a registered stream whose queued requests have callbacks
    returns, and stores at most [buf_length] bytes in the engine's buffer;
    its result is either the deferred status, with no byte stored, or the
    number of bytes stored. *)
Theorem OnStreamRead_within_buffer (w : Session) (id : Z) (this : ptr)
    (s : Nghttp2Stream) (buf_length : nat) (flags : Z) :
  streams_ w !! id = Some this ->
  heap w !! this = Some s ->
  cursor_ok s ->
  Forall has_cb (queue_ s) ->
  exists r flags' w' evs,
    OnStreamRead id buf_length flags w = Done ((r, flags'), w') /\
    trace w' = trace w ++ evs /\
    (length (copied evs) <= buf_length)%nat /\
    (r = NGHTTP2_ERR_DEFERRED /\ copied evs = [] \/
     r = Z.of_nat (length (copied evs))).
Proof.
  intros Hid Hs Hc Hcb.
  destruct (OnStreamRead_summary w id this s buf_length flags Hid Hs Hc Hcb)
    as (q' & i & o & evs & extra & r & flags' & w'
        & Hrun & Htr & _ & Hex & _ & _ & Hr & _ & _ & _ & Hle & _).
  exists r, flags', w', (evs ++ extra).
  rewrite copied_app, Hex, app_nil_r. done.
Qed.

Lemma head_consumed_prefix (head : nghttp2_stream_write_queue) (i o : nat) :
  head_consumed head i o `prefix_of` concat (bufs head).
Proof.
  unfold head_consumed.
  rewrite <- (take_drop i (bufs head)) at 3. rewrite concat_app.
  apply prefix_app.
  destruct (drop i (bufs head)) as [|b rest] eqn:Hd.
  - rewrite nth_overflow; [rewrite take_nil; by exists []|].
    apply (f_equal length) in Hd. rewrite length_drop in Hd.
    simpl in Hd. simpl. lia.
  - assert (bufs head !! i = Some b) as Hb.
    { by rewrite <- (Nat.add_0_r i), <- lookup_drop, Hd. }
    rewrite (nth_lookup_Some _ _ _ _ Hb).
    simpl. exists (drop o b ++ concat rest).
    by rewrite app_assoc, take_drop.
Qed.

Lemma consumed_of_prefix (s : Nghttp2Stream) :
  consumed_of s `prefix_of` all_bytes (queue_ s).
Proof.
  unfold consumed_of, all_bytes. destruct (queue_ s) as [|head next].
  - by exists [].
  - simpl. etransitivity; [apply head_consumed_prefix|].
    by apply prefix_app_r.
Qed.

(** A trace that replays against [todo] has copied exactly the bytes of
    the requests it completed and the part of the next one that the final
    accumulator holds. *)
Lemma fifo_run_copied (tr : list event) :
  forall todo acc todo' acc',
    fifo_run tr todo acc (todo', acc') ->
    exists k,
      todo' = drop k todo /\
      acc ++ copied tr = all_bytes (take k todo) ++ acc'.
Proof.
  induction tr as [|e tr IH]; intros todo acc todo' acc' H.
  - simpl in H. injection H as <- <-. exists 0%nat.
    simpl. by rewrite app_nil_r.
  - destruct e; simpl in H; try (simpl; eauto; fail).
    + destruct todo as [|item todo1]; [contradiction|].
      destruct H as (_ & _ & _ & -> & H).
      destruct (IH _ _ _ _ H) as (k & Hd & Hc).
      exists (S k). simpl. split; [done|].
      simpl in Hc. unfold all_bytes in *. simpl.
      by rewrite Hc, app_assoc.
    + destruct (IH _ _ _ _ H) as (k & Hd & Hc).
      exists k. split; [done|]. simpl. by rewrite app_assoc.
Qed.

Lemma all_bytes_app (l1 l2 : list nghttp2_stream_write_queue) :
  all_bytes (l1 ++ l2) = all_bytes l1 ++ all_bytes l2.
Proof. unfold all_bytes. by rewrite map_app, concat_app. Qed.

(** X3. On a writable stream that starts with an empty write queue, for
    any sequence of writes with callbacks and pulls: the bytes the pulls
    store in the engine's buffers, taken in order, are a prefix of the
    bytes of the writes' buffers taken in submission order.  No byte is
    pulled twice, skipped or reordered. *)
Theorem pulls_copy_written_bytes_in_order (w : Session) (id : Z)
    (this : ptr) (s : Nghttp2Stream) (ops : list stream_op) :
  streams_ w !! id = Some this ->
  heap w !! this = Some s ->
  queue_ s = [] ->
  queue_head_index_ s = 0%nat ->
  queue_head_offset_ s = 0%nat ->
  IsWritable s = true ->
  session_ s = true ->
  Forall op_has_cb ops ->
  exists w' evs,
    run_ops this id ops w = Done (tt, w') /\
    trace w' = trace w ++ evs /\
    copied evs `prefix_of` all_bytes (writes_of ops).
Proof.
  intros Hid Hs Hq Hi Ho Hw Hsess Hops.
  destruct (run_ops_fifo this id ops w s)
    as (w' & s' & evs & Hrun & Htr & _ & Hfifo); try done.
  { unfold cursor_ok. by rewrite Hq. }
  { rewrite Hq. constructor. }
  rewrite Hq, consumed_of_origin in Hfifo by done. simpl in Hfifo.
  destruct (fifo_run_copied _ _ _ _ _ Hfifo) as (k & Hk & Hc).
  exists w', evs. split; [done|]. split; [done|].
  simpl in Hc. rewrite Hc.
  rewrite <- (take_drop k (writes_of ops)) at 2.
  rewrite all_bytes_app. apply prefix_app.
  rewrite <- Hk. apply consumed_of_prefix.
Qed.

Lemma drop_nil_take {A} (k : nat) (l : list A) : drop k l = [] -> take k l = l.
Proof.
  intros H. apply take_ge. apply (f_equal length) in H.
  rewrite length_drop in H. simpl in H. lia.
Qed.

(** X4. When the engine's buffer is larger than the bytes still queued on
    the stream, one pull empties the write queue: it stores all the bytes
    not yet pulled, and calls the callback of every queued request, in
    queue order, with status 0. *)
Theorem OnStreamRead_drains_queue (w : Session) (id : Z) (this : ptr)
    (s : Nghttp2Stream) (buf_length : nat) (flags : Z) :
  streams_ w !! id = Some this ->
  heap w !! this = Some s ->
  cursor_ok s ->
  Forall has_cb (queue_ s) ->
  (pending_bytes s < buf_length)%nat ->
  exists r flags' w' s' evs,
    OnStreamRead id buf_length flags w = Done ((r, flags'), w') /\
    heap w' !! this = Some s' /\
    queue_ s' = [] /\
    trace w' = trace w ++ evs /\
    completions evs = map (fun item => (req item, 0)) (queue_ s) /\
    consumed_of s ++ copied evs = all_bytes (queue_ s).
Proof.
  intros Hid Hs Hc Hcb Hpend.
  destruct (OnStreamRead_summary w id this s buf_length flags Hid Hs Hc Hcb)
    as (q' & i & o & evs & extra & r & flags' & w'
        & Hrun & Htr & Hexc & Hex & Hheap & _ & _ & Hfifo & _ & _ & _ & Hne
        & _).
  cbn zeta in *.
  set (s' := set_queue_ (set_cursor s i o) q') in *.
  destruct (fifo_run_copied _ _ _ _ _ Hfifo) as (k & Hk & Hcopied).
  destruct (fifo_run_completions _ _ _ _ _ Hfifo) as (k' & Hcompl & Hk').
  assert (Hq' : q' = []).
  { destruct (decide (q' = [])) as [|Hq']; [done|]. exfalso.
    specialize (Hne Hq').
    destruct (consumed_of_prefix s') as [tl Htl]. simpl in Htl.
    assert (all_bytes (queue_ s)
            = (consumed_of s ++ copied evs) ++ tl) as Hall.
    { rewrite <- (take_drop k (queue_ s)), all_bytes_app, <- Hk, Htl.
      by rewrite Hcopied, <- app_assoc. }
    unfold pending_bytes in Hpend. rewrite Hall, !length_app in Hpend.
    lia. }
  exists r, flags', w', s', (evs ++ extra).
  split; [exact Hrun|]. split; [rewrite Hheap; apply lookup_insert_eq|].
  split; [exact Hq'|]. split; [exact Htr|].
  rewrite completions_app, copied_app, Hexc, Hex, !app_nil_r.
  split.
  - rewrite Hcompl, drop_nil_take; [done|]. by rewrite <- Hk', Hq'.
  - rewrite Hcopied, drop_nil_take by (by rewrite <- Hk, Hq').
    unfold s', consumed_of. simpl. rewrite Hq'. by rewrite app_nil_r.
Qed.

(** ** Writes and pulls, interleaved *)

(** A trace that replays against [todo] completes the first [k] requests
    of [todo], leaves the others, and has copied the bytes of the
    completed ones and what the final accumulator holds. *)
Lemma fifo_run_progress (tr : list event) :
  forall todo acc todo' acc',
    fifo_run tr todo acc (todo', acc') ->
    exists k,
      completions tr = map (fun item => (req item, 0)) (take k todo) /\
      todo' = drop k todo /\
      acc ++ copied tr = all_bytes (take k todo) ++ acc'.
Proof.
  induction tr as [|e tr IH]; intros todo acc todo' acc' H.
  - simpl in H. injection H as <- <-. exists 0%nat.
    simpl. by rewrite app_nil_r.
  - destruct e; simpl in H; try (simpl; eauto; fail).
    + destruct todo as [|item todo1]; [contradiction|].
      destruct H as (_ & <- & -> & -> & H).
      destruct (IH _ _ _ _ H) as (k & Hcomp & Hd & Hc).
      exists (S k). simpl. rewrite Hcomp. split; [done|]. split; [done|].
      simpl in Hc. unfold all_bytes in *. simpl.
      by rewrite Hc, app_assoc.
    + destruct (IH _ _ _ _ H) as (k & Hcomp & Hd & Hc).
      exists k. split; [done|]. split; [done|].
      simpl. by rewrite app_assoc.
Qed.

Lemma pending_bytes_enqueue (s : Nghttp2Stream)
    (item : nghttp2_stream_write_queue) :
  cursor_ok s ->
  pending_bytes (set_queue_ s (queue_ s ++ [item]))
  = (pending_bytes s + length (concat (bufs item)))%nat.
Proof.
  intros Hc. unfold pending_bytes.
  rewrite consumed_of_enqueue by done. simpl.
  rewrite all_bytes_app, length_app.
  assert (all_bytes [item] = concat (bufs item)) as ->.
  { unfold all_bytes. simpl. apply app_nil_r. }
  destruct (consumed_of_prefix s) as [tl Htl]. rewrite Htl, length_app.
  lia.
Qed.

(** What one pull takes. *)
Lemma pending_bytes_pull (s s' : Nghttp2Stream) (evs : list event)
    (buf_length : nat) :
  fifo_run evs (queue_ s) (consumed_of s) (queue_ s', consumed_of s') ->
  (length (copied evs) <= buf_length)%nat ->
  (queue_ s' <> [] -> length (copied evs) = buf_length) ->
  length (copied evs) = Nat.min buf_length (pending_bytes s) /\
  pending_bytes s' = (pending_bytes s - buf_length)%nat.
Proof.
  intros Hfifo Hle Hne.
  destruct (fifo_run_progress _ _ _ _ _ Hfifo) as (k & _ & Hk & Hc).
  destruct (consumed_of_prefix s') as [tl Htl].
  assert (Hall : all_bytes (queue_ s)
                 = (consumed_of s ++ copied evs) ++ tl).
  { rewrite <- (take_drop k (queue_ s)), all_bytes_app, <- Hk, Htl.
    by rewrite Hc, <- app_assoc. }
  unfold pending_bytes. rewrite Hall, Htl, !length_app.
  destruct (decide (queue_ s' = [])) as [Hq|Hq].
  - assert (tl = []) as ->.
    { rewrite Hq in Htl. unfold all_bytes in Htl. simpl in Htl.
      symmetry in Htl. by apply app_eq_nil in Htl as [_ ?]. }
    simpl. lia.
  - specialize (Hne Hq). lia.
Qed.

(** The bytes that writes and pulls on one writable stream copy. *)
Lemma run_ops_pulled (this : ptr) (id : Z) (ops : list stream_op) :
  forall (w : Session) (s : Nghttp2Stream),
    streams_ w !! id = Some this ->
    heap w !! this = Some s ->
    cursor_ok s ->
    Forall has_cb (queue_ s) ->
    IsWritable s = true ->
    session_ s = true ->
    Forall op_has_cb ops ->
    exists w' evs,
      run_ops this id ops w = Done (tt, w') /\
      trace w' = trace w ++ evs /\
      length (copied evs) = pulled_bytes ops (pending_bytes s).
Proof.
  induction ops as [|op rest IH]; intros w s Hid Hs Hc Hcb Hw Hsess Hops.
  - exists w, []. simpl. by rewrite app_nil_r.
  - apply Forall_cons_1 in Hops as [Hop Hops].
    destruct op as [req0 bufs0 cb0 | buf_length flags].
    + set (item := {| cb := cb0; req := req0; bufs := bufs0 |}).
      set (s1 := set_queue_ s (queue_ s ++ [item])).
      destruct (IH (set_trace (set_heap w (<[this := s1]> (heap w)))
                      (trace w ++ [EvResumeData (id_ s)])) s1)
        as (w' & evs & Hrun & Htr & Hlen);
        try done.
      { simpl. apply lookup_insert_eq. }
      { by apply cursor_ok_enqueue. }
      { simpl. apply Forall_app. split; [done|]. by apply Forall_singleton. }
      exists w', (EvResumeData (id_ s) :: evs).
      cbn [run_ops run_op]. munfold.
      rewrite (Write_writable w this s req0 bufs0 cb0 Hs Hw Hsess).
      fold item s1. rewrite Hrun.
      split; [done|]. split; [simpl in Htr; by rewrite Htr, <- app_assoc|].
      cbn [copied pulled_bytes]. rewrite Hlen. unfold s1.
      by rewrite pending_bytes_enqueue.
    + destruct (OnStreamRead_summary w id this s buf_length flags
                  Hid Hs Hc Hcb)
        as (q' & i & o & evs1 & extra & r & flags' & w1 & Hread & Htr1
            & _ & Hex & Hh1 & Hst1 & _ & Hfifo1 & Hc1 & Hcb1 & Hle & Hne
            & _).
      cbn zeta in *.
      set (s1 := set_queue_ (set_cursor s i o) q') in *.
      destruct (pending_bytes_pull s s1 evs1 buf_length Hfifo1 Hle Hne)
        as [Hcopied Hpend].
      destruct (IH w1 s1) as (w' & evs & Hrun & Htr & Hlen); try done.
      { by rewrite Hst1. }
      { rewrite Hh1. apply lookup_insert_eq. }
      exists w', (evs1 ++ extra ++ evs).
      cbn [run_ops run_op]. munfold. rewrite Hread, Hrun.
      split; [done|].
      split; [by rewrite Htr, Htr1, <- !app_assoc|].
      rewrite !copied_app, Hex, !length_app. simpl.
      rewrite Hcopied, Hlen, Hpend. reflexivity.
Qed.

(** When the last of the writes and pulls is a pull, no request whose
    buffers were all passed is left in the queue. *)
Lemma run_ops_last_pull (this : ptr) (id : Z) (ops : list stream_op) :
  forall (w : Session) (s : Nghttp2Stream),
    streams_ w !! id = Some this ->
    heap w !! this = Some s ->
    cursor_ok s ->
    Forall has_cb (queue_ s) ->
    IsWritable s = true ->
    session_ s = true ->
    Forall op_has_cb ops ->
    exists w' s',
      run_ops this id ops w = Done (tt, w') /\
      heap w' !! this = Some s' /\
      (forall ops0 buf_length flags,
         ops = ops0 ++ [OpRead buf_length flags] -> head_unfinished s').
Proof.
  induction ops as [|op rest IH]; intros w s Hid Hs Hc Hcb Hw Hsess Hops.
  - exists w, s. split; [done|]. split; [done|].
    intros ops0 n f H. by destruct ops0.
  - apply Forall_cons_1 in Hops as [Hop Hops].
    destruct op as [req0 bufs0 cb0 | buf_length flags].
    + set (item := {| cb := cb0; req := req0; bufs := bufs0 |}).
      set (s1 := set_queue_ s (queue_ s ++ [item])).
      destruct (IH (set_trace (set_heap w (<[this := s1]> (heap w)))
                      (trace w ++ [EvResumeData (id_ s)])) s1)
        as (w' & s' & Hrun & Hs' & Hhd);
        try done.
      { simpl. apply lookup_insert_eq. }
      { by apply cursor_ok_enqueue. }
      { simpl. apply Forall_app. split; [done|]. by apply Forall_singleton. }
      exists w', s'.
      cbn [run_ops run_op]. munfold.
      rewrite (Write_writable w this s req0 bufs0 cb0 Hs Hw Hsess).
      fold item s1. rewrite Hrun.
      split; [done|]. split; [done|].
      intros ops0 n f Heq. destruct ops0 as [|op0 ops0]; simpl in Heq.
      * injection Heq as Heq _. discriminate Heq.
      * injection Heq as _ ->. by eapply Hhd.
    + destruct (OnStreamRead_summary w id this s buf_length flags
                  Hid Hs Hc Hcb)
        as (q' & i & o & evs1 & extra & r & flags' & w1 & Hread & Htr1
            & _ & Hex & Hh1 & Hst1 & _ & Hfifo1 & Hc1 & Hcb1 & Hle & Hne
            & Hhd1).
      cbn zeta in *.
      set (s1 := set_queue_ (set_cursor s i o) q') in *.
      destruct (IH w1 s1) as (w' & s' & Hrun & Hs' & Hhd); try done.
      { by rewrite Hst1. }
      { rewrite Hh1. apply lookup_insert_eq. }
      exists w', s'.
      cbn [run_ops run_op]. munfold. rewrite Hread, Hrun.
      split; [done|]. split; [done|].
      intros ops0 n f Heq. destruct ops0 as [|op0 ops0]; simpl in Heq.
      * injection Heq as _ _ ->. simpl in Hrun. injection Hrun as <-.
        rewrite Hh1, lookup_insert_eq in Hs'. by injection Hs' as <-.
      * injection Heq as _ ->. by eapply Hhd.
Qed.

(** X17. Take a writable stream with an empty write queue, and any
    sequence of writes, each with a completion callback, and pulls.  All
    of them return.  The completion callbacks made are those of the first
    [k] writes, for some [k], in submission order and with status 0; the
    other writes are the stream's queue, in submission order.  The bytes
    copied out are the bytes of the completed writes followed by the part
    of the next write that the cursor has passed, and there are as many
    of them as the pulls could take: each pull takes what is queued, up
    to the length of its buffer.  Each callback is made at a point of the
    trace where the bytes copied out since the previous completion are
    exactly the bytes of all buffers of its request; and when the last
    call is a pull, no request is left in the queue once the cursor has
    passed all of its buffers. *)
Theorem write_completions_fifo (w : Session) (id : Z) (this : ptr)
    (s : Nghttp2Stream) (ops : list stream_op) :
  streams_ w !! id = Some this ->
  heap w !! this = Some s ->
  queue_ s = [] ->
  queue_head_index_ s = 0%nat ->
  queue_head_offset_ s = 0%nat ->
  IsWritable s = true ->
  session_ s = true ->
  Forall op_has_cb ops ->
  exists w' s' evs k,
    run_ops this id ops w = Done (tt, w') /\
    trace w' = trace w ++ evs /\
    heap w' !! this = Some s' /\
    completions evs
      = map (fun item => (req item, 0)) (take k (writes_of ops)) /\
    queue_ s' = drop k (writes_of ops) /\
    copied evs = all_bytes (take k (writes_of ops)) ++ consumed_of s' /\
    length (copied evs) = pulled_bytes ops 0 /\
    fifo_ok evs (writes_of ops) /\
    (forall ops0 buf_length flags,
       ops = ops0 ++ [OpRead buf_length flags] -> head_unfinished s').
Proof.
  intros Hid Hs Hq Hi Ho Hw Hsess Hops.
  assert (Hc : cursor_ok s) by (unfold cursor_ok; by rewrite Hq).
  assert (Hcb : Forall has_cb (queue_ s)) by (rewrite Hq; constructor).
  destruct (run_ops_fifo this id ops w s Hid Hs Hc Hcb Hw Hsess Hops)
    as (w' & s' & evs & Hrun & Htr & Hs' & Hfifo).
  destruct (run_ops_pulled this id ops w s Hid Hs Hc Hcb Hw Hsess Hops)
    as (w'' & evs' & Hrun' & Htr' & Hlen).
  rewrite Hrun in Hrun'. injection Hrun' as <-.
  rewrite Htr in Htr'. apply app_inv_head in Htr' as <-.
  destruct (run_ops_last_pull this id ops w s Hid Hs Hc Hcb Hw Hsess Hops)
    as (w'' & s'' & Hrun' & Hs'' & Hhd).
  rewrite Hrun in Hrun'. injection Hrun' as <-.
  rewrite Hs' in Hs''. injection Hs'' as <-.
  rewrite Hq, consumed_of_origin in Hfifo by done. simpl in Hfifo.
  destruct (fifo_run_progress _ _ _ _ _ Hfifo) as (k & Hcomp & Hk & Hcop).
  exists w', s', evs, k.
  split; [done|]. split; [done|]. split; [done|]. split; [done|].
  split; [done|]. split; [done|].
  split; [rewrite Hlen; unfold pending_bytes; by rewrite Hq|].
  split; [by eexists|]. exact Hhd.
Qed.

(** ** Starting and stopping reads *)

Lemma testbit_READ_START (n : Z) :
  0 <= n -> Z.testbit NGHTTP2_STREAM_READ_START n = (1 =? n).
Proof. intros Hn. by apply (Z.pow2_bits_eqb 1). Qed.

Lemma testbit_READ_PAUSED (n : Z) :
  0 <= n -> Z.testbit NGHTTP2_STREAM_READ_PAUSED n = (2 =? n).
Proof. intros Hn. by apply (Z.pow2_bits_eqb 2). Qed.

Lemma testbit_started (flags n : Z) :
  0 <= n ->
  Z.testbit (started flags) n
  = (Z.testbit flags n || (1 =? n)) && negb (2 =? n).
Proof.
  intros Hn. unfold started.
  by rewrite Z.land_spec, Z.lor_spec, Z.lnot_spec,
    testbit_READ_START, testbit_READ_PAUSED.
Qed.

Lemma started_reading (s : Nghttp2Stream) (flags : Z) :
  flags_ s = started flags -> IsReading s = true /\ IsPaused s = false.
Proof.
  intros E.
  assert (H1 : Z.land (started flags) NGHTTP2_STREAM_READ_START
               = NGHTTP2_STREAM_READ_START).
  { apply Z.bits_inj'. intros n Hn.
    rewrite Z.land_spec, testbit_started, testbit_READ_START by done.
    destruct (Z.eqb_spec 1 n), (Z.eqb_spec 2 n); subst;
      rewrite ?andb_false_r, ?orb_true_r; done. }
  assert (H2 : Z.land (started flags) NGHTTP2_STREAM_READ_PAUSED = 0).
  { apply Z.bits_inj'. intros n Hn.
    rewrite Z.land_spec, testbit_started, testbit_READ_PAUSED,
      Z.bits_0 by done.
    destruct (Z.eqb_spec 2 n); by rewrite ?andb_false_r. }
  unfold IsReading, IsPaused, has_flag. by rewrite E, H1, H2.
Qed.

Lemma started_idempotent (flags : Z) : started (started flags) = started flags.
Proof.
  apply Z.bits_inj'. intros n Hn. rewrite !testbit_started by done.
  destruct (Z.testbit flags n), (Z.eqb_spec 1 n), (Z.eqb_spec 2 n); done.
Qed.

(** Pausing and restarting a reading stream gives back its flags. *)
Lemma started_paused (s : Nghttp2Stream) :
  IsReading s = true ->
  started (Z.lor (flags_ s) NGHTTP2_STREAM_READ_PAUSED) = flags_ s.
Proof.
  unfold IsReading, has_flag. intros H.
  apply andb_prop in H as [H1 H2].
  apply Z.eqb_eq in H1, H2.
  apply Z.bits_inj'. intros n Hn.
  apply (f_equal (fun x => Z.testbit x n)) in H1, H2.
  rewrite Z.land_spec, !testbit_READ_START in H1 by done.
  rewrite Z.land_spec, testbit_READ_PAUSED, Z.bits_0 in H2 by done.
  rewrite testbit_started, Z.lor_spec, testbit_READ_PAUSED by done.
  revert H1 H2.
  destruct (Z.testbit (flags_ s) n), (Z.eqb_spec 1 n), (Z.eqb_spec 2 n);
    simpl; try congruence; lia.
Qed.

(** X5. [ReadStart] on any live stream (with a session, if it is paused)
    leaves it reading and not paused.  It sets the engine's window, to the
    saved value, only if the stream was paused; and a second [ReadStart]
    right after it changes nothing. *)
Theorem ReadStart_starts_reading (w : Session) (this : ptr)
    (s : Nghttp2Stream) :
  heap w !! this = Some s ->
  (IsPaused s = true -> session_ s = true) ->
  exists w1 s1,
    ReadStart this w = Done (tt, w1) /\
    heap w1 !! this = Some s1 /\
    IsReading s1 = true /\ IsPaused s1 = false /\
    (IsPaused s = false -> local_window_size w1 = local_window_size w) /\
    (IsPaused s = true ->
       local_window_size w1 (id_ s) = prev_local_window_size_ s) /\
    ReadStart this w1 = Done (tt, w1).
Proof.
  intros Hs Hsess.
  assert (Hagain : forall w0 : Session,
    ReadStart this
      (set_heap w0 (<[this := set_flags_ s (started (flags_ s))]> (heap w0)))
    = Done (tt, set_heap w0
                  (<[this := set_flags_ s (started (flags_ s))]> (heap w0)))).
  { intros w0. unfold ReadStart. munfold. simpl. rewrite lookup_insert_eq.
    destruct (started_reading (set_flags_ s (started (flags_ s)))
                (flags_ s) eq_refl) as [_ ->].
    simpl. fold (started (started (flags_ s))).
    by rewrite started_idempotent, insert_insert_eq. }
  unfold ReadStart at 1. unfold nghttp2_session_set_local_window_size.
  munfold. rewrite Hs.
  fold (started (flags_ s)).
  destruct (started_reading (set_flags_ s (started (flags_ s)))
              (flags_ s) eq_refl) as [Hr Hp].
  destruct (IsPaused s) eqn:Hpaused.
  - rewrite (Hsess eq_refl). simpl.
    eexists _, _. split; [reflexivity|]. simpl.
    split; [apply lookup_insert_eq|]. split; [exact Hr|].
    split; [exact Hp|]. split; [done|].
    split; [intros _; by rewrite decide_True|].
    apply (Hagain (set_local_window_size w _)).
  - simpl. eexists _, _. split; [reflexivity|]. simpl.
    split; [apply lookup_insert_eq|]. split; [exact Hr|].
    split; [exact Hp|]. split; [done|]. split; [done|].
    apply (Hagain w).
Qed.

(** X6. Pausing a reading stream and restarting it gives the stream its
    flags back and every stream its window, provided the engine reported a
    window that is not negative; the only trace of the pause is the saved
    window.  While paused, the stream's window is 0.  (With a negative
    window nothing is saved, and the restart sets the window to the value
    saved before.) *)
Theorem ReadStop_ReadStart_round_trip (w : Session) (this : ptr)
    (s : Nghttp2Stream) :
  heap w !! this = Some s ->
  IsReading s = true ->
  session_ s = true ->
  exists w1 w2,
    ReadStop this w = Done (tt, w1) /\
    local_window_size w1 (id_ s) = 0 /\
    ReadStart this w1 = Done (tt, w2) /\
    let r := local_window_size w (id_ s) in
    let saved := if 0 <=? r then r else prev_local_window_size_ s in
    heap w2 = <[this := set_prev_local_window_size_ s saved]> (heap w) /\
    local_window_size w2 (id_ s) = saved /\
    (forall i, i <> id_ s -> local_window_size w2 i = local_window_size w i) /\
    streams_ w2 = streams_ w /\ trace w2 = trace w.
Proof.
  intros Hs Hr Hsess.
  unfold ReadStop, ReadStart.
  unfold nghttp2_session_get_stream_local_window_size,
    nghttp2_session_set_local_window_size.
  munfold. rewrite Hs, Hr. simpl. rewrite Hsess. simpl.
  assert (Hpaused : forall s', flags_ s'
            = Z.lor (flags_ s) NGHTTP2_STREAM_READ_PAUSED ->
            IsPaused s' = true).
  { intros s' E. unfold IsPaused. rewrite E. apply has_flag_lor. }
  assert (Heta : forall v,
    set_flags_
      (set_prev_local_window_size_
         (set_flags_ s (Z.lor (flags_ s) NGHTTP2_STREAM_READ_PAUSED)) v)
      (flags_ s) = set_prev_local_window_size_ s v).
  { intros v. destruct s; reflexivity. }
  destruct (0 <=? local_window_size w (id_ s)) eqn:Hw0; simpl.
  - eexists _, _. split; [reflexivity|]. simpl.
    split; [by rewrite decide_True|].
    rewrite lookup_insert_eq. rewrite Hpaused by reflexivity. simpl.
    rewrite Hsess. simpl. split; [reflexivity|]. simpl.
    fold (started (Z.lor (flags_ s) NGHTTP2_STREAM_READ_PAUSED)).
    rewrite (started_paused s Hr), Heta, !insert_insert_eq.
    split; [done|]. split; [by rewrite decide_True|].
    split; [intros i Hi; by rewrite !decide_False|]. done.
  - eexists _, _. split; [reflexivity|]. simpl.
    split; [by rewrite decide_True|].
    rewrite lookup_insert_eq. rewrite Hpaused by reflexivity. simpl.
    rewrite Hsess. simpl. split; [reflexivity|]. simpl.
    fold (started (Z.lor (flags_ s) NGHTTP2_STREAM_READ_PAUSED)).
    rewrite (started_paused s Hr), !insert_insert_eq.
    assert (set_flags_
              (set_flags_ s (Z.lor (flags_ s) NGHTTP2_STREAM_READ_PAUSED))
              (flags_ s)
            = set_prev_local_window_size_ s (prev_local_window_size_ s))
      as -> by (destruct s; reflexivity).
    split; [done|]. split; [by rewrite decide_True|].
    split; [intros i Hi; by rewrite !decide_False|]. done.
Qed.

(** ** Creating, finding and destroying streams *)

(** [Init] returns a registered stream with every field reset. *)
Lemma Init_state (w : Session) (id : Z)
    (category : nghttp2_headers_category) :
  exists stream w',
    Nghttp2Stream_Init id category w = Done (stream, w') /\
    streams_ w' !! id = Some stream /\
    heap w' !! stream = Some (ResetState id category) /\
    trace w' = trace w.
Proof.
  unfold Nghttp2Stream_Init, stream_free_list_pop, AddStream. munfold.
  destruct (stream_free_list w) as [|p rest];
    (eexists _, _; split; [reflexivity|]; simpl;
     split; [apply lookup_insert_eq|];
     split; [apply lookup_insert_eq | done]).
Qed.

(** X7. [Init] always returns.  The stream it returns is registered under
    the id and has every field reset; no other id's registration and no
    other object changes; nothing is traced.  With an empty pool the object
    is a new one, so no live stream is overwritten; otherwise it is the
    object at the head of the pool, which leaves the pool. *)
Theorem Init_registers_fresh_state (w : Session) (id : Z)
    (category : nghttp2_headers_category) :
  exists stream w',
    Nghttp2Stream_Init id category w = Done (stream, w') /\
    FindStream id w' = Done (Some stream, w') /\
    heap w' !! stream = Some (ResetState id category) /\
    (forall id', id' <> id -> streams_ w' !! id' = streams_ w !! id') /\
    (forall p, p <> stream -> heap w' !! p = heap w !! p) /\
    trace w' = trace w /\
    match stream_free_list w with
    | [] => heap w !! stream = None /\ stream_free_list w' = []
    | p :: rest => stream = p /\ stream_free_list w' = rest
    end.
Proof.
  unfold Nghttp2Stream_Init, stream_free_list_pop, AddStream. munfold.
  destruct (stream_free_list w) as [|p rest] eqn:Hpool.
  - eexists _, _. split; [reflexivity|]. simpl.
    split; [by rewrite lookup_insert_eq|].
    split; [apply lookup_insert_eq|].
    split; [intros id' Hid'; by apply lookup_insert_ne|].
    split; [intros p Hp; by apply lookup_insert_ne|].
    split; [done|]. split; [|done].
    apply not_elem_of_dom, is_fresh.
  - eexists _, _. split; [reflexivity|]. simpl.
    split; [by rewrite lookup_insert_eq|].
    split; [apply lookup_insert_eq|].
    split; [intros id' Hid'; by apply lookup_insert_ne|].
    split; [intros p' Hp; by apply lookup_insert_ne|].
    done.
Qed.

Lemma completions_decref (hs : list (ptr * nghttp2_header_list)) :
  completions (map (fun n => EvRcbufDecref (value n.2)) hs) = [].
Proof. induction hs as [|h hs IH]; simpl; [|rewrite IH]; reflexivity. Qed.

(** X8. The first [Destroy] of a live stream, whose buffered chunks and
    header nodes form two lists without a repeated node, returns.  If the
    stream has a session, whatever is registered under its id is
    unregistered; no other registration changes.  Every buffered chunk
    and header node goes to its pool.  The only calls made are the
    releases of the header values: no consumer callback, and no
    completion callback for the write requests still queued, which are
    left on the object as they are.  The object goes to the stream pool,
    flagged as destroying and without a session, or is deallocated when
    the pool is full. *)
Theorem Destroy_releases_silently (w : Session) (this : ptr)
    (s : Nghttp2Stream) (cnodes : list (ptr * uv_buf_t))
    (hnodes : list (ptr * nghttp2_header_list)) :
  heap w !! this = Some s ->
  IsDestroyed s || IsDestroying s = false ->
  chain (data_chunks w) (data_chunks_head_ s) (map with_buf cnodes) ->
  NoDup (map fst cnodes) ->
  chain (header_nodes w) (current_headers_head_ s) hnodes ->
  NoDup (map fst hnodes) ->
  exists w1,
    Nghttp2Stream_Destroy this w = Done (tt, w1) /\
    streams_ w1
    = (if session_ s then delete (id_ s) (streams_ w) else streams_ w) /\
    trace w1
    = trace w ++ map (fun n => EvRcbufDecref (value n.2)) hnodes /\
    completions (trace w1) = completions (trace w) /\
    data_chunk_free_list w1
    = foldl Freelist_push (data_chunk_free_list w) (map fst cnodes) /\
    header_free_list w1
    = foldl Freelist_push (header_free_list w) (map fst hnodes) /\
    if (length (stream_free_list w) <? FREELIST_MAX)%nat
    then
      stream_free_list w1 = Freelist_put (stream_free_list w) this /\
      exists s1,
        heap w1 !! this = Some s1 /\
        data_chunks_head_ s1 = None /\ data_chunks_tail_ s1 = None /\
        current_headers_head_ s1 = None /\
        current_headers_tail_ s1 = None /\
        session_ s1 = false /\ queue_ s1 = queue_ s /\
        IsDestroying s1 = true
    else
      stream_free_list w1 = stream_free_list w /\ heap w1 !! this = None.
Proof.
  intros Hs Hd Hcc Hcnd Hhc Hhnd.
  rewrite (Destroy_first w this s cnodes hnodes Hs Hd Hcc Hcnd Hhc Hhnd).
  cbn zeta. eexists. split; [reflexivity|].
  destruct (length (stream_free_list w) <? FREELIST_MAX)%nat; simpl.
  - repeat split; try done.
    + by rewrite completions_app, completions_decref, app_nil_r.
    + eexists. split; [apply lookup_insert_eq|]. simpl.
      repeat split. unfold IsDestroying. simpl. apply has_flag_lor.
  - repeat split; try done.
    + by rewrite completions_app, completions_decref, app_nil_r.
    + apply lookup_delete_eq.
Qed.

(** The first [Destroy] when the stream pool is empty. *)
Lemma Destroy_first_empty_pool (w : Session) (this : ptr)
    (s : Nghttp2Stream) (cnodes : list (ptr * uv_buf_t))
    (hnodes : list (ptr * nghttp2_header_list)) :
  heap w !! this = Some s ->
  IsDestroyed s || IsDestroying s = false ->
  stream_free_list w = [] ->
  chain (data_chunks w) (data_chunks_head_ s) (map with_buf cnodes) ->
  NoDup (map fst cnodes) ->
  chain (header_nodes w) (current_headers_head_ s) hnodes ->
  NoDup (map fst hnodes) ->
  exists w1 s1,
    Nghttp2Stream_Destroy this w = Done (tt, w1) /\
    stream_free_list w1 = [this] /\
    heap w1 = <[this := s1]> (heap w) /\
    streams_ w1
    = (if session_ s then delete (id_ s) (streams_ w) else streams_ w).
Proof.
  intros Hs Hd Hpool Hcc Hcnd Hhc Hhnd.
  rewrite (Destroy_first w this s cnodes hnodes Hs Hd Hcc Hcnd Hhc Hhnd).
  cbn zeta. rewrite Hpool.
  change (length (@nil ptr) <? FREELIST_MAX)%nat with true.
  cbv iota. unfold Freelist_put. rewrite take_nil, drop_nil.
  eexists _, _. split; [reflexivity|]. by repeat split.
Qed.

(** X9. When the stream pool is empty, the first [Destroy] of a live
    stream puts the object into it, and the next [Init] takes it out
    again: it returns the same object, registered under the new id with
    every field reset, and the pool is empty as before.  A [Destroy]
    through the pointer kept from the object's former life is then no
    no-op: it unregisters the new id. *)
Theorem Destroy_then_Init_recycles (w : Session) (this : ptr)
    (s : Nghttp2Stream) (id : Z) (category : nghttp2_headers_category)
    (cnodes : list (ptr * uv_buf_t))
    (hnodes : list (ptr * nghttp2_header_list)) :
  heap w !! this = Some s ->
  IsDestroyed s || IsDestroying s = false ->
  stream_free_list w = [] ->
  chain (data_chunks w) (data_chunks_head_ s) (map with_buf cnodes) ->
  NoDup (map fst cnodes) ->
  chain (header_nodes w) (current_headers_head_ s) hnodes ->
  NoDup (map fst hnodes) ->
  exists w1 w2 w3,
    Nghttp2Stream_Destroy this w = Done (tt, w1) /\
    stream_free_list w1 = [this] /\
    Nghttp2Stream_Init id category w1 = Done (this, w2) /\
    heap w2 !! this = Some (ResetState id category) /\
    streams_ w2 !! id = Some this /\
    stream_free_list w2 = [] /\
    Nghttp2Stream_Destroy this w2 = Done (tt, w3) /\
    streams_ w3 !! id = None.
Proof.
  intros Hs Hd Hpool Hcc Hcnd Hhc Hhnd.
  destruct (Destroy_first_empty_pool w this s cnodes hnodes
              Hs Hd Hpool Hcc Hcnd Hhc Hhnd)
    as (w1 & s1 & Hrun1 & Hpool1 & _ & _).
  set (w2 := set_streams_
               (set_heap (set_stream_free_list w1 [])
                  (<[this := ResetState id category]> (heap w1)))
               (<[id := this]> (streams_ w1))).
  assert (Hinit : Nghttp2Stream_Init id category w1 = Done (this, w2)).
  { unfold Nghttp2Stream_Init, stream_free_list_pop, AddStream. munfold.
    by rewrite Hpool1. }
  destruct (Destroy_first_empty_pool w2 this (ResetState id category)
              [] [])
    as (w3 & s3 & Hrun3 & _ & _ & Hreg3);
    [apply lookup_insert_eq|reflexivity|reflexivity|reflexivity
    |constructor|reflexivity|constructor|].
  exists w1, w2, w3. split; [exact Hrun1|]. split; [exact Hpool1|].
  split; [exact Hinit|]. split; [apply lookup_insert_eq|].
  split; [apply lookup_insert_eq|]. split; [reflexivity|].
  split; [exact Hrun3|]. rewrite Hreg3. apply lookup_delete_eq.
Qed.

(** ** A header block from its beginning *)

Lemma dispatch_all_app (cs1 cs2 : list engine_callback) (w : Session) :
  dispatch_all (cs1 ++ cs2) w
  = (dispatch_all cs1 ≫= fun _ => dispatch_all cs2) w.
Proof.
  revert w. induction cs1 as [|c cs1 IH]; intros w; [reflexivity|].
  cbn [app dispatch_all]. munfold.
  destruct (dispatch c w) as [[r w1]| | |]; [|done..].
  rewrite IH. reflexivity.
Qed.

Lemma Init_nodes (w w0 : Session) (id : Z)
    (category : nghttp2_headers_category) (stream : ptr) :
  Nghttp2Stream_Init id category w = Done (stream, w0) ->
  header_nodes w0 = header_nodes w /\
  header_free_list w0 = header_free_list w.
Proof.
  unfold Nghttp2Stream_Init, stream_free_list_pop, AddStream. munfold.
  destruct (stream_free_list w); intros H; injection H as _ <-; done.
Qed.

(** X10. A HEADERS or PUSH_PROMISE block for an id with no registered
    stream, from the begin-headers callback through its header callbacks
    to the completed frame, when the pool hands out nodes without a
    successor: it returns, leaves a stream registered under the id, and
    calls [OnHeaders] exactly once, for that stream, with the pairs in
    receipt order, the category of the frame and the flags of the frame;
    the stream's header list is empty afterwards. *)
Theorem header_block_creates_and_delivers (w : Session)
    (frame : nghttp2_frame) (pairs : list (nghttp2_header_list * Z)) :
  hd_type frame = NGHTTP2_HEADERS \/ hd_type frame = NGHTTP2_PUSH_PROMISE ->
  streams_ w !! headers_frame_id frame = None ->
  unlinked (header_nodes w) (take (length pairs) (header_free_list w)) ->
  exists stream s' w',
    dispatch_all
      (on_begin_headers frame
       :: map (fun p => on_header frame (name p.1) (value p.1) p.2) pairs
       ++ [on_frame_recv frame]) w = Done (tt, w') /\
    streams_ w' !! headers_frame_id frame = Some stream /\
    heap w' !! stream = Some s' /\
    current_headers_head_ s' = None /\
    current_headers_tail_ s' = None /\
    on_headers_calls (trace w')
    = on_headers_calls (trace w)
      ++ [(stream, map fst pairs, headers_cat frame, hd_flags frame)].
Proof.
  intros Hty Hid Hun.
  destruct (Init_state w (headers_frame_id frame) (headers_cat frame))
    as (stream & w0 & Hinit & Hreg & Hheap & Htr).
  destruct (Init_nodes _ _ _ _ _ Hinit) as [Hm Hpool].
  destruct (header_block_run w0 frame stream _ pairs Hty Hreg Hheap
              eq_refl eq_refl)
    as (w1 & w2 & s2 & head & m & nodes & Hrun & Htr1 & Hfr & Htr2 & Hseen
        & _ & Hreg2 & Hs2 & Hh2 & Ht2).
  { by rewrite Hm, Hpool. }
  exists stream, s2, w2.
  cbn [dispatch_all dispatch]. unfold OnBeginHeadersCallback. munfold.
  rewrite Hid, Hinit. rewrite dispatch_all_app. munfold.
  rewrite Hrun. cbn [dispatch_all]. munfold. rewrite Hfr.
  split; [reflexivity|]. split; [by rewrite Hreg2|].
  split; [exact Hs2|]. split; [exact Hh2|]. split; [exact Ht2|].
  rewrite Htr2, Htr1, Htr, !on_headers_calls_app, on_headers_calls_incref.
  simpl. by rewrite on_headers_calls_decref, Hseen, app_nil_r.
Qed.

(** ** References taken and released *)

Lemma refs_held_app (tr1 tr2 : list event) (rc : nghttp2_rcbuf) :
  refs_held (tr1 ++ tr2) rc = refs_held tr1 rc + refs_held tr2 rc.
Proof.
  induction tr1 as [|e tr1 IH]; [reflexivity|].
  destruct e; simpl; rewrite ?IH; lia.
Qed.

Lemma refs_held_incref (hs : list nghttp2_header_list) (rc : nghttp2_rcbuf) :
  refs_held
    (flat_map (fun h => [EvRcbufIncref (name h); EvRcbufIncref (value h)])
       hs) rc
  = occurrences rc (map name hs) + occurrences rc (map value hs).
Proof. induction hs as [|h hs IH]; simpl; [|rewrite IH]; lia. Qed.

Lemma refs_held_decref (hs : list (ptr * nghttp2_header_list))
    (rc : nghttp2_rcbuf) :
  refs_held (map (fun n => EvRcbufDecref (value n.2)) hs) rc
  = - occurrences rc (map value (map snd hs)).
Proof. induction hs as [|h hs IH]; simpl; [|rewrite IH]; lia. Qed.

(** X11. Over a header block on a registered stream with an empty header
    list, when the pool hands out nodes without a successor, the core
    takes one reference to the name and one to the value of every pair it
    captures; when the completed frame drains the list it gives back the
    references to the values and none to the names.  For every engine
    buffer, the references held rise over the whole block by the number
    of times the buffer was a name. *)
Theorem header_block_keeps_name_references (w : Session)
    (frame : nghttp2_frame) (this : ptr) (s : Nghttp2Stream)
    (pairs : list (nghttp2_header_list * Z)) :
  hd_type frame = NGHTTP2_HEADERS \/ hd_type frame = NGHTTP2_PUSH_PROMISE ->
  streams_ w !! headers_frame_id frame = Some this ->
  heap w !! this = Some s ->
  current_headers_head_ s = None ->
  current_headers_tail_ s = None ->
  unlinked (header_nodes w) (take (length pairs) (header_free_list w)) ->
  exists w1 w2,
    dispatch_all
      (map (fun p => on_header frame (name p.1) (value p.1) p.2) pairs) w
      = Done (tt, w1) /\
    dispatch (on_frame_recv frame) w1 = Done (0, w2) /\
    forall rc,
      refs_held (trace w1) rc
      = refs_held (trace w) rc
        + occurrences rc (map name (map fst pairs))
        + occurrences rc (map value (map fst pairs)) /\
      refs_held (trace w2) rc
      = refs_held (trace w) rc
        + occurrences rc (map name (map fst pairs)).
Proof.
  intros Hty Hid Hs Hhead Htail Hun.
  destruct (header_block_run w frame this s pairs Hty Hid Hs Hhead Htail Hun)
    as (w1 & w2 & s2 & head & m & nodes & Hrun & Htr1 & Hfr & Htr2 & _
        & Hnodes & _).
  exists w1, w2. split; [exact Hrun|]. split; [exact Hfr|].
  intros rc. rewrite Htr2, Htr1. split.
  - rewrite refs_held_app, refs_held_incref. lia.
  - rewrite !refs_held_app, refs_held_incref. simpl.
    rewrite refs_held_decref, Hnodes. lia.
Qed.

(** ** Where a completed frame aborts *)

Lemma never_aborts_ret {A} (a : A) : never_aborts (mret a).
Proof. intros w. done. Qed.

Lemma never_aborts_bind {A B} (m : M A) (k : A -> M B) :
  never_aborts m -> (forall a, never_aborts (k a)) ->
  never_aborts (m ≫= k).
Proof.
  intros Hm Hk w. munfold. specialize (Hm w).
  destruct (m w) as [[a w1]| | |]; try done. apply Hk.
Qed.

Lemma never_aborts_modify (f : Session -> Session) :
  never_aborts (modify f).
Proof. intros w. done. Qed.

Lemma never_aborts_load (p : ptr) : never_aborts (load p).
Proof. intros w. munfold. by destruct (heap w !! p). Qed.

Lemma never_aborts_FindStream (id : Z) : never_aborts (FindStream id).
Proof. intros w. done. Qed.

Lemma never_aborts_load_chunk (p : ptr) : never_aborts (load_chunk p).
Proof. intros w. munfold. by destruct (data_chunks w !! p). Qed.

Lemma never_aborts_load_header (p : ptr) : never_aborts (load_header p).
Proof. intros w. munfold. by destruct (header_nodes w !! p). Qed.

Lemma never_aborts_fail_undefined {A} : never_aborts (@fail_undefined A).
Proof. intros w. done. Qed.

Lemma never_aborts_out_of_fuel {A} :
  never_aborts (fun _ => @OutOfFuel (A * Session)).
Proof. intros w. done. Qed.

Ltac never_aborts_step :=
  match goal with
  | |- never_aborts (_ ≫= _) => apply never_aborts_bind; [|intros]
  | |- never_aborts (if ?b then _ else _) => destruct b
  | |- never_aborts (match ?o with Some _ => _ | None => _ end) =>
      destruct o
  | |- never_aborts (mret _) => apply never_aborts_ret
  | |- never_aborts (load _) => apply never_aborts_load
  | |- never_aborts (load_chunk _) => apply never_aborts_load_chunk
  | |- never_aborts (load_header _) => apply never_aborts_load_header
  | |- never_aborts fail_undefined => apply never_aborts_fail_undefined
  | |- never_aborts _ =>
      solve [apply never_aborts_modify | apply never_aborts_out_of_fuel
            | assumption]
  end.

Lemma never_aborts_FreeHeaders_loop (fuel : nat) (this : ptr) :
  never_aborts (FreeHeaders_loop fuel this).
Proof.
  induction fuel as [|fuel IH]; cbn [FreeHeaders_loop];
    unfold store, emit, header_free_list_push; repeat never_aborts_step.
Qed.

Lemma never_aborts_HandleDataFrame_loop (fuel : nat) (this : ptr) :
  never_aborts (HandleDataFrame_loop fuel this).
Proof.
  induction fuel as [|fuel IH]; cbn [HandleDataFrame_loop];
    unfold store, store_chunk, emit, data_chunk_free_list_push;
    repeat never_aborts_step.
Qed.

Lemma never_aborts_get : never_aborts get.
Proof. intros w. done. Qed.

(** X12. [OnFrameReceive] aborts in exactly two situations: a completed
    DATA frame whose stream id has no registered stream, and a completed
    HEADERS or PUSH_PROMISE frame whose (promised) stream id has none.  No
    other frame type, flag or id makes it abort. *)
Theorem OnFrameReceive_aborts_iff (w : Session) (frame : nghttp2_frame) :
  OnFrameReceive frame w = Abort <->
  (hd_type frame = NGHTTP2_DATA /\
   streams_ w !! hd_stream_id frame = None) \/
  ((hd_type frame = NGHTTP2_HEADERS \/ hd_type frame = NGHTTP2_PUSH_PROMISE)
   /\ streams_ w !! headers_frame_id frame = None).
Proof.
  assert (Hdata : forall stream,
    never_aborts
      (w ← get;
       HandleDataFrame_loop (S (size (data_chunks w))) stream;;
       s ← load stream;
       store stream (set_data_chunks_tail_ s None))).
  { intros stream.
    apply never_aborts_bind; [apply never_aborts_get|intros w0].
    apply never_aborts_bind;
      [apply never_aborts_HandleDataFrame_loop|intros _].
    unfold store. repeat never_aborts_step. }
  assert (Hheaders : forall stream,
    never_aborts
      (s ← load stream;
       w ← get;
       emit [EvOnHeaders stream (current_headers_head_ s) (header_nodes w)
               (current_headers_category_ s) (hd_flags frame)];;
       FreeHeaders stream)).
  { intros stream. unfold FreeHeaders, emit, store.
    apply never_aborts_bind; [apply never_aborts_load|intros s0].
    apply never_aborts_bind; [apply never_aborts_get|intros w0].
    apply never_aborts_bind; [apply never_aborts_modify|intros _].
    apply never_aborts_bind; [apply never_aborts_get|intros w1].
    apply never_aborts_bind;
      [apply never_aborts_FreeHeaders_loop|intros _].
    repeat never_aborts_step. }
  assert (Hlift : forall (m : M unit) w0,
    never_aborts m ->
    match m w0 with
    | Done (_, w') => Done (0, w')
    | Abort => Abort
    | Undefined => Undefined
    | OutOfFuel => OutOfFuel
    end <> Abort).
  { intros m w0 Hm. specialize (Hm w0).
    by destruct (m w0) as [[[] ?]| | |]. }
  unfold OnFrameReceive, HandleDataFrame, HandleHeadersFrame,
    HandlePriorityFrame.
  destruct (hd_type frame) eqn:Hty.
  - (* DATA *)
    destruct (streams_ w !! hd_stream_id frame) as [stream|] eqn:E.
    + split; [|intros [[_ ?]|[[?|?] _]]; done].
      intros H. exfalso. apply (Hlift _ w (Hdata stream)).
      revert H. unfold FindStream. munfold. rewrite E. tauto.
    + split; [intros _; by left|].
      intros _; unfold FindStream; munfold; by rewrite E.
  - (* HEADERS *)
    destruct (streams_ w !! headers_frame_id frame) as [stream|] eqn:E.
    + split; [|intros [[? _]|[_ ?]]; done].
      intros H. exfalso. apply (Hlift _ w (Hheaders stream)).
      revert H. unfold FindStream. munfold. rewrite E. tauto.
    + split; [intros _; right; split; [by left|done]|].
      intros _; unfold FindStream; munfold; by rewrite E.
  - munfold. split; [|intros [[? _]|[[?|?] _]]; done].
    by destruct (0 <? hd_stream_id frame).
  - split; [done|intros [[? _]|[[?|?] _]]; done].
  - munfold. split; [|intros [[? _]|[[?|?] _]]; done].
    by destruct (Z.land (hd_flags frame) NGHTTP2_FLAG_ACK =? 0).
  - (* PUSH_PROMISE *)
    destruct (streams_ w !! headers_frame_id frame) as [stream|] eqn:E.
    + split; [|intros [[? _]|[_ ?]]; done].
      intros H. exfalso. apply (Hlift _ w (Hheaders stream)).
      revert H. unfold FindStream. munfold. rewrite E. tauto.
    + split; [intros _; right; split; [by right|done]|].
      intros _; unfold FindStream; munfold; by rewrite E.
  - split; [done|intros [[? _]|[[?|?] _]]; done].
  - split; [done|intros [[? _]|[[?|?] _]]; done].
  - split; [done|intros [[? _]|[[?|?] _]]; done].
  - split; [done|intros [[? _]|[[?|?] _]]; done].
Qed.

(** ** Chunks of several streams, interleaved *)

Lemma chunks_of_stream_app (id : Z) (l1 l2 : list (Z * Z * uv_buf_t)) :
  chunks_of_stream id (l1 ++ l2)
  = chunks_of_stream id l1 ++ chunks_of_stream id l2.
Proof.
  induction l1 as [|[[f i] d] l1 IH]; [reflexivity|]. simpl.
  destruct (decide (i = id)); simpl; by rewrite IH.
Qed.

(** One chunk callback for a stream other than [pA], when the chunk pool
    is empty: the list of [pA] stays as it is. *)
Lemma OnDataChunkReceived_other (flags id : Z) (data : list byte)
    (pA q : ptr) (w : Session) (sA s : Nghttp2Stream)
    (nodes : list (ptr * option uv_buf_t)) :
  streams_ w !! id = Some q ->
  heap w !! q = Some s ->
  q <> pA ->
  heap w !! pA = Some sA ->
  data_chunk_free_list w = [] ->
  linked_list (data_chunks w) (data_chunks_head_ sA) (data_chunks_tail_ sA)
    nodes ->
  tails_live w ->
  (forall p s t, heap w !! p = Some s -> p <> pA ->
                 data_chunks_tail_ s = Some t -> ~ t ∈ map fst nodes) ->
  exists w',
    OnDataChunkReceived flags id data w = Done (0, w') /\
    streams_ w' = streams_ w /\ trace w' = trace w /\
    data_chunk_free_list w' = [] /\
    heap w' !! pA = Some sA /\
    (forall p, p <> q -> heap w' !! p = heap w !! p) /\
    is_Some (heap w' !! q) /\
    linked_list (data_chunks w') (data_chunks_head_ sA)
      (data_chunks_tail_ sA) nodes /\
    tails_live w' /\
    (forall p s t, heap w' !! p = Some s -> p <> pA ->
                   data_chunks_tail_ s = Some t -> ~ t ∈ map fst nodes).
Proof.
  intros Hid Hs Hne HsA Hpool (Hc & Htail & Hnd) Hlive Hdis.
  set (p := fresh (dom (data_chunks w))).
  assert (Hfresh : data_chunks w !! p = None).
  { apply not_elem_of_dom, is_fresh. }
  assert (Hp_nodes : ~ p ∈ map fst nodes).
  { intros Hin. destruct (chain_lookup _ _ _ _ Hc Hin) as [x Hx].
    congruence. }
  set (m2 := <[p := {| fields := Some data; next := None |}]>
               (<[p := {| fields := None; next := None |}]>
                  (data_chunks w))).
  assert (Hm2 : forall r, r <> p -> m2 !! r = data_chunks w !! r).
  { intros r Hr. subst m2. by rewrite !lookup_insert_ne. }
  destruct (data_chunks_tail_ s) as [t|] eqn:Ht.
  - destruct (Hlive q s t Hs Ht) as [y Hy].
    assert (Htp : t <> p) by (intros ->; congruence).
    assert (Htn : ~ t ∈ map fst nodes) by exact (Hdis q s t Hs Hne Ht).
    set (m3 := <[t := set_next y (Some p)]> m2).
    exists (set_heap (set_data_chunks w m3)
              (<[q := set_data_chunks_tail_ s (Some p)]> (heap w))).
    split.
    { unfold OnDataChunkReceived, data_chunk_free_list_pop. munfold.
      rewrite Hid, Hpool. simpl. rewrite lookup_insert_eq. simpl.
      rewrite Hs, Ht. simpl. fold p.
      change (<[p := set_fields {| fields := None; next := None |}
                       (Some data)]>
                (<[p := {| fields := None; next := None |}]>
                   (data_chunks w))) with m2.
      rewrite (Hm2 t Htp), Hy. reflexivity. }
    split; [reflexivity|]. split; [reflexivity|]. split; [exact Hpool|].
    split; [simpl; by rewrite lookup_insert_ne|].
    split; [intros r Hr; simpl; by rewrite lookup_insert_ne|].
    split; [simpl; rewrite lookup_insert_eq; by eexists|].
    assert (Hm3 : forall r, r ∈ map fst nodes ->
                            m3 !! r = data_chunks w !! r).
    { intros r Hr. subst m3. rewrite lookup_insert_ne by (by intros <-).
      apply Hm2. by intros ->. }
    split; [split; [by eapply chain_frame|done]|].
    split.
    + intros r sr tr Hr Htr. simpl in *.
      destruct (decide (r = q)) as [->|Hrq].
      * rewrite lookup_insert_eq in Hr. injection Hr as <-.
        simpl in Htr. injection Htr as <-. subst m3.
        rewrite lookup_insert_ne by done. subst m2.
        rewrite lookup_insert_eq. by eexists.
      * rewrite lookup_insert_ne in Hr by done.
        destruct (Hlive r sr tr Hr Htr) as [z Hz]. subst m3.
        destruct (decide (tr = t)) as [->|Htt];
          [rewrite lookup_insert_eq; by eexists|].
        rewrite lookup_insert_ne by done.
        rewrite Hm2; [by eexists|]. intros ->. congruence.
    + intros r sr tr Hr Hrne Htr. simpl in Hr.
      destruct (decide (r = q)) as [->|Hrq].
      * rewrite lookup_insert_eq in Hr. injection Hr as <-.
        simpl in Htr. by injection Htr as <-.
      * rewrite lookup_insert_ne in Hr by done.
        exact (Hdis r sr tr Hr Hrne Htr).
  - exists (set_heap (set_data_chunks w m2)
              (<[q := set_data_chunks_tail_
                        (set_data_chunks_head_ s (Some p)) (Some p)]>
                 (heap w))).
    split.
    { unfold OnDataChunkReceived, data_chunk_free_list_pop. munfold.
      rewrite Hid, Hpool. simpl. rewrite lookup_insert_eq. simpl.
      rewrite Hs, Ht. reflexivity. }
    split; [reflexivity|]. split; [reflexivity|]. split; [exact Hpool|].
    split; [simpl; by rewrite lookup_insert_ne|].
    split; [intros r Hr; simpl; by rewrite lookup_insert_ne|].
    split; [simpl; rewrite lookup_insert_eq; by eexists|].
    split.
    { split; [|done]. eapply chain_frame; [exact Hc|].
      intros r Hr. apply Hm2. by intros ->. }
    split.
    + intros r sr tr Hr Htr. simpl in *.
      destruct (decide (r = q)) as [->|Hrq].
      * rewrite lookup_insert_eq in Hr. injection Hr as <-.
        simpl in Htr. injection Htr as <-. subst m2.
        rewrite lookup_insert_eq. by eexists.
      * rewrite lookup_insert_ne in Hr by done.
        destruct (Hlive r sr tr Hr Htr) as [z Hz].
        rewrite Hm2; [by eexists|]. intros ->. congruence.
    + intros r sr tr Hr Hrne Htr. simpl in Hr.
      destruct (decide (r = q)) as [->|Hrq].
      * rewrite lookup_insert_eq in Hr. injection Hr as <-.
        simpl in Htr. by injection Htr as <-.
      * rewrite lookup_insert_ne in Hr by done.
        exact (Hdis r sr tr Hr Hrne Htr).
Qed.

(** One chunk callback for stream [pA], when the chunk pool is empty. *)
Lemma OnDataChunkReceived_own (flags id : Z) (data : list byte)
    (pA : ptr) (w : Session) (sA : Nghttp2Stream)
    (nodes : list (ptr * option uv_buf_t)) :
  streams_ w !! id = Some pA ->
  heap w !! pA = Some sA ->
  data_chunk_free_list w = [] ->
  linked_list (data_chunks w) (data_chunks_head_ sA) (data_chunks_tail_ sA)
    nodes ->
  tails_live w ->
  (forall p s t, heap w !! p = Some s -> p <> pA ->
                 data_chunks_tail_ s = Some t -> ~ t ∈ map fst nodes) ->
  exists w' sA' p,
    OnDataChunkReceived flags id data w = Done (0, w') /\
    streams_ w' = streams_ w /\ trace w' = trace w /\
    data_chunk_free_list w' = [] /\
    heap w' !! pA = Some sA' /\
    (forall r, r <> pA -> heap w' !! r = heap w !! r) /\
    linked_list (data_chunks w') (data_chunks_head_ sA')
      (data_chunks_tail_ sA') (nodes ++ [(p, Some data)]) /\
    tails_live w' /\
    (forall r s t, heap w' !! r = Some s -> r <> pA ->
                   data_chunks_tail_ s = Some t ->
                   ~ t ∈ map fst (nodes ++ [(p, Some data)])).
Proof.
  intros Hid HsA Hpool Hll Hlive Hdis.
  destruct (OnDataChunkReceived_spec flags id data pA w sA nodes Hid HsA Hll)
    as (m3 & head' & Hrun & Hll3 & Hframe).
  { rewrite Hpool. split; [constructor|].
    intros ? H. by apply elem_of_nil in H. }
  { rewrite Hpool. intros ? H. by apply elem_of_nil in H. }
  rewrite Hpool in Hrun, Hll3, Hframe. cbn zeta in *.
  set (p := fresh (dom (data_chunks w))) in *.
  assert (Hfresh : data_chunks w !! p = None).
  { apply not_elem_of_dom, is_fresh. }
  eexists _, _, p. split; [exact Hrun|].
  split; [reflexivity|]. split; [reflexivity|]. split; [reflexivity|].
  split; [simpl; apply lookup_insert_eq|].
  split; [intros r Hr; simpl; by rewrite lookup_insert_ne|].
  split; [exact Hll3|].
  assert (Hother : forall r s t, heap w !! r = Some s -> r <> pA ->
            data_chunks_tail_ s = Some t ->
            t <> p /\ ~ t ∈ map fst nodes /\
            is_Some (data_chunks w !! t)).
  { intros r s t Hr Hrne Ht. pose proof (Hlive r s t Hr Ht) as Hl.
    split; [intros ->; destruct Hl; congruence|].
    split; [exact (Hdis r s t Hr Hrne Ht)|done]. }
  split.
  - intros r s t Hr Ht. simpl in *.
    destruct (decide (r = pA)) as [->|Hrne].
    + rewrite lookup_insert_eq in Hr. injection Hr as <-.
      simpl in Ht. injection Ht as <-.
      destruct Hll3 as (Hc3 & _). eapply chain_lookup; [exact Hc3|].
      rewrite map_app. apply elem_of_app. right. by left.
    + rewrite lookup_insert_ne in Hr by done.
      destruct (Hother r s t Hr Hrne Ht) as (? & ? & ?).
      by rewrite Hframe.
  - intros r s t Hr Hrne Ht. simpl in Hr.
    rewrite lookup_insert_ne in Hr by done.
    destruct (Hother r s t Hr Hrne Ht) as (Htp & Htn & _).
    rewrite map_app. intros Hin. apply elem_of_app in Hin as [Hin|Hin];
      [done|]. by apply list_elem_of_singleton in Hin.
Qed.

(** Chunk callbacks for any registered streams, in any order, when the
    chunk pool is empty: the list of stream [idA] gains exactly its own
    chunks, in receipt order; the registry and the trace are as
    before. *)
Lemma OnDataChunkReceived_interleaved (idA : Z) (pA : ptr)
    (chunks : list (Z * Z * uv_buf_t)) :
  forall (w : Session) (sA : Nghttp2Stream)
         (nodes : list (ptr * option uv_buf_t)),
    streams_ w !! idA = Some pA ->
    heap w !! pA = Some sA ->
    (forall id, streams_ w !! id = Some pA -> id = idA) ->
    Forall (fun c => exists p,
              streams_ w !! c.1.2 = Some p /\ is_Some (heap w !! p))
      chunks ->
    data_chunk_free_list w = [] ->
    linked_list (data_chunks w) (data_chunks_head_ sA)
      (data_chunks_tail_ sA) nodes ->
    tails_live w ->
    (forall p s t, heap w !! p = Some s -> p <> pA ->
                   data_chunks_tail_ s = Some t -> ~ t ∈ map fst nodes) ->
    exists w' sA' new,
      dispatch_all
        (map (fun c => on_data_chunk_recv c.1.1 c.1.2 c.2) chunks) w
      = Done (tt, w') /\
      streams_ w' = streams_ w /\
      trace w' = trace w /\
      heap w' !! pA = Some sA' /\
      map snd new = chunks_of_stream idA chunks /\
      linked_list (data_chunks w') (data_chunks_head_ sA')
        (data_chunks_tail_ sA') (nodes ++ map with_buf new).
Proof.
  induction chunks as [|[[f id] d] chunks IH];
    intros w sA nodes HidA HsA Hinj Hall Hpool Hll Hlive Hdis.
  - exists w, sA, []. simpl. by rewrite app_nil_r.
  - apply list.Forall_cons in Hall as [(q & Hid & [s Hs]) Hall].
    simpl in Hid.
    cbn [map dispatch_all dispatch chunks_of_stream fst snd].
    destruct (decide (id = idA)) as [->|Hne].
    + assert (q = pA) as -> by congruence.
      destruct (OnDataChunkReceived_own f idA d pA w sA nodes
                  HidA HsA Hpool Hll Hlive Hdis)
        as (w1 & sA1 & p & Hrun & Hst & Htr & Hpool1 & HsA1 & Hheap1
            & Hll1 & Hlive1 & Hdis1).
      destruct (IH w1 sA1 (nodes ++ [(p, Some d)]))
        as (w' & sA' & new & Hrun' & Hst' & Htr' & HsA' & Hnew & Hll');
        try done.
      { by rewrite Hst. }
      { intros id'. rewrite Hst. apply Hinj. }
      { eapply Forall_impl; [exact Hall|]. intros c (r & Hr & Hr').
        exists r. rewrite Hst. split; [exact Hr|].
        destruct (decide (r = pA)) as [->|Hrne]; [by eexists|].
        by rewrite Hheap1. }
      exists w', sA', ((p, d) :: new). munfold. rewrite Hrun, Hrun'.
      split; [done|]. split; [congruence|]. split; [congruence|].
      split; [done|]. split; [simpl; by f_equal|].
      simpl. by rewrite <- app_assoc in Hll'.
    + assert (Hq : q <> pA) by (intros ->; by apply Hne, Hinj).
      destruct (OnDataChunkReceived_other f id d pA q w sA s nodes
                  Hid Hs Hq HsA Hpool Hll Hlive Hdis)
        as (w1 & Hrun & Hst & Htr & Hpool1 & HsA1 & Hheap1 & Hq1
            & Hll1 & Hlive1 & Hdis1).
      destruct (IH w1 sA nodes)
        as (w' & sA' & new & Hrun' & Hst' & Htr' & HsA' & Hnew & Hll');
        try done.
      { by rewrite Hst. }
      { intros id'. rewrite Hst. apply Hinj. }
      { eapply Forall_impl; [exact Hall|]. intros c (r & Hr & Hr').
        exists r. rewrite Hst. split; [exact Hr|].
        destruct (decide (r = q)) as [->|Hrne]; [done|].
        by rewrite Hheap1. }
      exists w', sA', new. munfold. rewrite Hrun, Hrun'.
      split; [done|]. split; [congruence|]. split; [congruence|]. done.
Qed.

(** X13. Chunks of several registered streams may reach the core
    interleaved.  Let the chunk pool be empty, so that every chunk gets a
    new node, and let the tail pointer of every stream point to an
    allocated node.  When a DATA frame of stream [idA] then completes,
    and no other id is registered for [idA]'s stream object, the
    [OnDataChunk] calls made are exactly [idA]'s own chunks, in receipt
    order: no chunk of another stream is delivered, and none of [idA]'s
    is left behind. *)
Theorem data_frame_delivers_own_chunks_only (w : Session) (idA : Z)
    (pA : ptr) (sA : Nghttp2Stream) (chunks : list (Z * Z * uv_buf_t))
    (frame : nghttp2_frame) :
  streams_ w !! idA = Some pA ->
  heap w !! pA = Some sA ->
  data_chunks_head_ sA = None ->
  data_chunks_tail_ sA = None ->
  (forall id, streams_ w !! id = Some pA -> id = idA) ->
  Forall (fun c => exists p,
            streams_ w !! c.1.2 = Some p /\ is_Some (heap w !! p))
    chunks ->
  data_chunk_free_list w = [] ->
  tails_live w ->
  hd_type frame = NGHTTP2_DATA ->
  hd_stream_id frame = idA ->
  exists w' sA',
    dispatch_all
      (map (fun c => on_data_chunk_recv c.1.1 c.1.2 c.2) chunks
       ++ [on_frame_recv frame]) w
    = Done (tt, w') /\
    on_data_calls (trace w')
    = on_data_calls (trace w)
      ++ map (pair pA) (chunks_of_stream idA chunks) /\
    heap w' !! pA = Some sA' /\
    data_chunks_head_ sA' = None /\ data_chunks_tail_ sA' = None.
Proof.
  intros HidA HsA Hhead Htail Hinj Hall Hpool Hlive Hty Hfid.
  destruct (OnDataChunkReceived_interleaved idA pA chunks w sA []
              HidA HsA Hinj Hall Hpool)
    as (w1 & sA1 & new & Hrun & Hst & Htr & HsA1 & Hnew & Hll);
    [|exact Hlive| |].
  { rewrite Hhead, Htail. split; [done|]. split; [done|constructor]. }
  { intros p s t _ _ _ Hin. by apply elem_of_nil in Hin. }
  destruct Hll as (Hc & _ & Hnd). simpl in Hc, Hnd.
  rewrite <- list_fmap_compose in Hnd.
  rewrite dispatch_all_app. munfold. rewrite Hrun.
  cbn [dispatch_all dispatch]. unfold OnFrameReceive. rewrite Hty.
  munfold.
  erewrite HandleDataFrame_spec;
    [|by rewrite Hfid, Hst|exact HsA1|exact Hc|exact Hnd].
  eexists _, _. split; [reflexivity|].
  split.
  { cbn [trace set_trace].
    by rewrite on_data_calls_app, on_data_calls_chunks, Htr, Hnew. }
  split; [simpl; apply lookup_insert_eq|]. done.
Qed.

(** ** The registry invariant *)

Lemma same_identity_refl (s : Nghttp2Stream) : same_identity s s.
Proof. by repeat split. Qed.

Lemma same_identity_trans (s1 s2 s3 : Nghttp2Stream) :
  same_identity s1 s2 -> same_identity s2 s3 -> same_identity s1 s3.
Proof. unfold same_identity. intuition congruence. Qed.

Lemma has_flag_DESTROYING (f : Z) :
  has_flag f NGHTTP2_STREAM_DESTROYING = Z.testbit f 5.
Proof.
  unfold has_flag.
  assert (Hbit : forall n, 0 <= n ->
    Z.testbit (Z.land f NGHTTP2_STREAM_DESTROYING) n
    = Z.testbit f n && (5 =? n)).
  { intros n Hn. rewrite Z.land_spec. f_equal.
    by apply (Z.pow2_bits_eqb 5). }
  destruct (Z.testbit f 5) eqn:E.
  - apply Z.eqb_eq, Z.bits_inj'. intros n Hn. rewrite Hbit by done.
    change NGHTTP2_STREAM_DESTROYING with (2 ^ 5).
    rewrite (Z.pow2_bits_eqb 5 n) by done.
    destruct (Z.eqb_spec 5 n) as [<-|]; [by rewrite E|apply andb_false_r].
  - assert (Z.land f NGHTTP2_STREAM_DESTROYING = 0) as ->; [|done].
    apply Z.bits_inj'. intros n Hn. rewrite Hbit, Z.bits_0 by done.
    destruct (Z.eqb_spec 5 n) as [<-|]; [by rewrite E|apply andb_false_r].
Qed.

Lemma same_identity_flags (s : Nghttp2Stream) (f : Z) :
  Z.testbit f 5 = Z.testbit (flags_ s) 5 ->
  same_identity s (set_flags_ s f).
Proof.
  intros H. repeat split. unfold IsDestroying.
  by rewrite !has_flag_DESTROYING.
Qed.

Lemma steady_refl (w : Session) : steady w w.
Proof.
  repeat split. intros p s Hs. exists s. split; [done|].
  apply same_identity_refl.
Qed.

Lemma steady_trans (w1 w2 w3 : Session) :
  steady w1 w2 -> steady w2 w3 -> steady w1 w3.
Proof.
  intros (Hst & Hp & Hh) (Hst' & Hp' & Hh').
  split; [congruence|]. split; [congruence|].
  intros p s Hs. destruct (Hh p s Hs) as (s2 & Hs2 & Hid).
  destruct (Hh' p s2 Hs2) as (s3 & Hs3 & Hid').
  exists s3. split; [done|]. by eapply same_identity_trans.
Qed.

(** A step that touches neither registry, heap nor pool. *)
Lemma steady_frame (w w' : Session) :
  streams_ w' = streams_ w -> heap w' = heap w ->
  stream_free_list w' = stream_free_list w -> steady w w'.
Proof.
  intros Hst Hh Hp. split; [done|]. split; [done|].
  intros p s Hs. exists s. rewrite Hh. split; [done|].
  apply same_identity_refl.
Qed.

(** A step that writes fields of one live object. *)
Lemma steady_insert (w w' : Session) (p : ptr) (s s' : Nghttp2Stream) :
  heap w !! p = Some s -> same_identity s s' ->
  streams_ w' = streams_ w ->
  stream_free_list w' = stream_free_list w ->
  heap w' = <[p := s']> (heap w) ->
  steady w w'.
Proof.
  intros Hs Hid Hst Hp Hh. split; [done|]. split; [done|].
  intros q sq Hq. rewrite Hh. destruct (decide (q = p)) as [->|Hne].
  - exists s'. rewrite lookup_insert_eq. split; [done|]. congruence.
  - exists sq. rewrite lookup_insert_ne by done. split; [done|].
    apply same_identity_refl.
Qed.

Lemma steady_registry_ok (w w' : Session) :
  registry_ok w -> steady w w' -> registry_ok w'.
Proof.
  intros (Hreg & Hpool & Hnd) (Hst & Hp & Hh).
  split; [|split].
  - intros id p Hid. rewrite Hst in Hid.
    destruct (Hreg id p Hid) as (s & Hs & ? & ? & ?).
    destruct (Hh p s Hs) as (s' & Hs' & ? & ? & ?).
    exists s'. repeat split; congruence.
  - intros p Hin. rewrite Hp in Hin.
    destruct (Hpool p Hin) as (s & Hs & ?).
    destruct (Hh p s Hs) as (s' & Hs' & ? & ? & ?).
    exists s'. split; congruence.
  - by rewrite Hp.
Qed.

Lemma steady_call_ret {A} (a : A) : steady_call (mret a).
Proof. intros w b w' H. injection H as _ <-. apply steady_refl. Qed.

Lemma steady_call_bind {A B} (m : M A) (k : A -> M B) :
  steady_call m -> (forall a, steady_call (k a)) -> steady_call (m ≫= k).
Proof.
  intros Hm Hk w b w' H. munfold.
  destruct (m w) as [[a w1]| | |] eqn:E; try done.
  eapply steady_trans; [by eapply Hm | by eapply Hk].
Qed.

Lemma steady_call_modify (f : Session -> Session) :
  (forall w, streams_ (f w) = streams_ w /\ heap (f w) = heap w /\
             stream_free_list (f w) = stream_free_list w) ->
  steady_call (modify f).
Proof.
  intros Hf w a w' H. injection H as <- <-.
  destruct (Hf w) as (? & ? & ?). by apply steady_frame.
Qed.

Lemma steady_call_load (p : ptr) : steady_call (load p).
Proof.
  intros w s w' H. munfold. destruct (heap w !! p); [|done].
  injection H as _ <-. apply steady_refl.
Qed.

Lemma steady_call_get : steady_call get.
Proof. intros w a w' H. injection H as _ <-. apply steady_refl. Qed.

Lemma steady_call_FindStream (id : Z) : steady_call (FindStream id).
Proof. intros w a w' H. injection H as _ <-. apply steady_refl. Qed.

Lemma steady_call_fail {A} (m : M A) :
  (forall w, m w = Abort \/ m w = Undefined \/ m w = OutOfFuel) ->
  steady_call m.
Proof. intros Hm w a w' H. destruct (Hm w) as [?|[?|?]]; congruence. Qed.

(** [s <- load p; store p (f s)], and what follows. *)
Lemma steady_call_update {A} (p : ptr) (f : Nghttp2Stream -> Nghttp2Stream)
    (k : Nghttp2Stream -> M A) :
  (forall s, same_identity s (f s)) ->
  (forall s, steady_call (k s)) ->
  steady_call (s ← load p; store p (f s);; k s).
Proof.
  intros Hf Hk w a w' H. munfold.
  destruct (heap w !! p) as [s|] eqn:Hs; [|done].
  eapply steady_trans; [|by eapply Hk].
  by eapply steady_insert.
Qed.

Lemma keeps_streams_steady {A} (m : M A) :
  keeps_streams m -> steady_call m.
Proof.
  intros Hm w a w' H. destruct (Hm w a w' H) as (? & ? & ?).
  by apply steady_frame.
Qed.

Lemma keeps_streams_load_chunk (p : ptr) : keeps_streams (load_chunk p).
Proof.
  intros w a w' H. munfold. destruct (data_chunks w !! p); [|done].
  by injection H as _ <-.
Qed.

Lemma keeps_streams_load_header (p : ptr) : keeps_streams (load_header p).
Proof.
  intros w a w' H. munfold. destruct (header_nodes w !! p); [|done].
  by injection H as _ <-.
Qed.

Lemma keeps_streams_modify (f : Session -> Session) :
  (forall w, streams_ (f w) = streams_ w /\ heap (f w) = heap w /\
             stream_free_list (f w) = stream_free_list w) ->
  keeps_streams (modify f).
Proof. intros Hf w a w' H. injection H as <- <-. apply Hf. Qed.

Lemma keeps_streams_store_chunk (p : ptr) (c : nghttp2_data_chunk_t) :
  keeps_streams (store_chunk p c).
Proof. by apply keeps_streams_modify. Qed.

Lemma keeps_streams_store_header (p : ptr) (h : nghttp2_header_node) :
  keeps_streams (store_header p h).
Proof. by apply keeps_streams_modify. Qed.

Lemma keeps_streams_data_chunk_free_list_pop :
  keeps_streams data_chunk_free_list_pop.
Proof.
  intros w a w' H. unfold data_chunk_free_list_pop in H.
  destruct (data_chunk_free_list w); by injection H as _ <-.
Qed.

Lemma keeps_streams_data_chunk_free_list_push (p : ptr) :
  keeps_streams (data_chunk_free_list_push p).
Proof.
  apply keeps_streams_modify. intros w.
  by destruct (length (data_chunk_free_list w) <? FREELIST_MAX)%nat.
Qed.

Lemma keeps_streams_header_free_list_pop :
  keeps_streams header_free_list_pop.
Proof.
  intros w a w' H. unfold header_free_list_pop in H.
  destruct (header_free_list w); by injection H as _ <-.
Qed.

Lemma keeps_streams_header_free_list_push (p : ptr) :
  keeps_streams (header_free_list_push p).
Proof.
  apply keeps_streams_modify. intros w.
  by destruct (length (header_free_list w) <? FREELIST_MAX)%nat.
Qed.

Create HintDb keeps.

#[local] Hint Resolve keeps_streams_load_chunk keeps_streams_load_header
  keeps_streams_store_chunk keeps_streams_store_header
  keeps_streams_data_chunk_free_list_pop
  keeps_streams_data_chunk_free_list_push
  keeps_streams_header_free_list_pop
  keeps_streams_header_free_list_push : keeps.

Lemma steady_at_load {A} (p : ptr) (k : Nghttp2Stream -> M A) :
  (forall s, steady_at p s (k s)) -> steady_call (load p ≫= k).
Proof.
  intros Hk w a w' H. munfold.
  destruct (heap w !! p) as [s|] eqn:Hs; [|done]. by eapply Hk.
Qed.

Lemma steady_at_weaken {A} (p : ptr) (s : Nghttp2Stream) (m : M A) :
  steady_call m -> steady_at p s m.
Proof. intros Hm w a w' _ H. by eapply Hm. Qed.

Lemma steady_at_store (p : ptr) (s s' : Nghttp2Stream) :
  same_identity s s' -> steady_at p s (store p s').
Proof.
  intros Hid w a w' Hs H. munfold. injection H as _ <-.
  by eapply steady_insert.
Qed.

Lemma steady_at_bind {A B} (p : ptr) (s : Nghttp2Stream) (m : M A)
    (k : A -> M B) :
  steady_at p s m -> (forall a, steady_call (k a)) ->
  steady_at p s (m ≫= k).
Proof.
  intros Hm Hk w b w' Hs H. munfold.
  destruct (m w) as [[a w1]| | |] eqn:E; try done.
  eapply steady_trans; [by eapply Hm | by eapply Hk].
Qed.

Lemma steady_at_keeps {A B} (p : ptr) (s : Nghttp2Stream) (m : M A)
    (k : A -> M B) :
  keeps_streams m -> (forall a, steady_at p s (k a)) ->
  steady_at p s (m ≫= k).
Proof.
  intros Hm Hk w b w' Hs H. munfold.
  destruct (m w) as [[a w1]| | |] eqn:E; try done.
  destruct (Hm w a w1 E) as (Hst & Hh & Hp).
  eapply steady_trans; [by apply steady_frame|].
  eapply Hk; [|exact H]. by rewrite Hh.
Qed.

Ltac steady_step :=
  match goal with
  | |- steady_call (load ?p ≫= _) =>
      apply (steady_call_update p); [intros; try by repeat split|intros]
  | |- steady_call (load ?p ≫= _) => apply steady_at_load; intros
  | |- steady_call (_ ≫= _) => apply steady_call_bind; [|intros]
  | |- steady_call (if ?b then _ else _) => destruct b
  | |- steady_call (match ?o with Some _ => _ | None => _ end) =>
      destruct o
  | |- steady_call (mret _) => apply steady_call_ret
  | |- steady_call (load _) => apply steady_call_load
  | |- steady_call get => apply steady_call_get
  | |- steady_call (FindStream _) => apply steady_call_FindStream
  | |- steady_call (modify _) =>
      apply steady_call_modify; intros; by repeat split
  | |- steady_call (emit _) =>
      apply steady_call_modify; intros; by repeat split
  | |- steady_call fail_undefined => apply steady_call_fail; auto
  | |- steady_call fail_abort => apply steady_call_fail; auto
  | |- steady_call (fun _ => OutOfFuel) => apply steady_call_fail; auto
  | |- steady_call _ => assumption
  | |- steady_call _ => solve [apply keeps_streams_steady; eauto with keeps]
  | |- steady_at _ _ (store _ _) =>
      apply steady_at_store; by repeat split
  | |- steady_at _ _ (match ?o with Some _ => _ | None => _ end) =>
      destruct o
  | |- steady_at _ _ (store _ _ ≫= _) =>
      apply steady_at_bind;
      [apply steady_at_store; by repeat split|intros]
  | |- steady_at _ _ (_ ≫= _) =>
      apply steady_at_keeps; [solve [eauto with keeps]|intros]
  | |- steady_at _ _ (_ ≫= _) =>
      apply steady_at_bind; [|intros]
  | |- steady_at _ _ _ => apply steady_at_weaken
  end.

Lemma steady_call_FreeHeaders_loop (fuel : nat) (this : ptr) :
  steady_call (FreeHeaders_loop fuel this).
Proof.
  induction fuel as [|fuel IH]; cbn [FreeHeaders_loop];
    repeat steady_step.
Qed.

Lemma steady_call_FreeHeaders (this : ptr) :
  steady_call (FreeHeaders this).
Proof.
  unfold FreeHeaders.
  apply steady_call_bind; [apply steady_call_get|intros w0].
  apply steady_call_bind; [apply steady_call_FreeHeaders_loop|intros _].
  repeat steady_step.
Qed.

Lemma steady_call_Destroy_chunks_loop (fuel : nat) (this : ptr) :
  steady_call (Destroy_chunks_loop fuel this).
Proof.
  induction fuel as [|fuel IH]; cbn [Destroy_chunks_loop];
    repeat steady_step.
Qed.

Lemma steady_call_HandleDataFrame_loop (fuel : nat) (this : ptr) :
  steady_call (HandleDataFrame_loop fuel this).
Proof.
  induction fuel as [|fuel IH]; cbn [HandleDataFrame_loop];
    repeat steady_step.
Qed.

Lemma steady_call_HandleDataFrame (frame : nghttp2_frame) :
  steady_call (HandleDataFrame frame).
Proof.
  unfold HandleDataFrame.
  apply steady_call_bind; [apply steady_call_FindStream|intros stream].
  destruct stream as [stream|]; [|repeat steady_step].
  apply steady_call_bind; [apply steady_call_get|intros w0].
  apply steady_call_bind;
    [apply steady_call_HandleDataFrame_loop|intros _].
  repeat steady_step.
Qed.

Lemma steady_call_HandleHeadersFrame (frame : nghttp2_frame) :
  steady_call (HandleHeadersFrame frame).
Proof.
  unfold HandleHeadersFrame.
  apply steady_call_bind; [apply steady_call_FindStream|intros stream].
  destruct stream as [stream|]; [|repeat steady_step].
  apply steady_call_bind; [apply steady_call_load|intros s].
  apply steady_call_bind; [apply steady_call_get|intros w0].
  apply steady_call_bind; [repeat steady_step|intros _].
  apply steady_call_FreeHeaders.
Qed.

Lemma steady_call_HandlePriorityFrame (frame : nghttp2_frame) :
  steady_call (HandlePriorityFrame frame).
Proof. unfold HandlePriorityFrame. repeat steady_step. Qed.

Lemma steady_call_OnFrameReceive (frame : nghttp2_frame) :
  steady_call (OnFrameReceive frame).
Proof.
  unfold OnFrameReceive.
  apply steady_call_bind; [|intros; apply steady_call_ret].
  destruct (hd_type frame);
    first [ apply steady_call_HandleDataFrame
          | apply steady_call_HandleHeadersFrame
          | apply steady_call_HandlePriorityFrame
          | repeat steady_step ].
Qed.

Lemma same_identity_of (s s' : Nghttp2Stream) :
  id_ s' = id_ s -> session_ s' = session_ s ->
  Z.testbit (flags_ s') 5 = Z.testbit (flags_ s) 5 ->
  same_identity s s'.
Proof.
  intros Hid Hsess Hbit. repeat split; [done..|].
  unfold IsDestroying. by rewrite !has_flag_DESTROYING.
Qed.

Lemma testbit_paused_5 (f : Z) :
  Z.testbit (Z.lor f NGHTTP2_STREAM_READ_PAUSED) 5 = Z.testbit f 5.
Proof.
  rewrite Z.lor_spec.
  change (Z.testbit NGHTTP2_STREAM_READ_PAUSED 5) with false.
  apply orb_false_r.
Qed.

Lemma testbit_started_5 (f : Z) :
  Z.testbit (started f) 5 = Z.testbit f 5.
Proof.
  rewrite testbit_started by lia. simpl.
  by rewrite orb_false_r, andb_true_r.
Qed.

Lemma steady_call_Write (this : ptr) (req0 : nat) (bufs0 : list uv_buf_t)
    (cb0 : option nat) :
  steady_call (Nghttp2Stream_Write this req0 bufs0 cb0).
Proof.
  intros w a w' H. unfold Nghttp2Stream_Write in H. munfold.
  destruct (heap w !! this) as [s|] eqn:Hs; [|done].
  destruct (negb (IsWritable s)).
  - destruct cb0; injection H as _ <-; by apply steady_frame.
  - simpl in H. destruct (session_ s); [|done]. injection H as _ <-.
    eapply steady_insert; [exact Hs| |done|done|reflexivity].
    by repeat split.
Qed.

Lemma steady_call_ReadStart (this : ptr) : steady_call (ReadStart this).
Proof.
  intros w a w' H. unfold ReadStart in H.
  unfold nghttp2_session_set_local_window_size in H. munfold.
  destruct (heap w !! this) as [s|] eqn:Hs; [|done].
  assert (Hid : same_identity s (set_flags_ s (started (flags_ s)))).
  { apply same_identity_of; [done..|]. apply testbit_started_5. }
  destruct (IsPaused s); [destruct (session_ s); [|done]|];
    injection H as _ <-;
    (eapply steady_insert; [exact Hs|exact Hid|done..]).
Qed.

Lemma steady_call_ReadStop (this : ptr) : steady_call (ReadStop this).
Proof.
  intros w a w' H. unfold ReadStop in H.
  unfold nghttp2_session_set_local_window_size,
    nghttp2_session_get_stream_local_window_size in H. munfold.
  destruct (heap w !! this) as [s|] eqn:Hs; [|done].
  destruct (negb (IsReading s)).
  { injection H as _ <-. apply steady_refl. }
  simpl in H. destruct (session_ s); [|done].
  destruct (0 <=? _); injection H as _ <-.
  - eapply steady_insert;
      [exact Hs| |done|done|simpl; by rewrite insert_insert_eq].
    apply same_identity_of; [done..|]. apply testbit_paused_5.
  - eapply steady_insert; [exact Hs| |done|done|reflexivity].
    apply same_identity_of; [done..|]. apply testbit_paused_5.
Qed.

Lemma steady_call_StartHeaders (this : ptr)
    (category : nghttp2_headers_category) :
  steady_call (StartHeaders this category).
Proof.
  intros w a w' H. unfold StartHeaders in H. munfold.
  destruct (heap w !! this) as [s|] eqn:Hs; [|done]. injection H as _ <-.
  eapply steady_insert; [exact Hs| |done|done|reflexivity].
  by repeat split.
Qed.

Lemma steady_call_deref (o : option ptr) : steady_call (deref o).
Proof. destruct o; [apply steady_call_ret|apply steady_call_fail; auto]. Qed.

Lemma steady_call_OnHeaderCallback (frame : nghttp2_frame)
    (name value : nghttp2_rcbuf) (flags : Z) :
  steady_call (OnHeaderCallback frame name value flags).
Proof.
  unfold OnHeaderCallback.
  apply steady_call_bind; [apply steady_call_FindStream|intros stream].
  do 4 (apply steady_call_bind; [repeat steady_step|intros]).
  apply steady_call_bind; [apply steady_call_deref|intros p].
  repeat steady_step.
Qed.

Lemma steady_call_OnDataChunkReceived (flags id : Z) (data : list byte) :
  steady_call (OnDataChunkReceived flags id data).
Proof.
  unfold OnDataChunkReceived.
  apply steady_call_bind; [apply steady_call_FindStream|intros stream].
  do 3 (apply steady_call_bind; [repeat steady_step|intros]).
  apply steady_call_bind; [apply steady_call_deref|intros p].
  repeat steady_step.
Qed.

Lemma OnStreamRead_bufs_identity (head : nghttp2_stream_write_queue) :
  forall (fuel : nat) (s : Nghttp2Stream) (remaining offset : nat)
         (evs : list event) r,
    OnStreamRead_bufs fuel head s remaining offset evs = Done r ->
    same_identity s r.1.1.1.2.
Proof.
  induction fuel as [|fuel IH]; intros s remaining offset evs r H;
    [done|].
  cbn [OnStreamRead_bufs] in H.
  destruct (queue_head_index_ s <? length (bufs head))%nat;
    [|injection H as <-; apply same_identity_refl].
  destruct (remaining =? 0)%nat;
    [injection H as <-; apply same_identity_refl|].
  destruct (length (nth (queue_head_index_ s) (bufs head) [])
            <? queue_head_offset_ s)%nat; [done|].
  apply IH in H. eapply same_identity_trans; [|exact H].
  by destruct (_ <? _)%nat.
Qed.

Lemma OnStreamRead_queue_identity
    (q : list nghttp2_stream_write_queue) :
  forall (s : Nghttp2Stream) (remaining offset : nat) (evs : list event)
         r,
    OnStreamRead_queue q s remaining offset evs = Done r ->
    same_identity s r.1.1.
Proof.
  induction q as [|head next IH]; intros s remaining offset evs r H.
  - injection H as <-. apply same_identity_refl.
  - cbn [OnStreamRead_queue] in H.
    destruct (OnStreamRead_bufs _ head s remaining offset evs)
      as [[[[[g s1] rem1] off1] evs1]| | |] eqn:E; try done.
    apply OnStreamRead_bufs_identity in E. simpl in E.
    destruct g.
    + injection H as <-. exact E.
    + destruct (cb head); [|done]. apply IH in H.
      eapply same_identity_trans; [exact E|].
      eapply same_identity_trans; [|exact H]. by repeat split.
Qed.

Lemma steady_call_OnStreamRead (id : Z) (buf_length : nat) (flags : Z) :
  steady_call (OnStreamRead id buf_length flags).
Proof.
  intros w a w' H. unfold OnStreamRead in H.
  cbv beta iota delta [mbind M_bind bind FindStream get mret M_ret ret
    deref load] in H.
  destruct (streams_ w !! id) as [p|]; [|done]. simpl in H.
  destruct (heap w !! p) as [s|] eqn:Hs; [|done].
  destruct (OnStreamRead_queue (queue_ s) s buf_length 0 [])
    as [[[s1 off1] evs1]| | |] eqn:E; try done.
  apply OnStreamRead_queue_identity in E. simpl in E.
  revert H.
  change ((store p s1 ≫= fun _ =>
             emit evs1 ≫= fun _ =>
             if (off1 =? 0)%nat
                && (negb (bool_decide (queue_ s1 = [])) || IsWritable s1)
                && bool_decide (queue_ s1 = [])
             then mret (NGHTTP2_ERR_DEFERRED, flags)
             else
               (if negb (negb (bool_decide (queue_ s1 = []))
                         || IsWritable s1)
                then
                  emit [EvOnTrailers p] ≫= fun _ =>
                  get ≫= fun w0 =>
                  if (0 <? length (trailers_of w0 p))%nat
                  then
                    emit [EvSubmitTrailer (id_ s1) (trailers_of w0 p)]
                    ≫= fun _ =>
                    mret (Z.lor (Z.lor flags NGHTTP2_DATA_FLAG_EOF)
                            NGHTTP2_DATA_FLAG_NO_END_STREAM)
                  else mret (Z.lor flags NGHTTP2_DATA_FLAG_EOF)
                else mret flags) ≫= fun flags0 =>
               if (off1 <=? buf_length)%nat
               then mret (Z.of_nat off1, flags0)
               else fail_abort) w = Done (a, w') -> steady w w').
  intros H.
  cbv beta iota delta [mbind M_bind bind store modify] in H.
  apply (steady_trans w (set_heap w (<[p:=s1]> (heap w)))).
  { eapply steady_insert; [exact Hs|exact E|reflexivity..]. }
  revert H. generalize (set_heap w (<[p:=s1]> (heap w))). intros w1 H.
  revert w1 a w' H.
  change (steady_call
    (emit evs1 ≫= fun _ =>
     if (off1 =? 0)%nat
        && (negb (bool_decide (queue_ s1 = [])) || IsWritable s1)
        && bool_decide (queue_ s1 = [])
     then mret (NGHTTP2_ERR_DEFERRED, flags)
     else
       (if negb (negb (bool_decide (queue_ s1 = [])) || IsWritable s1)
        then
          emit [EvOnTrailers p] ≫= fun _ =>
          get ≫= fun w0 =>
          if (0 <? length (trailers_of w0 p))%nat
          then
            emit [EvSubmitTrailer (id_ s1) (trailers_of w0 p)] ≫= fun _ =>
            mret (Z.lor (Z.lor flags NGHTTP2_DATA_FLAG_EOF)
                    NGHTTP2_DATA_FLAG_NO_END_STREAM)
          else mret (Z.lor flags NGHTTP2_DATA_FLAG_EOF)
        else mret flags) ≫= fun flags0 =>
       if (off1 <=? buf_length)%nat
       then mret (Z.of_nat off1, flags0)
       else fail_abort)).
  repeat steady_step.
Qed.

Lemma steady_call_read_bytes (data : list byte) (src_offset n : nat) :
  steady_call (read_bytes data src_offset n).
Proof. unfold read_bytes. repeat steady_step. Qed.

Lemma steady_call_SendPendingData_copy (data : list byte) :
  forall (fuel amount src_offset : nat) (current : list byte)
         (remaining : nat),
    steady_call
      (SendPendingData_copy fuel data amount src_offset current remaining).
Proof.
  induction fuel as [|fuel IH]; intros amount src_offset current remaining;
    cbn [SendPendingData_copy]; [by apply steady_call_fail; auto|].
  destruct (0 <? amount)%nat; [|apply steady_call_ret].
  destruct (remaining <? amount)%nat;
    (apply steady_call_bind; [apply steady_call_read_bytes|intros]);
    [|apply IH].
  repeat steady_step. apply IH.
Qed.

Lemma steady_call_mem_send : steady_call nghttp2_session_mem_send.
Proof.
  intros w a w' H. unfold nghttp2_session_mem_send in H. munfold.
  destruct (pending_send w); injection H as _ <-; by apply steady_frame.
Qed.

Lemma steady_call_SendPendingData_loop :
  forall (n src_offset : nat) (current : list byte) (remaining : nat),
    steady_call (SendPendingData_loop n src_offset current remaining).
Proof.
  induction n as [|n IH]; intros src_offset current remaining;
    cbn [SendPendingData_loop]; [by apply steady_call_fail; auto|].
  apply steady_call_bind; [apply steady_call_mem_send|intros data].
  destruct (0 <? length data)%nat; [|apply steady_call_ret].
  apply steady_call_bind;
    [apply steady_call_SendPendingData_copy|intros [[? ?] ?]; apply IH].
Qed.

Lemma steady_call_SendPendingData : steady_call SendPendingData.
Proof.
  unfold SendPendingData. repeat steady_step.
  apply steady_call_SendPendingData_loop.
Qed.

(** Calls that may register, unregister, pool or free *)

Lemma keeps_registry_steady {A} (m : M A) :
  steady_call m -> keeps_registry m.
Proof.
  intros Hm w a w' Hok H. eapply steady_registry_ok; [exact Hok|].
  by eapply Hm.
Qed.

Lemma keeps_registry_bind {A B} (m : M A) (k : A -> M B) :
  keeps_registry m -> (forall a, keeps_registry (k a)) ->
  keeps_registry (m ≫= k).
Proof.
  intros Hm Hk w b w' Hok H. munfold.
  destruct (m w) as [[a w1]| | |] eqn:E; try done.
  eapply Hk; [|exact H]. by eapply Hm.
Qed.

Lemma IsDestroying_ResetState (id : Z)
    (category : nghttp2_headers_category) :
  IsDestroying (ResetState id category) = false.
Proof. reflexivity. Qed.

(** [Init]: the object popped is pooled or fresh, so it is not a
    registered one; after the reset it is registered under its own id. *)
Lemma keeps_registry_Init (id : Z) (category : nghttp2_headers_category) :
  keeps_registry (Nghttp2Stream_Init id category).
Proof.
  intros w a w' (Hreg & Hpool & Hnd) H.
  unfold Nghttp2Stream_Init, stream_free_list_pop, AddStream in H.
  munfold.
  assert (Hgoal : forall p pool',
    (forall s, heap w !! p = Some s -> IsDestroying s = true) ->
    NoDup pool' ->
    (forall q, q ∈ pool' -> q ∈ stream_free_list w /\ q <> p) ->
    registry_ok
      (set_streams_
         (set_heap (set_stream_free_list w pool')
            (<[p := ResetState id category]> (heap w)))
         (<[id := p]> (streams_ w)))).
  { intros p pool' Hp Hnd' Hsub. split; [|split]; simpl.
    - intros id' q Hq. destruct (decide (id' = id)) as [->|Hne].
      + rewrite lookup_insert_eq in Hq. injection Hq as <-.
        exists (ResetState id category).
        by rewrite lookup_insert_eq.
      + rewrite lookup_insert_ne in Hq by done.
        destruct (Hreg id' q Hq) as (s & Hs & ? & ? & Hd).
        exists s. rewrite lookup_insert_ne; [done|].
        intros <-. specialize (Hp s Hs). congruence.
    - intros q Hq. destruct (Hsub q Hq) as [Hin Hne].
      destruct (Hpool q Hin) as (s & Hs & Hd).
      exists s. by rewrite lookup_insert_ne.
    - exact Hnd'. }
  destruct (stream_free_list w) as [|p rest] eqn:Epool.
  - injection H as _ <-.
    assert (Hfresh : heap w !! fresh (dom (heap w)) = None).
    { apply not_elem_of_dom, is_fresh. }
    assert (w = set_stream_free_list w []) as Hw.
    { destruct w; simpl in *; by subst. }
    rewrite Hw at 1 3 4. apply Hgoal.
    + intros s Hs. congruence.
    + constructor.
    + intros q Hq. by apply elem_of_nil in Hq.
  - injection H as _ <-. simpl.
    apply NoDup_cons in Hnd as [Hnotin Hnd].
    apply Hgoal.
    + intros s Hs. destruct (Hpool p) as (s' & Hs' & Hd); [by left|].
      congruence.
    + exact Hnd.
    + intros q Hq. split; [by right|]. intros ->. done.
Qed.

Lemma Freelist_put_Permutation (pooled : list ptr) (item : ptr) :
  Freelist_put pooled item ≡ₚ item :: pooled.
Proof.
  unfold Freelist_put.
  rewrite <- Permutation_middle. by rewrite take_drop.
Qed.

(** [Destroy]: the object was not destroyed before, so it is not pooled;
    unregistering its id leaves no registration of it; releasing its
    chunks and headers touches neither registry nor pool; then it is
    pooled or deallocated. *)
Lemma keeps_registry_Destroy (this : ptr) :
  keeps_registry (Nghttp2Stream_Destroy this).
Proof.
  intros w a w' Hok H. unfold Nghttp2Stream_Destroy in H.
  apply bind_Done in H as (s & w0 & Hload & H).
  assert (w0 = w /\ heap w !! this = Some s) as [-> Hs].
  { munfold. destruct (heap w !! this); [|done]. by injection Hload as <- <-. }
  destruct (IsDestroyed s || IsDestroying s) eqn:Hd.
  { by injection H as _ <-. }
  cbv zeta in H.
  set (s0 := set_flags_ s (Z.lor (flags_ s) NGHTTP2_STREAM_DESTROYING))
    in H.
  apply bind_Done in H as ([] & w1 & Hst1 & H).
  apply bind_Done in H as ([] & w2 & Hst2 & H).
  apply bind_Done in H as (wg & w3 & Hget & H).
  apply bind_Done in H as ([] & w4 & Hloop & H).
  apply bind_Done in H as (s4 & w5 & Hl & H).
  apply bind_Done in H as ([] & w6 & Hst & H).
  apply bind_Done in H as ([] & w7 & Hfree & H).
  apply orb_false_iff in Hd as [_ Hd].
  destruct Hok as (Hreg & Hpool & Hnd).
  assert (Hunpooled : this ∉ stream_free_list w).
  { intros Hin. destruct (Hpool this Hin) as (s' & Hs' & Hd').
    congruence. }
  assert (Hflag : IsDestroying s0 = true).
  { unfold IsDestroying. simpl. apply has_flag_lor. }
  (* the state after the object is flagged and unregistered *)
  assert (Hmid : exists s2,
    heap w2 = <[this := s2]> (heap w) /\ IsDestroying s2 = true /\
    stream_free_list w2 = stream_free_list w /\
    forall id q, streams_ w2 !! id = Some q ->
      q <> this /\ streams_ w !! id = Some q).
  { munfold. injection Hst1 as <-. change (session_ s0) with (session_ s)
      in Hst2.
    destruct (session_ s) eqn:Hsess.
    - unfold RemoveStream in Hst2. munfold. injection Hst2 as <-.
      exists (set_session_ s0 false). simpl.
      split; [by rewrite insert_insert_eq|]. split; [done|].
      split; [done|]. intros id q Hq.
      apply lookup_delete_Some in Hq as [Hne Hq]. split; [|done].
      intros ->. destruct (Hreg id this Hq) as (s' & Hs' & Hid & _).
      congruence.
    - injection Hst2 as <-. exists s0. simpl.
      split; [done|]. split; [done|]. split; [done|]. intros id q Hq.
      split; [|done]. intros ->.
      destruct (Hreg id this Hq) as (s' & Hs' & _ & Hsess' & _).
      congruence. }
  destruct Hmid as (s2 & Hheap2 & Hflag2 & Hpool2 & Hothers).
  assert (Hok2 : registry_ok w2).
  { split; [|split].
    - intros id q Hq. destruct (Hothers id q Hq) as [Hne Hq'].
      destruct (Hreg id q Hq') as (s' & Hs' & ?).
      exists s'. by rewrite Hheap2, lookup_insert_ne.
    - intros q Hq. rewrite Hpool2 in Hq.
      destruct (Hpool q Hq) as (s' & Hs' & ?).
      exists s'. rewrite Hheap2, lookup_insert_ne; [done|]. by intros ->.
    - by rewrite Hpool2. }
  (* releasing chunks and headers *)
  assert (Hsteady : steady w2 w7).
  { munfold. injection Hget as _ <-.
    eapply steady_trans;
      [by eapply steady_call_Destroy_chunks_loop|].
    destruct (heap w4 !! this) as [s4'|] eqn:Hs4; [|done].
    injection Hl as <- <-. injection Hst as <-.
    eapply steady_trans; [|by eapply steady_call_FreeHeaders].
    eapply steady_insert; [exact Hs4| |done|done|reflexivity].
    by repeat split. }
  pose proof (steady_registry_ok _ _ Hok2 Hsteady) as (Hreg7 & Hpool7 & Hnd7).
  destruct Hsteady as (Hst7 & Hp7 & Hh7).
  destruct (Hh7 this s2) as (s7 & Hs7 & _ & _ & Hd7);
    [by rewrite Hheap2, lookup_insert_eq|].
  assert (Hunreg7 : forall id q, streams_ w7 !! id = Some q -> q <> this).
  { intros id q Hq. rewrite Hst7 in Hq. by destruct (Hothers id q Hq). }
  assert (Hunpooled7 : this ∉ stream_free_list w7).
  { by rewrite Hp7, Hpool2. }
  (* the object goes to the pool, or is deallocated *)
  unfold stream_free_list_push in H. munfold. injection H as _ <-.
  destruct (length (stream_free_list w7) <? FREELIST_MAX)%nat.
  - split; [|split]; simpl.
    + exact Hreg7.
    + intros q Hq. rewrite Freelist_put_Permutation in Hq.
      apply elem_of_cons in Hq as [->|Hq]; [|by apply Hpool7].
      exists s7. split; [done|]. congruence.
    + rewrite Freelist_put_Permutation. by apply NoDup_cons.
  - split; [|split]; simpl.
    + intros id q Hq. destruct (Hreg7 id q Hq) as (s' & Hs' & ?).
      exists s'. rewrite lookup_delete_ne; [done|].
      intros ->. by eapply Hunreg7.
    + intros q Hq. destruct (Hpool7 q Hq) as (s' & Hs' & ?).
      exists s'. rewrite lookup_delete_ne; [done|]. by intros ->.
    + done.
Qed.

Lemma keeps_registry_Close (this : ptr) (code : Z) :
  keeps_registry (Nghttp2Stream_Close this code).
Proof.
  unfold Nghttp2Stream_Close.
  apply keeps_registry_bind;
    [apply keeps_registry_steady, steady_call_load|intros s].
  apply keeps_registry_bind; [|intros; apply keeps_registry_Destroy].
  apply keeps_registry_steady. steady_step.
Qed.

Lemma keeps_registry_ret {A} (a : A) : keeps_registry (mret a).
Proof. apply keeps_registry_steady, steady_call_ret. Qed.

Lemma keeps_registry_dispatch (c : engine_callback) :
  keeps_registry (dispatch c).
Proof.
  destruct c; cbn [dispatch].
  - unfold OnBeginHeadersCallback.
    apply keeps_registry_bind;
      [apply keeps_registry_steady, steady_call_FindStream|].
    intros [stream|];
      (apply keeps_registry_bind; [|intros; apply keeps_registry_ret]).
    + apply keeps_registry_steady, steady_call_StartHeaders.
    + apply keeps_registry_Init.
  - apply keeps_registry_steady, steady_call_OnHeaderCallback.
  - apply keeps_registry_steady, steady_call_OnFrameReceive.
  - unfold OnStreamClose.
    apply keeps_registry_bind;
      [apply keeps_registry_steady, steady_call_FindStream|].
    intros [stream|]; [|apply keeps_registry_ret].
    apply keeps_registry_bind; [|intros; apply keeps_registry_ret].
    apply keeps_registry_Close.
  - apply keeps_registry_steady, steady_call_OnDataChunkReceived.
Qed.

Lemma keeps_registry_dispatch_all (cs : list engine_callback) :
  keeps_registry (dispatch_all cs).
Proof.
  induction cs as [|c cs IH]; cbn [dispatch_all];
    [apply keeps_registry_ret|].
  apply keeps_registry_bind; [apply keeps_registry_dispatch|by intros].
Qed.

Lemma keeps_registry_mem_recv (buf : uv_buf_t) :
  keeps_registry (nghttp2_session_mem_recv buf).
Proof.
  unfold nghttp2_session_mem_recv.
  apply keeps_registry_bind; [apply keeps_registry_steady; steady_step|].
  intros _.
  apply keeps_registry_bind;
    [apply keeps_registry_steady, steady_call_get|intros w0].
  apply keeps_registry_bind; [apply keeps_registry_dispatch_all|intros _].
  apply keeps_registry_steady. repeat steady_step.
Qed.

Lemma keeps_registry_Write_loop (bufs0 : list uv_buf_t) :
  forall total, keeps_registry (Nghttp2Session_Write_loop bufs0 total).
Proof.
  induction bufs0 as [|buf rest IH]; intros total;
    cbn [Nghttp2Session_Write_loop]; [apply keeps_registry_ret|].
  apply keeps_registry_bind; [apply keeps_registry_mem_recv|intros r].
  destruct (r <? 0); [apply keeps_registry_ret|apply IH].
Qed.

Lemma keeps_registry_Session_Write (bufs0 : list uv_buf_t) :
  keeps_registry (Nghttp2Session_Write bufs0).
Proof.
  unfold Nghttp2Session_Write.
  apply keeps_registry_bind; [apply keeps_registry_Write_loop|].
  intros [r|total]; [apply keeps_registry_ret|].
  apply keeps_registry_bind; [|intros; apply keeps_registry_ret].
  apply keeps_registry_steady, steady_call_SendPendingData.
Qed.

Lemma keeps_registry_run_call (c : core_call) :
  keeps_registry (run_call c).
Proof.
  destruct c; cbn [run_call];
    try (apply keeps_registry_bind; [|intros; apply keeps_registry_ret]).
  - apply keeps_registry_Init.
  - apply keeps_registry_Destroy.
  - apply keeps_registry_steady, steady_call_Write.
  - apply keeps_registry_steady, steady_call_ReadStart.
  - apply keeps_registry_steady, steady_call_ReadStop.
  - apply keeps_registry_steady, steady_call_OnStreamRead.
  - apply keeps_registry_dispatch.
  - apply keeps_registry_Session_Write.
  - apply keeps_registry_steady, steady_call_SendPendingData.
Qed.

Lemma keeps_registry_run_calls (cs : list core_call) :
  keeps_registry (run_calls cs).
Proof.
  induction cs as [|c cs IH]; cbn [run_calls];
    [apply keeps_registry_ret|].
  apply keeps_registry_bind; [apply keeps_registry_run_call|by intros].
Qed.

(** X14. Whatever the consumer and the engine call, and in whatever
    order (streams created, destroyed, written to, started, stopped, pulled
    from; engine callbacks; session writes and flushes), a run that
    returns keeps the registry sound: every registered id maps to a live
    stream object that carries this id, is attached to the session and is
    not being destroyed, every pooled object is live and was destroyed, and
    no object is pooled twice.  So [FindStream] never hands out a freed or
    a pooled object, and [Init] never recycles a registered one. *)
Theorem registry_stays_sound (cs : list core_call) (w w' : Session) :
  registry_ok w ->
  run_calls cs w = Done (tt, w') ->
  registry_ok w' /\
  forall id p, streams_ w' !! id = Some p ->
    ~ p ∈ stream_free_list w' /\
    exists s, heap w' !! p = Some s /\ id_ s = id /\
              IsDestroying s = false.
Proof.
  intros Hok H.
  assert (Hok' : registry_ok w').
  { by eapply keeps_registry_run_calls. }
  split; [exact Hok'|].
  destruct Hok' as (Hreg & Hpool & _). intros id p Hid.
  destruct (Hreg id p Hid) as (s & Hs & ? & ? & Hd).
  split; [|by exists s].
  intros Hin. destruct (Hpool p Hin) as (s' & Hs' & Hd'). congruence.
Qed.

(** ** Which entry points do input and output *)

Lemma io_OnStreamRead_bufs (head : nghttp2_stream_write_queue) :
  forall (fuel : nat) (s : Nghttp2Stream) (remaining offset : nat)
         (evs : list event) r,
    OnStreamRead_bufs fuel head s remaining offset evs = Done r ->
    io r.2 = io evs.
Proof.
  induction fuel as [|fuel IH]; intros s remaining offset evs r H;
    [done|].
  cbn [OnStreamRead_bufs] in H.
  destruct (queue_head_index_ s <? length (bufs head))%nat;
    [|by injection H as <-].
  destruct (remaining =? 0)%nat; [by injection H as <-|].
  destruct (length (nth (queue_head_index_ s) (bufs head) [])
            <? queue_head_offset_ s)%nat; [done|].
  apply IH in H. rewrite H, io_app. simpl. apply app_nil_r.
Qed.

Lemma io_OnStreamRead_queue (q : list nghttp2_stream_write_queue) :
  forall (s : Nghttp2Stream) (remaining offset : nat) (evs : list event)
         r,
    OnStreamRead_queue q s remaining offset evs = Done r ->
    io r.2 = io evs.
Proof.
  induction q as [|head next IH]; intros s remaining offset evs r H.
  - by injection H as <-.
  - cbn [OnStreamRead_queue] in H.
    destruct (OnStreamRead_bufs _ head s remaining offset evs)
      as [[[[[g s1] rem1] off1] evs1]| | |] eqn:E; try done.
    apply io_OnStreamRead_bufs in E. simpl in E.
    destruct g.
    + by injection H as <-.
    + destruct (cb head); [|done]. apply IH in H.
      rewrite H, io_app, E. simpl. apply app_nil_r.
Qed.

Lemma quiet_OnStreamRead (id : Z) (buf_length : nat) (flags : Z) :
  quiet (OnStreamRead id buf_length flags).
Proof.
  unfold OnStreamRead.
  apply quiet_bind; [apply quiet_FindStream|intros o].
  apply quiet_bind; [apply quiet_deref|intros p].
  apply quiet_bind; [apply quiet_load|intros s].
  destruct (OnStreamRead_queue (queue_ s) s buf_length 0 [])
    as [[[s1 off1] evs1]| | |] eqn:E;
    [|apply quiet_fail_abort|apply quiet_fail_undefined|by intros w a w' H].
  apply io_OnStreamRead_queue in E. simpl in E.
  apply quiet_bind; [apply quiet_store|intros _].
  apply quiet_bind; [by apply quiet_emit|intros _].
  quiet_tac.
Qed.

(** X15. Of all entry points, only [Nghttp2Session::Write] and
    [SendPendingData] feed the engine's parser or hand bytes to the
    transport.  Creating or destroying a stream, a stream write, starting
    or stopping reading, a data pull and every engine callback, when they
    return, leave the traffic with parser and transport as it was; in
    particular no callback re-enters the parser. *)
Theorem only_session_write_does_io (c : core_call) (w w' : Session) :
  is_io_call c = false ->
  run_call c w = Done (tt, w') ->
  io (trace w') = io (trace w).
Proof.
  intros Hc H.
  assert (Hq : quiet (run_call c)); [|by apply (Hq w tt w')].
  clear H. destruct c; try discriminate Hc; cbn [run_call].
  - unfold Nghttp2Stream_Init, AddStream. quiet_tac.
  - apply quiet_Destroy.
  - unfold Nghttp2Stream_Write. quiet_tac.
  - unfold ReadStart, nghttp2_session_set_local_window_size. quiet_tac.
  - unfold ReadStop, nghttp2_session_set_local_window_size,
      nghttp2_session_get_stream_local_window_size. quiet_tac.
  - apply quiet_bind; [apply quiet_OnStreamRead|intros; apply quiet_ret].
  - apply quiet_bind; [apply quiet_dispatch|intros; apply quiet_ret].
Qed.

(** ** Destroying a stream *)

(** [Destroy] through an object whose destroying or destroyed flag is
    set. *)
Lemma Destroy_flagged (w : Session) (this : ptr) (s : Nghttp2Stream) :
  heap w !! this = Some s ->
  IsDestroyed s || IsDestroying s = true ->
  Nghttp2Stream_Destroy this w = Done (tt, w).
Proof.
  intros Hs Hd. unfold Nghttp2Stream_Destroy. munfold.
  rewrite Hs, Hd. reflexivity.
Qed.

(** C9, as the code has it.  [Destroy] on a stream object that is
    allocated and has its destroying or destroyed flag set returns
    without changing the session, whenever it is called.  The first
    [Destroy] of a live stream whose chunks and headers form lists sets
    the flag and, when the stream pool has room, leaves the object in the
    pool.  From then on, after whatever the consumer and the engine call,
    a [Destroy] through the object changes nothing as long as the pool
    still holds the object: registry, pools, buffered data and trace
    stay as they are. *)
Theorem Destroy_twice (w : Session) (this : ptr) (s : Nghttp2Stream)
    (cnodes : list (ptr * uv_buf_t))
    (hnodes : list (ptr * nghttp2_header_list)) :
  heap w !! this = Some s ->
  (IsDestroyed s || IsDestroying s = true ->
     Nghttp2Stream_Destroy this w = Done (tt, w)) /\
  (registry_ok w ->
   IsDestroyed s || IsDestroying s = false ->
   (length (stream_free_list w) < FREELIST_MAX)%nat ->
   chain (data_chunks w) (data_chunks_head_ s)
     (map with_buf cnodes) ->
   NoDup (map fst cnodes) ->
   chain (header_nodes w) (current_headers_head_ s) hnodes ->
   NoDup (map fst hnodes) ->
     exists w1,
       Nghttp2Stream_Destroy this w = Done (tt, w1) /\
       this ∈ stream_free_list w1 /\
       Nghttp2Stream_Destroy this w1 = Done (tt, w1) /\
       forall (cs : list core_call) (w2 : Session),
         run_calls cs w1 = Done (tt, w2) ->
         this ∈ stream_free_list w2 ->
         Nghttp2Stream_Destroy this w2 = Done (tt, w2)).
Proof.
  intros Hs. split; [by apply Destroy_flagged|].
  intros Hok Hd Hroom Hcc Hcnd Hhc Hhnd.
  assert (Hpooled : forall w0, registry_ok w0 ->
            this ∈ stream_free_list w0 ->
            Nghttp2Stream_Destroy this w0 = Done (tt, w0)).
  { intros w0 (_ & Hpool & _) Hin.
    destruct (Hpool this Hin) as (s0 & Hs0 & Hd0).
    eapply Destroy_flagged; [exact Hs0|].
    rewrite Hd0. apply orb_true_r. }
  pose proof (Destroy_first w this s cnodes hnodes Hs Hd Hcc Hcnd Hhc Hhnd)
    as Hrun.
  cbn zeta in Hrun. apply Nat.ltb_lt in Hroom. rewrite Hroom in Hrun.
  eexists. split; [exact Hrun|].
  pose proof (keeps_registry_Destroy this _ _ _ Hok Hrun) as Hok1.
  assert (Hin1 : this ∈ Freelist_put (stream_free_list w) this).
  { rewrite Freelist_put_Permutation. by left. }
  split; [exact Hin1|]. split; [by apply Hpooled|].
  intros cs w2 Hcs Hin2. apply Hpooled; [|exact Hin2].
  by eapply keeps_registry_run_calls.
Qed.
End Core.

(** * The theorems at sample inputs *)

Lemma Write_not_writable_witness :
  heap (sample_session_with sample_shut_stream) !! 1%positive
    = Some sample_shut_stream /\
  IsWritable sample_writable sample_shut_stream = false /\
  Nghttp2Stream_Write sample_writable 1%positive 7 [sample_bytes 3] (Some 0%nat)
    (sample_session_with sample_shut_stream)
  = Done (0, set_trace (sample_session_with sample_shut_stream)
               [EvWriteCb 0 7 UV_EOF]).
Proof.
  split; [reflexivity|]. split; [reflexivity|].
  apply (Write_not_writable sample_writable
           (sample_session_with sample_shut_stream) 1%positive
           sample_shut_stream 7%nat [sample_bytes 3] (Some 0%nat));
    reflexivity.
Defined.

Lemma ReadStop_twice_witness :
  exists w1 s1,
    ReadStop 1%positive (sample_session_with sample_reading_stream)
      = Done (tt, w1) /\
    heap w1 !! 1%positive = Some s1 /\
    local_window_size w1 1 = 0 /\
    prev_local_window_size_ s1 = 65535 /\
    ReadStop 1%positive w1 = Done (tt, w1).
Proof.
  apply (ReadStop_twice (sample_session_with sample_reading_stream)
           1%positive sample_reading_stream); reflexivity.
Defined.

Lemma Destroy_twice_witness :
  exists w1,
    Nghttp2Stream_Destroy sample_stack 1%positive sample_session
      = Done (tt, w1) /\
    1%positive ∈ stream_free_list w1 /\
    Nghttp2Stream_Destroy sample_stack 1%positive w1 = Done (tt, w1) /\
    forall (cs : list core_call) (w2 : Session),
      run_calls sample_writable 4 sample_no_trailers sample_mem_recv
        sample_stack cs w1 = Done (tt, w2) ->
      1%positive ∈ stream_free_list w2 ->
      Nghttp2Stream_Destroy sample_stack 1%positive w2 = Done (tt, w2).
Proof.
  apply (proj2 (Destroy_twice sample_writable 4 sample_no_trailers
                  sample_mem_recv sample_stack sample_session 1%positive
                  sample_stream [] [] eq_refl));
    [|reflexivity|vm_compute; lia|reflexivity|constructor|reflexivity
     |constructor].
  split; [|split].
  - intros id p H.
    change (({[1 := 1%positive]} : gmap Z ptr) !! id = Some p) in H.
    apply lookup_singleton_Some in H as [<- <-].
    by exists sample_stream.
  - intros p H. by apply elem_of_nil in H.
  - constructor.
Defined.

Lemma unknown_stream_close_ignored_witness :
  OnStreamClose sample_stack 3 8 sample_session
    = Done (0, sample_session) /\
  (forall frame, hd_stream_id frame = 3 ->
     HandleDataFrame sample_stack frame sample_session = Abort) /\
  (forall frame, headers_frame_id frame = 3 ->
     HandleHeadersFrame sample_stack frame sample_session = Abort).
Proof.
  apply (unknown_stream_close_ignored sample_stack sample_session 3 8).
  reflexivity.
Defined.

Lemma data_frame_delivered_chunk_by_chunk_witness :
  exists w1 w2 s2,
    dispatch_all sample_stack
      [on_data_chunk_recv 0 1 (sample_bytes 6);
       on_data_chunk_recv 0 1 (sample_bytes 4)] sample_session
      = Done (tt, w1) /\
    trace w1 = [] /\
    dispatch sample_stack (on_frame_recv (sample_frame NGHTTP2_DATA 1)) w1
      = Done (0, w2) /\
    trace w2 = [EvOnDataChunk 1%positive (sample_bytes 6);
                EvOnDataChunk 1%positive (sample_bytes 4)] /\
    on_data_calls (trace w2)
      = [(1%positive, sample_bytes 6); (1%positive, sample_bytes 4)] /\
    heap w2 !! 1%positive = Some s2 /\
    data_chunks_head_ s2 = None /\ data_chunks_tail_ s2 = None.
Proof.
  apply (data_frame_delivered_chunk_by_chunk sample_stack sample_session
           1 1%positive sample_stream
           [(0, sample_bytes 6); (0, sample_bytes 4)]
           (sample_frame NGHTTP2_DATA 1)); try reflexivity.
  split; [constructor|]. intros p H. by apply elem_of_nil in H.
Defined.

Lemma Session_Write_feeds_in_order_witness :
  (exists w2,
     Nghttp2Session_Write 4 sample_mem_recv sample_stack
       [sample_bytes 3; []; sample_bytes 2] sample_session
     = Done (-505, w2) /\
     io (trace w2) = [EvMemRecv (sample_bytes 3); EvMemRecv []]) /\
  (exists w2 flushed last,
     Nghttp2Session_Write 4 sample_mem_recv sample_stack
       [sample_bytes 3; sample_bytes 2] sample_session
     = Done (5, w2) /\
     io (trace w2)
     = [EvMemRecv (sample_bytes 3); EvMemRecv (sample_bytes 2)]
       ++ map EvSend (flushed ++ [last])).
Proof.
  destruct (Session_Write_feeds_in_order 4 sample_mem_recv sample_stack
              sample_session)
    as [Hfail Hok].
  split.
  - eexists.
    eapply (Hfail [sample_bytes 3] [] [sample_bytes 2] [3]);
      [vm_compute; reflexivity | apply Forall_nonneg; reflexivity
      | vm_compute; reflexivity | lia].
  - edestruct (Hok [sample_bytes 3; sample_bytes 2] [3; 2])
      as (w2 & flushed & last & _ & Hrun & Hio);
      [vm_compute; reflexivity | apply Forall_nonneg; reflexivity
      | reflexivity | lia |].
    exists w2, flushed, last. split; [exact Hrun | exact Hio].
Defined.

Lemma pull_status_when_queue_empties_witness :
  OnStreamRead sample_writable sample_no_trailers 1 10 0 sample_session
  = Done ((NGHTTP2_ERR_DEFERRED, 0), sample_session) /\
  exists w2,
    OnStreamRead sample_writable sample_no_trailers 1 10 0
      (sample_session_with sample_shut_stream)
    = Done ((0, NGHTTP2_DATA_FLAG_EOF), w2) /\
    trace w2 = [EvOnTrailers 1%positive].
Proof.
  split.
  - destruct (pull_status_when_queue_empties sample_writable
                sample_no_trailers sample_session 1 1%positive sample_stream
                10%nat 0)
      as (s' & offset & evs & Hq & Ho & _ & Hdef & _ & _);
      [reflexivity | reflexivity | vm_compute; lia | constructor |].
    vm_compute in Hq. injection Hq as <- <- <-.
    rewrite Hdef by reflexivity. reflexivity.
  - destruct (pull_status_when_queue_empties sample_writable
                sample_no_trailers (sample_session_with sample_shut_stream)
                1 1%positive sample_shut_stream 10%nat 0)
      as (s' & offset & evs & Hq & Ho & _ & _ & _ & Heof);
      [reflexivity | reflexivity | vm_compute; lia | constructor |].
    vm_compute in Hq. injection Hq as <- <- <-.
    destruct Heof as (flags' & w2 & Hrun & _ & Hnone & _);
      [reflexivity | reflexivity |].
    destruct Hnone as [-> ->]; [reflexivity|].
    eexists. split; [exact Hrun | reflexivity].
Defined.

(** * Where the code and its description part *)

(** C1, as stated, fails: for a DATA frame received as a chunk of six bytes
    and a chunk of four, the consumer gets two calls, one per chunk, and not
    one call with the ten bytes. *)
Lemma data_frame_not_one_aggregate :
  let after :=
    dispatch_all sample_stack
      [on_data_chunk_recv 0 1 (sample_bytes 6);
       on_data_chunk_recv 0 1 (sample_bytes 4);
       on_frame_recv (sample_frame NGHTTP2_DATA 1)] sample_session in
  option_map on_data_calls (trace_after after)
    = Some [(1%positive, sample_bytes 6); (1%positive, sample_bytes 4)] /\
  option_map on_data_calls (trace_after after)
    <> Some [(1%positive, sample_bytes 6 ++ sample_bytes 4)].
Proof.
  cbv zeta. split; [vm_compute; reflexivity|].
  vm_compute. intros H. discriminate H.
Qed.

(** C5, as stated, fails: a pull that copies the three bytes of the only
    queued request empties the queue of a writable stream and returns 3,
    not the deferred status. *)
Lemma pull_not_deferred_after_copying :
  let after :=
    OnStreamRead sample_writable sample_no_trailers 1 10 0
      (sample_session_with sample_queued_stream) in
  result_of after = Some (3, 0) /\
  result_of after <> Some (NGHTTP2_ERR_DEFERRED, 0) /\
  option_map queue_ (stream_after 1%positive after) = Some [] /\
  option_map (IsWritable sample_writable) (stream_after 1%positive after)
    = Some true.
Proof.
  cbv zeta. split; [vm_compute; reflexivity|].
  split; [vm_compute; intros H; discriminate H|].
  split; vm_compute; reflexivity.
Qed.

(** C9, as stated, fails.  After a [Destroy] of stream 1, the [Init] of
    stream 5 takes the object of stream 1 from the pool; a later
    [Destroy] through stream 1's object then finds no flag set, and
    unregisters stream 5.  And when the stream pool is full, the first
    [Destroy] deallocates the object, and a second one reads freed
    memory. *)
Lemma Destroy_later_not_a_no_op :
  (exists w1 w2 w3,
     Nghttp2Stream_Destroy sample_stack 1%positive sample_session
       = Done (tt, w1) /\
     Nghttp2Stream_Init 5 NGHTTP2_HCAT_RESPONSE w1
       = Done (1%positive, w2) /\
     streams_ w2 !! 5 = Some 1%positive /\
     Nghttp2Stream_Destroy sample_stack 1%positive w2 = Done (tt, w3) /\
     streams_ w3 !! 5 = None) /\
  (exists w1,
     Nghttp2Stream_Destroy sample_stack 1%positive sample_session_full_pool
       = Done (tt, w1) /\
     heap w1 !! 1%positive = None /\
     Nghttp2Stream_Destroy sample_stack 1%positive w1 = Undefined).
Proof.
  split.
  - eexists _, _, _. split; [vm_compute; reflexivity|].
    split; [vm_compute; reflexivity|]. split; [vm_compute; reflexivity|].
    split; vm_compute; reflexivity.
  - eexists. split; [vm_compute; reflexivity|].
    split; vm_compute; reflexivity.
Qed.

(** C2 fails on the code.  With send buffers of four bytes and one chunk of
    ten, the third buffer repeats bytes 4 and 5 where bytes 8 and 9 belong.
    With send buffers of 65536 bytes and one chunk of 200000, the pipeline
    hands over 200000 bytes, but the byte at position 131072 is the byte of
    the chunk at position 65536, which differs from the one at 131072. *)
Theorem SendPendingData_resends_bytes :
  (let data := sample_bytes 10 in
   let after :=
     SendPendingData 4 (set_pending_send sample_session [data]) in
   option_map sent (trace_after after)
     = Some [take 4 data; take 4 (drop 4 data); take 2 (drop 4 data)] /\
   flushed_by after <> Some data) /\
  (let data := sample_bytes sample_stream_length in
   let after :=
     SendPendingData sample_send_buffer_len
       (set_pending_send sample_session [data]) in
   option_map (fun l => Z.of_nat (length l)) (flushed_by after)
     = Some 200000 /\
   option_map (fun l => nth (Z.to_nat 131072) l x00) (flushed_by after)
     = Some (nth (Z.to_nat 65536) data x00) /\
   nth (Z.to_nat 65536) data x00 <> nth (Z.to_nat 131072) data x00).
Proof.
  cbv zeta. split; [split|split; [|split]].
  - vm_compute. reflexivity.
  - vm_compute. intros H. discriminate H.
  - vm_compute. reflexivity.
  - vm_compute. reflexivity.
  - vm_compute. intros H. discriminate H.
Qed.

(** C3 fails on the code.  [Write] takes a request without a completion
    callback on a writable stream, as it takes one on a stream that is
    not writable; the pull that has copied the request's bytes then calls
    through the null callback.  The request written after it, with a
    callback, is never completed. *)
Theorem pull_calls_null_callback :
  (exists w1 s1,
     Nghttp2Stream_Write sample_writable 1%positive 7 [sample_bytes 3] None
       sample_session = Done (0, w1) /\
     heap w1 !! 1%positive = Some s1 /\
     queue_ s1 = [{| cb := None; req := 7%nat; bufs := [sample_bytes 3] |}]) /\
  Nghttp2Stream_Write sample_writable 1%positive 7 [sample_bytes 3] None
    (sample_session_with sample_shut_stream)
  = Done (0, sample_session_with sample_shut_stream) /\
  run_ops sample_writable sample_no_trailers 1%positive 1
    [OpWrite 7 [sample_bytes 3] None;
     OpWrite 8 [sample_bytes 2] (Some 0%nat);
     OpRead 10 0] sample_session
  = Undefined.
Proof.
  split; [|split].
  - eexists _, _. split; [vm_compute; reflexivity|].
    split; vm_compute; reflexivity.
  - vm_compute. reflexivity.
  - vm_compute. reflexivity.
Qed.

(** C6 fails on the code.  [OnHeaderCallback] sets the name and the
    value of the node it takes from the pool, and leaves the node's link
    to its successor as the pool hands it out; [FreeHeaders] pools the
    nodes with their links.  After a block of two pairs on stream 1, let a
    block of one pair follow.  When the pool hands out first what it was
    given first, the node it hands out still points to the second node of
    the first block, and [OnHeaders] gets two entries: the pair of the
    block, and the second pair of the block before.  When the pool hands
    out first what it was given last, a second block of two pairs gets
    the two nodes linked in a circle; [FreeHeaders] goes around it until
    the pool is full, deallocates both nodes and then reads one of
    them. *)
Theorem recycled_header_nodes_keep_links :
  let frame := sample_frame NGHTTP2_HEADERS 1 in
  let block1 :=
    [on_header frame "method" "GET" 0; on_header frame "path" "/" 0;
     on_frame_recv frame] in
  (let after :=
     dispatch_all sample_queue
       (block1 ++ [on_header frame "status" "200" 0; on_frame_recv frame])
       sample_session in
   option_map on_headers_calls (trace_after after)
   = Some [(1%positive,
            [{| name := "method"; value := "GET" |};
             {| name := "path"; value := "/" |}],
            NGHTTP2_HCAT_REQUEST, 4);
           (1%positive,
            [{| name := "status"; value := "200" |};
             {| name := "path"; value := "/" |}],
            NGHTTP2_HCAT_REQUEST, 4)]) /\
  dispatch_all sample_stack
    (block1 ++ [on_header frame "age" "0" 0; on_header frame "via" "x" 0;
                on_frame_recv frame])
    sample_session
  = Undefined.
Proof.
  cbv zeta. split; vm_compute; reflexivity.
Qed.

(** * Further properties at sample inputs *)

Lemma SendPendingData_fills_buffers_witness :
  exists flushed last w',
    SendPendingData 4
      (set_pending_send sample_session [sample_bytes 10; sample_bytes 3])
    = Done (tt, w') /\
    pending_send w' = [] /\
    sent (trace w') = flushed ++ [last] /\
    Forall (fun b => length b = 4%nat) flushed /\
    (length last <= 4)%nat /\
    length (concat (flushed ++ [last])) = 13%nat.
Proof.
  apply (SendPendingData_fills_buffers 4
           (set_pending_send sample_session
              [sample_bytes 10; sample_bytes 3])).
  - lia.
  - repeat (apply List.Forall_cons; [simpl; lia|]). apply List.Forall_nil.
Defined.

Lemma OnStreamRead_within_buffer_witness :
  exists r flags' w' evs,
    OnStreamRead sample_writable sample_no_trailers 1 2 0
      (sample_session_with sample_queued_stream)
    = Done ((r, flags'), w') /\
    trace w' = evs /\
    (length (copied evs) <= 2)%nat /\
    (r = NGHTTP2_ERR_DEFERRED /\ copied evs = [] \/
     r = Z.of_nat (length (copied evs))).
Proof.
  apply (OnStreamRead_within_buffer sample_writable sample_no_trailers
           (sample_session_with sample_queued_stream) 1 1%positive
           sample_queued_stream 2%nat 0);
    [reflexivity | reflexivity | vm_compute; lia
    | apply List.Forall_cons; [by eexists | apply List.Forall_nil]].
Defined.

Lemma pulls_copy_written_bytes_in_order_witness :
  exists w' evs,
    run_ops sample_writable sample_no_trailers 1%positive 1
      [OpWrite 7 [sample_bytes 3; sample_bytes 2] (Some 0%nat);
       OpRead 4 0;
       OpWrite 8 [sample_bytes 4] (Some 0%nat);
       OpRead 2 0]
      sample_session = Done (tt, w') /\
    trace w' = evs /\
    copied evs
      `prefix_of` sample_bytes 3 ++ sample_bytes 2 ++ sample_bytes 4.
Proof.
  apply (pulls_copy_written_bytes_in_order sample_writable
           sample_no_trailers sample_session 1 1%positive sample_stream
           [OpWrite 7 [sample_bytes 3; sample_bytes 2] (Some 0%nat);
            OpRead 4 0;
            OpWrite 8 [sample_bytes 4] (Some 0%nat);
            OpRead 2 0]);
    try reflexivity.
  repeat constructor; simpl; eauto.
Defined.

Lemma OnStreamRead_drains_queue_witness :
  exists r flags' w' s' evs,
    OnStreamRead sample_writable sample_no_trailers 1 10 0
      (sample_session_with sample_queued_stream)
    = Done ((r, flags'), w') /\
    heap w' !! 1%positive = Some s' /\
    queue_ s' = [] /\
    trace w' = evs /\
    completions evs = [(7%nat, 0)] /\
    copied evs = sample_bytes 3.
Proof.
  apply (OnStreamRead_drains_queue sample_writable sample_no_trailers
           (sample_session_with sample_queued_stream) 1 1%positive
           sample_queued_stream 10%nat 0);
    [reflexivity | reflexivity | vm_compute; lia
    | apply List.Forall_cons; [by eexists | apply List.Forall_nil]
    | vm_compute; lia].
Defined.

Lemma ReadStart_starts_reading_witness :
  exists w1 s1,
    ReadStart 1%positive
      (set_local_window_size (sample_session_with sample_paused_stream)
         (fun _ => 0))
    = Done (tt, w1) /\
    heap w1 !! 1%positive = Some s1 /\
    IsReading s1 = true /\ IsPaused s1 = false /\
    local_window_size w1 1 = 65535 /\
    ReadStart 1%positive w1 = Done (tt, w1).
Proof.
  destruct (ReadStart_starts_reading
              (set_local_window_size
                 (sample_session_with sample_paused_stream) (fun _ => 0))
              1%positive sample_paused_stream)
    as (w1 & s1 & Hrun & Hs1 & Hr & Hp & _ & Hwin & Hagain);
    [reflexivity | reflexivity |].
  exists w1, s1. repeat split; try done; by apply Hwin.
Defined.

Lemma ReadStop_ReadStart_round_trip_witness :
  exists w1 w2,
    ReadStop 1%positive (sample_session_with sample_reading_stream)
    = Done (tt, w1) /\
    local_window_size w1 1 = 0 /\
    ReadStart 1%positive w1 = Done (tt, w2) /\
    heap w2 = heap (sample_session_with sample_reading_stream) /\
    local_window_size w2 1 = 65535 /\
    streams_ w2 = streams_ (sample_session_with sample_reading_stream) /\
    trace w2 = [].
Proof.
  destruct (ReadStop_ReadStart_round_trip
              (sample_session_with sample_reading_stream) 1%positive
              sample_reading_stream)
    as (w1 & w2 & Hstop & Hzero & Hstart & Hheap & Hwin & _ & Hst & Htr);
    [reflexivity | reflexivity | reflexivity |].
  exists w1, w2. repeat split; try done;
    rewrite Hheap; vm_compute; reflexivity.
Defined.

Lemma Destroy_releases_silently_witness :
  exists w1,
    Nghttp2Stream_Destroy sample_queue 1%positive
      (sample_session_with sample_queued_stream) = Done (tt, w1) /\
    streams_ w1 !! 1 = None /\
    trace w1 = [] /\
    completions (trace w1) = [] /\
    stream_free_list w1 = [1%positive] /\
    exists s1,
      heap w1 !! 1%positive = Some s1 /\
      session_ s1 = false /\
      queue_ s1 = queue_ sample_queued_stream /\
      IsDestroying s1 = true.
Proof.
  destruct (Destroy_releases_silently sample_queue
              (sample_session_with sample_queued_stream) 1%positive
              sample_queued_stream [] [])
    as (w1 & Hrun & Hst & Htr & Hc & _ & _ & Hpool & s1 & Hs1 & _ & _
        & _ & _ & Hsess & Hq & Hd);
    [reflexivity | reflexivity | reflexivity | constructor | reflexivity
    | constructor |].
  exists w1. split; [exact Hrun|]. split; [by rewrite Hst|].
  split; [exact Htr|]. split; [exact Hc|]. split; [exact Hpool|].
  by exists s1.
Defined.

Lemma Destroy_then_Init_recycles_witness :
  exists w1 w2 w3,
    Nghttp2Stream_Destroy sample_queue 1%positive sample_session
    = Done (tt, w1) /\
    stream_free_list w1 = [1%positive] /\
    Nghttp2Stream_Init 5 NGHTTP2_HCAT_RESPONSE w1
    = Done (1%positive, w2) /\
    heap w2 !! 1%positive = Some (ResetState 5 NGHTTP2_HCAT_RESPONSE) /\
    streams_ w2 !! 5 = Some 1%positive /\
    stream_free_list w2 = [] /\
    Nghttp2Stream_Destroy sample_queue 1%positive w2 = Done (tt, w3) /\
    streams_ w3 !! 5 = None.
Proof.
  apply (Destroy_then_Init_recycles sample_queue sample_session 1%positive
           sample_stream 5 NGHTTP2_HCAT_RESPONSE [] []);
    [reflexivity | reflexivity | reflexivity | reflexivity | constructor
    | reflexivity | constructor].
Defined.

Lemma header_block_creates_and_delivers_witness :
  exists stream s' w',
    dispatch_all sample_queue
      [on_begin_headers (sample_frame NGHTTP2_HEADERS 3);
       on_header (sample_frame NGHTTP2_HEADERS 3) "method" "GET" 0;
       on_header (sample_frame NGHTTP2_HEADERS 3) "path" "/" 0;
       on_frame_recv (sample_frame NGHTTP2_HEADERS 3)]
      sample_session = Done (tt, w') /\
    streams_ w' !! 3 = Some stream /\
    heap w' !! stream = Some s' /\
    current_headers_head_ s' = None /\
    current_headers_tail_ s' = None /\
    on_headers_calls (trace w')
    = [(stream,
        [{| name := "method"; value := "GET" |};
         {| name := "path"; value := "/" |}],
        NGHTTP2_HCAT_REQUEST, 4)].
Proof.
  apply (header_block_creates_and_delivers sample_queue sample_session
           (sample_frame NGHTTP2_HEADERS 3)
           [({| name := "method"; value := "GET" |}, 0);
            ({| name := "path"; value := "/" |}, 0)]);
    [left; reflexivity | reflexivity |].
  split; [constructor|]. intros p H. by apply elem_of_nil in H.
Defined.

Lemma header_block_keeps_name_references_witness :
  exists w1 w2,
    dispatch_all sample_queue
      [on_header (sample_frame NGHTTP2_HEADERS 1) "cookie" "a" 0;
       on_header (sample_frame NGHTTP2_HEADERS 1) "cookie" "b" 0]
      sample_session = Done (tt, w1) /\
    dispatch sample_queue (on_frame_recv (sample_frame NGHTTP2_HEADERS 1))
      w1
    = Done (0, w2) /\
    refs_held (trace w1) "cookie"%string = 2 /\
    refs_held (trace w1) "a"%string = 1 /\
    refs_held (trace w2) "cookie"%string = 2 /\
    refs_held (trace w2) "a"%string = 0.
Proof.
  destruct (header_block_keeps_name_references sample_queue sample_session
              (sample_frame NGHTTP2_HEADERS 1) 1%positive sample_stream
              [({| name := "cookie"; value := "a" |}, 0);
               ({| name := "cookie"; value := "b" |}, 0)])
    as (w1 & w2 & Hrun & Hrecv & Hrefs);
    [left; reflexivity | reflexivity | reflexivity | reflexivity
    | reflexivity
    | split; [constructor|intros p H; by apply elem_of_nil in H] |].
  exists w1, w2. split; [exact Hrun|]. split; [exact Hrecv|].
  destruct (Hrefs "cookie"%string) as [Hc1 Hc2].
  destruct (Hrefs "a"%string) as [Ha1 Ha2].
  repeat split; [rewrite Hc1|rewrite Ha1|rewrite Hc2|rewrite Ha2];
    reflexivity.
Defined.

Lemma data_frame_delivers_own_chunks_only_witness :
  exists w' sA',
    dispatch_all sample_queue
      [on_data_chunk_recv 0 1 (sample_bytes 6);
       on_data_chunk_recv 0 3 (sample_bytes 2);
       on_data_chunk_recv 0 1 (sample_bytes 4);
       on_frame_recv (sample_frame NGHTTP2_DATA 1)]
      sample_session_two = Done (tt, w') /\
    on_data_calls (trace w')
    = [(1%positive, sample_bytes 6); (1%positive, sample_bytes 4)] /\
    heap w' !! 1%positive = Some sA' /\
    data_chunks_head_ sA' = None /\ data_chunks_tail_ sA' = None.
Proof.
  apply (data_frame_delivers_own_chunks_only sample_queue
           sample_session_two 1 1%positive sample_stream
           [(0, 1, sample_bytes 6); (0, 3, sample_bytes 2);
            (0, 1, sample_bytes 4)]
           (sample_frame NGHTTP2_DATA 1));
    try reflexivity.
  - intros id H. simpl in H.
    apply lookup_insert_Some in H as [[? _]|[_ H]]; [done|].
    apply lookup_singleton_Some in H as [_ H]. discriminate H.
  - repeat (apply List.Forall_cons;
            [eexists; split; [reflexivity | by eexists]|]).
    apply List.Forall_nil.
  - intros p s t H Ht. simpl in H.
    apply lookup_insert_Some in H as [[_ <-]|[_ H]]; [discriminate Ht|].
    apply lookup_singleton_Some in H as [_ <-]. discriminate Ht.
Defined.

Lemma registry_stays_sound_witness :
  exists w',
    run_calls sample_writable 4 sample_no_trailers sample_mem_recv
      sample_queue
      [call_Init 3 NGHTTP2_HCAT_REQUEST;
       call_Write 1%positive 7 [sample_bytes 3] (Some 0%nat);
       call_SessionWrite [sample_bytes 2];
       call_Destroy 1%positive;
       call_engine (on_begin_headers (sample_frame NGHTTP2_HEADERS 5));
       call_engine (on_stream_close 3 0)]
      sample_session = Done (tt, w') /\
    registry_ok w' /\
    forall id p, streams_ w' !! id = Some p ->
      ~ p ∈ stream_free_list w' /\
      exists s, heap w' !! p = Some s /\ id_ s = id /\
                IsDestroying s = false.
Proof.
  eexists. split; [vm_compute; reflexivity|].
  apply (registry_stays_sound sample_writable 4 sample_no_trailers
           sample_mem_recv sample_queue
           [call_Init 3 NGHTTP2_HCAT_REQUEST;
            call_Write 1%positive 7 [sample_bytes 3] (Some 0%nat);
            call_SessionWrite [sample_bytes 2];
            call_Destroy 1%positive;
            call_engine (on_begin_headers (sample_frame NGHTTP2_HEADERS 5));
            call_engine (on_stream_close 3 0)]
           sample_session);
    [|vm_compute; reflexivity].
  split; [|split].
  - intros id p H.
    change (({[1 := 1%positive]} : gmap Z ptr) !! id = Some p) in H.
    apply lookup_singleton_Some in H as [<- <-].
    by exists sample_stream.
  - intros p H. by apply elem_of_nil in H.
  - constructor.
Defined.

Lemma only_session_write_does_io_witness :
  exists w',
    run_call sample_writable 4 sample_no_trailers sample_mem_recv
      sample_queue (call_OnStreamRead 1 10 0)
      (sample_session_with sample_queued_stream) = Done (tt, w') /\
    io (trace w') = [].
Proof.
  eexists. split; [vm_compute; reflexivity|].
  apply (only_session_write_does_io sample_writable 4 sample_no_trailers
           sample_mem_recv sample_queue (call_OnStreamRead 1 10 0)
           (sample_session_with sample_queued_stream));
    [reflexivity | vm_compute; reflexivity].
Defined.

Lemma SendPendingData_short_chunks_witness :
  exists w',
    SendPendingData 4
      (set_pending_send sample_session [sample_bytes 3; sample_bytes 2])
    = Done (tt, w') /\
    pending_send w' = [] /\
    concat (sent (trace w')) = sample_bytes 3 ++ sample_bytes 2.
Proof.
  apply (SendPendingData_short_chunks 4
           (set_pending_send sample_session
              [sample_bytes 3; sample_bytes 2])).
  repeat (apply List.Forall_cons; [simpl; lia|]). apply List.Forall_nil.
Defined.

Lemma write_completions_fifo_witness :
  exists w' s' evs k,
    run_ops sample_writable sample_no_trailers 1%positive 1
      [OpWrite 7 [sample_bytes 3; sample_bytes 2] (Some 0%nat);
       OpWrite 8 [sample_bytes 4] (Some 0%nat);
       OpRead 4 0;
       OpWrite 9 [] (Some 0%nat);
       OpRead 4 0]
      sample_session = Done (tt, w') /\
    trace w' = trace sample_session ++ evs /\
    heap w' !! 1%positive = Some s' /\
    completions evs
      = map (fun item => (req item, 0))
          (take k
             [{| cb := Some 0%nat; req := 7%nat;
                 bufs := [sample_bytes 3; sample_bytes 2] |};
              {| cb := Some 0%nat; req := 8%nat; bufs := [sample_bytes 4] |};
              {| cb := Some 0%nat; req := 9%nat; bufs := [] |}]) /\
    queue_ s'
      = drop k
          [{| cb := Some 0%nat; req := 7%nat;
              bufs := [sample_bytes 3; sample_bytes 2] |};
           {| cb := Some 0%nat; req := 8%nat; bufs := [sample_bytes 4] |};
           {| cb := Some 0%nat; req := 9%nat; bufs := [] |}] /\
    copied evs
      = all_bytes
          (take k
             [{| cb := Some 0%nat; req := 7%nat;
                 bufs := [sample_bytes 3; sample_bytes 2] |};
              {| cb := Some 0%nat; req := 8%nat; bufs := [sample_bytes 4] |};
              {| cb := Some 0%nat; req := 9%nat; bufs := [] |}])
        ++ consumed_of s' /\
    length (copied evs) = 8%nat /\
    fifo_ok evs
      [{| cb := Some 0%nat; req := 7%nat;
          bufs := [sample_bytes 3; sample_bytes 2] |};
       {| cb := Some 0%nat; req := 8%nat; bufs := [sample_bytes 4] |};
       {| cb := Some 0%nat; req := 9%nat; bufs := [] |}] /\
    head_unfinished s'.
Proof.
  destruct (write_completions_fifo sample_writable sample_no_trailers
              sample_session 1 1%positive sample_stream
              [OpWrite 7 [sample_bytes 3; sample_bytes 2] (Some 0%nat);
               OpWrite 8 [sample_bytes 4] (Some 0%nat);
               OpRead 4 0;
               OpWrite 9 [] (Some 0%nat);
               OpRead 4 0])
    as (w' & s' & evs & k & Hrun & Htr & Hs' & Hcomp & Hq & Hcop & Hlen
        & Hfifo & Hhd);
    try reflexivity.
  { repeat constructor; simpl; eauto. }
  exists w', s', evs, k.
  split; [exact Hrun|]. split; [exact Htr|]. split; [exact Hs'|].
  split; [exact Hcomp|]. split; [exact Hq|]. split; [exact Hcop|].
  split; [exact Hlen|]. split; [exact Hfifo|].
  apply (Hhd [OpWrite 7 [sample_bytes 3; sample_bytes 2] (Some 0%nat);
              OpWrite 8 [sample_bytes 4] (Some 0%nat);
              OpRead 4 0;
              OpWrite 9 [] (Some 0%nat)] 4%nat 0).
  reflexivity.
Defined.

Lemma headers_frame_delivered_once_witness :
  exists w1 w2 s2 evs,
    dispatch_all sample_queue
      [on_header (sample_frame NGHTTP2_HEADERS 1) "method" "GET" 0;
       on_header (sample_frame NGHTTP2_HEADERS 1) "path" "/" 0]
      sample_session = Done (tt, w1) /\
    on_headers_calls (trace w1) = [] /\
    dispatch sample_queue (on_frame_recv (sample_frame NGHTTP2_HEADERS 1))
      w1
      = Done (0, w2) /\
    trace w2 = trace w1 ++ evs /\
    on_headers_calls evs =
      [(1%positive,
        [{| name := "method"; value := "GET" |};
         {| name := "path"; value := "/" |}],
        NGHTTP2_HCAT_REQUEST, 4)] /\
    heap w2 !! 1%positive = Some s2 /\
    current_headers_head_ s2 = None /\ current_headers_tail_ s2 = None.
Proof.
  apply (headers_frame_delivered_once sample_queue sample_session
           (sample_frame NGHTTP2_HEADERS 1) 1%positive sample_stream
           [({| name := "method"; value := "GET" |}, 0);
            ({| name := "path"; value := "/" |}, 0)]);
    [left; reflexivity | reflexivity | reflexivity | reflexivity
    | reflexivity |].
  split; [constructor|]. intros p H. by apply elem_of_nil in H.
Defined.

(** X19. [OnDataChunkReceived] sets the buffer of the node it takes from
    the pool, and leaves the node's link to its successor as the pool
    hands it out; [HandleDataFrame] pools the nodes with their links.
    After a DATA frame of two chunks on stream 1, let a frame of one chunk
    follow.  When the pool hands out first what it was given first, the
    node still points to the second node of the first frame, whose buffer
    was freed: [HandleDataFrame] hands the freed buffer to [OnDataChunk]
    and frees it again.  When the pool hands out first what it was given
    last, a second frame of two chunks gets the two nodes linked in a
    circle, and [HandleDataFrame] comes back to the first of them after
    it has freed its buffer. *)
Theorem recycled_chunk_nodes_keep_links :
  let frame := sample_frame NGHTTP2_DATA 1 in
  let frame1 :=
    [on_data_chunk_recv 0 1 (sample_bytes 6);
     on_data_chunk_recv 0 1 (sample_bytes 4); on_frame_recv frame] in
  option_map on_data_calls
    (trace_after (dispatch_all sample_queue frame1 sample_session))
  = Some [(1%positive, sample_bytes 6); (1%positive, sample_bytes 4)] /\
  dispatch_all sample_queue
    (frame1 ++ [on_data_chunk_recv 0 1 (sample_bytes 2);
                on_frame_recv frame])
    sample_session
  = Undefined /\
  dispatch_all sample_stack
    (frame1 ++ [on_data_chunk_recv 0 1 (sample_bytes 2);
                on_data_chunk_recv 0 1 (sample_bytes 3);
                on_frame_recv frame])
    sample_session
  = Undefined.
Proof.
  cbv zeta. split; [|split]; vm_compute; reflexivity.
Qed.
